(** * tfjs-examples: the glue code of the examples, embedded and verified

    The repository wires a numeric library's layers and training loops to
    small front ends.  What is its own is glue: argument checks, data
    parsing, UI handlers, a shell script.  Each module below embeds one
    source file as Rocq functions and proves the properties stated of it.

    Conventions.
    - A JavaScript number is an exact rational, NaN or an infinity
      ([Js.Number]); rounding of doubles is not modelled.
    - A template literal is kept as its pieces ([Js.template]): the text
      written in the source and the values substituted into it.
    - Code that throws returns a sum, [inl] carrying the error.
    - What a file imports and does not define (the numeric library, other
      files of the example, the browser, the platform) is a type class
      [Host] of its module, and the calls made to it are logged as events. *)

From Stdlib Require Import ZArith QArith Qcanon Qround List String Ascii Lia Bool.
From stdpp Require Import gmap strings list numbers.

Local Open Scope string_scope.
Local Open Scope list_scope.
Local Open Scope Z_scope.

(** ** Text *)

Module Text.

(** [s.startsWith(p)]. *)
Fixpoint startsWith (p s : string) : bool :=
  match p with
  | EmptyString => true
  | String a p' =>
      match s with
      | EmptyString => false
      | String b s' => Ascii.eqb a b && startsWith p' s'
      end
  end.

(** [hay.includes(needle)]. *)
Fixpoint includes (needle hay : string) : bool :=
  startsWith needle hay ||
  match hay with
  | EmptyString => false
  | String _ rest => includes needle rest
  end.

(** ASCII white space. *)
Definition isWhiteSpace (c : ascii) : bool :=
  let n := nat_of_ascii c in
  ((9 <=? n) && (n <=? 13) || (n =? 32))%nat.

Fixpoint trimStart (s : string) : string :=
  match s with
  | EmptyString => EmptyString
  | String c rest => if isWhiteSpace c then trimStart rest else s
  end.

Definition digit (c : ascii) : option Z :=
  let n := nat_of_ascii c in
  if ((48 <=? n) && (n <=? 57))%nat then Some (Z.of_nat (n - 48)) else None.

(** The value of the decimal digits a string starts with, after those
    already read; [None] when there is none. *)
Fixpoint digitsFrom (s : string) (read : option Z) : option Z :=
  match s with
  | EmptyString => read
  | String c rest =>
      match digit c with
      | Some d => digitsFrom rest (Some (10 * default 0 read + d))
      | None => read
      end
  end.

(** [parseInt(s, 10)]; [None] is NaN.  Integers are unbounded. *)
Definition parseInt10 (s : string) : option Z :=
  match trimStart s with
  | String "-" rest => Z.opp <$> digitsFrom rest None
  | String "+" rest => digitsFrom rest None
  | s' => digitsFrom s' None
  end.

End Text.

(** ** JavaScript values *)

Module Js.
Export Text.

Inductive Number : Type :=
| NaN
| NegInf
| Fin (q : Qc)
| PosInf.

Inductive Value : Type :=
| Undefined
| Null
| Bool (b : bool)
| Num (n : Number)
| Str (s : string).

(** The number that an integer literal denotes. *)
Definition int (z : Z) : Value := Num (Fin (Qc_of_Z z)).

(** [a > b] and [a < b] on numbers: false as soon as one side is NaN. *)
Definition gt (a b : Number) : bool :=
  match a, b with
  | NaN, _ | _, NaN => false
  | PosInf, PosInf => false
  | PosInf, _ => true
  | _, PosInf => false
  | NegInf, _ => false
  | _, NegInf => true
  | Fin x, Fin y => bool_decide (y < x)%Qc
  end.

Definition lt (a b : Number) : bool := gt b a.

(** [a / b] on integers. *)
Definition divide (a b : Z) : Number :=
  if b =? 0 then (if 0 <? a then PosInf else if a <? 0 then NegInf else NaN)
  else Fin (Qc_of_Z a / Qc_of_Z b)%Qc.

Definition Math_floor (n : Number) : Number :=
  match n with
  | Fin q => Fin (Qc_of_Z (Qfloor q))
  | _ => n
  end.

(** [Number.isInteger(v)]: a finite number without fractional part;
    false on every value that is not a number. *)
Definition Number_isInteger (v : Value) : bool :=
  match v with
  | Num (Fin q) => Pos.eqb (Qden (this q)) 1
  | _ => false
  end.

(** [Number.isInteger(v) && v > lo].  The right operand of [&&] is only
    evaluated on an integer, so no coercion of [v] takes place; when the
    test passes the integer is returned. *)
Definition integerAbove (lo : Z) (v : Value) : option Z :=
  match v with
  | Num (Fin q) =>
      if Number_isInteger v && gt (Fin q) (Fin (Qc_of_Z lo))
      then Some (Qnum (this q)) else None
  | _ => None
  end.

(** Template literals. *)
Inductive piece : Type :=
| Text (s : string)
| Subst (v : Value).

Definition template : Type := list piece.

(** A template names [word] when the text written in it contains it. *)
Definition names (word : string) (t : template) : bool :=
  existsb (fun p => match p with Text s => includes word s | Subst _ => false end) t.

Record Error : Type := mkError { message : template }.

(** Sequencing of calls that may throw. *)
Definition andThen {E A B} (x : E + A) (k : A -> E + B) : E + B :=
  match x with
  | inl e => inl e
  | inr a => k a
  end.

Notation "'let!' x := c 'in' k" := (andThen c (fun x => k))
  (at level 10, x name, c at level 100, k at level 200).
Notation "'let!' ' p := c 'in' k" := (andThen c (fun x => match x with p => k end))
  (at level 10, p pattern, c at level 100, k at level 200).

End Js.

(** ** snake-dqn/dqn.js

    The layers and the sequential model are the library's.  They are
    embedded with what the file relies on: the configuration of each layer,
    the order of the layers, and the inference of symbolic shapes that
    [model.add] performs (with its errors on inputs of the wrong rank).  The
    allocation of the weights by the library is not part of the embedding. *)

Module Dqn.
Import Js.

(** A dimension of a symbolic shape: [None] is the library's [null]. *)
Definition Shape : Type := list (option Z).

Inductive Activation : Type := relu | linear.

Record Conv2dArgs : Type := {
  filters : Z;
  kernelSize : Z;
  strides : Z;
  conv_activation : Activation;
  inputShape : option (list Z)
}.

Record DenseArgs : Type := {
  units : Z;
  dense_activation : Activation
}.

(** The pre-built layers of the library that the file uses. *)
Inductive Layer : Type :=
| conv2d (args : Conv2dArgs)
| flatten
| dense (args : DenseArgs).

Inductive LayerKind : Type := KConv2d | KFlatten | KDense.

Definition kind (l : Layer) : LayerKind :=
  match l with
  | conv2d _ => KConv2d
  | flatten => KFlatten
  | dense _ => KDense
  end.

(** The input shape a layer was configured with, batch dimension added. *)
Definition batchInputShape (l : Layer) : option Shape :=
  match l with
  | conv2d a => (fun s => None :: map Some s) <$> inputShape a
  | _ => None
  end.

(** Length of a convolution output along one axis, padding 'valid' (the
    default), no dilation. *)
Definition convOutputLength (len : option Z) (filterSize stride : Z) : option Z :=
  (fun n => (n - filterSize + 1 + stride - 1) / stride) <$> len.

(** Product of the dimensions; [None] when one of them is [null]. *)
Fixpoint arrayProd (s : Shape) : option Z :=
  match s with
  | [] => Some 1
  | d :: rest => n ← d; p ← arrayProd rest; Some (n * p)
  end.

(** Shape inference of a layer on a symbolic input; [inl] is the library's
    error on an input of the wrong rank.  Data format is channels-last. *)
Definition computeOutputShape (l : Layer) (input : Shape) : Error + Shape :=
  match l with
  | conv2d a =>
      match input with
      | [b; r; c; _] =>
          inr [b; convOutputLength r (kernelSize a) (strides a);
                  convOutputLength c (kernelSize a) (strides a);
                  Some (filters a)]
      | _ => inl (mkError [Text "expected ndim=4"])
      end
  | flatten =>
      match input with
      | b :: d1 :: d2 :: rest =>
          match arrayProd (d1 :: d2 :: rest) with
          | Some p => inr [b; Some p]
          | None => inl (mkError [Text "The shape of the input to Flatten is not fully defined"])
          end
      | _ => inl (mkError [Text "expected min_ndim=3"])
      end
  | dense a =>
      match input with
      | _ :: _ :: _ => inr (removelast input ++ [Some (units a)])
      | _ => inl (mkError [Text "expected min_ndim=2"])
      end
  end.

(** [tf.sequential()]: the layers added so far, with the symbolic shapes
    of the model's input and output tensors. *)
Record Sequential : Type := {
  layers : list Layer;
  inputs : list Shape;
  outputs : list Shape
}.

Definition sequential : Sequential :=
  {| layers := []; inputs := []; outputs := [] |}.

(** [checkShape] of the library's [Sequential.add]: the shape of the output
    of the layer just added has a negative dimension. *)
Definition hasNegativeDimension (s : Shape) : bool :=
  existsb (fun d => match d with Some n => n <? 0 | None => false end) s.

Definition negativeDimension : Error :=
  mkError [Text "Negative dimension size caused by adding layer"].

(** [model.add(layer)]: the layer is applied to the symbolic output of the
    model so far (to an input of its configured shape when it is the
    first), and refused when its output has a negative dimension. *)
Definition add (model : Sequential) (l : Layer) : Error + Sequential :=
  match layers model with
  | [] =>
      match batchInputShape l with
      | None => inl (mkError [Text "The first layer in a Sequential model must get an `inputShape` or `batchInputShape` argument."])
      | Some s =>
          match computeOutputShape l s with
          | inl e => inl e
          | inr out =>
              if hasNegativeDimension out then inl negativeDimension
              else inr {| layers := [l]; inputs := [s]; outputs := [out] |}
          end
      end
  | _ :: _ =>
      match outputs model with
      | [s] =>
          match computeOutputShape l s with
          | inl e => inl e
          | inr out =>
              if hasNegativeDimension out then inl negativeDimension
              else inr {| layers := layers model ++ [l];
                          inputs := inputs model;
                          outputs := [out] |}
          end
      | _ => inl (mkError [Text "All layers in a Sequential model should have a single output tensor."])
      end
  end.

Definition createDeepQNetwork (h w stateFrames numActions : Value)
  : Error + Sequential :=
  match integerAbove 0 h with
  | None => inl (mkError [Text "Expected height to be a positive integer, but got "; Subst h])
  | Some h' =>
  match integerAbove 0 w with
  | None => inl (mkError [Text "Expected width to be a positive integer, but got "; Subst w])
  | Some w' =>
  match integerAbove 0 stateFrames with
  | None => (* the source substitutes w here *)
      inl (mkError [Text "Expected stateFrames to be a positive integer, but got "; Subst w])
  | Some stateFrames' =>
  match integerAbove 1 numActions with
  | None => inl (mkError [Text "Expected numActions to be a integer greater than 1, ";
                          Text "but got "; Subst numActions])
  | Some numActions' =>
      let model := sequential in
      let! model := add model (conv2d {| filters := 16; kernelSize := 3; strides := 1;
                                         conv_activation := relu;
                                         inputShape := Some [h'; w'; 2 * stateFrames'] |}) in
      let! model := add model (conv2d {| filters := 32; kernelSize := 3; strides := 1;
                                         conv_activation := relu;
                                         inputShape := None |}) in
      let! model := add model flatten in
      let! model := add model (dense {| units := 256; dense_activation := relu |}) in
      let! model := add model (dense {| units := numActions'; dense_activation := linear |}) in
      (* model.summary() prints the layers *)
      inr model
  end end end end.

(** Statements about the arguments: "v is a positive integer", "v is an
    integer greater than 1", and about a call: "it throws", "it throws an
    error whose message names [word]". *)
Definition PositiveInteger (v : Value) : Prop := exists z, v = int z /\ 0 < z.
Definition IntegerAboveOne (v : Value) : Prop := exists z, v = int z /\ 1 < z.


Definition throws {A} (r : Error + A) : Prop := exists e, r = inl e.

(** *** Weights

    A tensor is an immutable value with a type of elements and a shape.  A
    weight of a network is a variable of the library: a cell, named here
    by a number, that holds a tensor and can be assigned another one.  The
    store maps the live variables to the tensor each holds. *)

Inductive DType : Type := float32 | int32 | boolean | complex64 | string_.

#[global] Instance DType_eq_dec : EqDecision DType.
Proof. solve_decision. Defined.

Record Tensor : Type := { dtype : DType; shape : list Z; data : list Qc }.

Definition LayerVariable : Type := positive.

Record LayersModel : Type := { weights : list LayerVariable }.

(** Reading the variables of a list, in order; a variable that is not in
    the store has been disposed of. *)
Fixpoint batchGetValue (store : gmap positive Tensor) (vars : list LayerVariable)
  : Error + list Tensor :=
  match vars with
  | [] => inr []
  | v :: rest =>
      match store !! v with
      | None => inl (mkError [Text "Variable is disposed"])
      | Some t => let! ts := batchGetValue store rest in inr (t :: ts)
      end
  end.

(** [variable.write(newVal)]: the variable must be live and hold a tensor
    of the shape of the new value; the assignment of the library
    ([Variable.assign]) then requires the same type of elements. *)
Definition write (store : gmap positive Tensor) (v : LayerVariable) (newVal : Tensor)
  : Error + gmap positive Tensor :=
  match store !! v with
  | None => inl (mkError [Text "Variable is disposed"])
  | Some val =>
      if negb (bool_decide (shape val = shape newVal))
      then inl (mkError [Text "Shape mismatch"])
      else if negb (bool_decide (dtype newVal = dtype val))
      then inl (mkError [Text "dtype of the new value and previous value must match"])
      else inr (<[v := newVal]> store)
  end.

(** Assigning to each variable of the pairs its tensor, in order. *)
Fixpoint batchSetValue (store : gmap positive Tensor)
  (tuples : list (LayerVariable * Tensor)) : Error + gmap positive Tensor :=
  match tuples with
  | [] => inr store
  | (v, t) :: rest =>
      let! store := write store v t in
      batchSetValue store rest
  end.

(** [network.getWeights()]. *)
Definition getWeights (store : gmap positive Tensor) (network : LayersModel)
  : Error + list Tensor :=
  batchGetValue store (weights network).

(** The loop of [setWeights] that pairs each variable with its new value,
    after checking that the shapes agree. *)
Fixpoint weightValueTuples (store : gmap positive Tensor)
  (params : list LayerVariable) (ws : list Tensor) : Error + list (LayerVariable * Tensor) :=
  match params, ws with
  | p :: params', w :: ws' =>
      match store !! p with
      | None => inl (mkError [Text "Variable is disposed"])
      | Some pv =>
          if decide (shape pv = shape w)
          then let! rest := weightValueTuples store params' ws' in inr ((p, w) :: rest)
          else inl (mkError [Text "Layer weight shape not compatible with provided weight shape"])
      end
  | _, _ => inr []
  end.

(** [network.setWeights(ws)]: the store after the call, or the error. *)
Definition setWeights (store : gmap positive Tensor) (network : LayersModel)
  (ws : list Tensor) : Error + gmap positive Tensor :=
  let params := weights network in
  if negb (Nat.eqb (length params) (length ws))
  then inl (mkError [Text "You called setWeights(weights) with a weight list of the wrong length"])
  else
    let! tuples := weightValueTuples store params ws in
    batchSetValue store tuples.

Definition copyWeights (store : gmap positive Tensor)
  (destNetwork srcNetwork : LayersModel) : Error + gmap positive Tensor :=
  let! ws := getWeights store srcNetwork in
  setWeights store destNetwork ws.

(** Two networks are separate when they share no variable, and a network
    is well formed when its weights are distinct variables. *)
Definition separate (a b : LayersModel) : Prop :=
  forall v, v ∈ weights a -> v ∉ weights b.

(** A list of tensors fits the weights of a network: they are as many,
    and each variable is live and holds a tensor of the shape and the type
    of elements of the tensor at its place in the list (two networks of one
    architecture, as the online and the target network are). *)
Definition fits (store : gmap positive Tensor) (network : LayersModel)
  (ws : list Tensor) : Prop :=
  Forall2 (fun p w => exists pv, store !! p = Some pv /\
                                 shape pv = shape w /\ dtype pv = dtype w)
          (weights network) ws.

(** A later state of the store in which only weights of [network] may
    have been assigned, disposed of or created: what a training step of
    [network] does. *)
Definition modifiedOnly (network : LayersModel) (before after : gmap positive Tensor) : Prop :=
  forall v, v ∉ weights network -> after !! v = before !! v.

(** Two small networks of one architecture, for examples: an online
    network and a target network, with different values. *)
Definition onlineNetwork : LayersModel := {| weights := [1; 2]%positive |}.
Definition targetNetwork : LayersModel := {| weights := [3; 4]%positive |}.

Definition kernel (a b : Z) : Tensor :=
  {| dtype := float32; shape := [1; 2]; data := [Qc_of_Z a; Qc_of_Z b] |}.
Definition bias (a : Z) : Tensor :=
  {| dtype := float32; shape := [1]; data := [Qc_of_Z a] |}.

Definition twoNetworks : gmap positive Tensor :=
  <[1%positive := kernel 5 7]> (<[2%positive := bias 1]>
  (<[3%positive := kernel 0 2]> (<[4%positive := bias 0]> ∅))).

(** The store after a training step of the online network. *)
Definition trained (store : gmap positive Tensor) : gmap positive Tensor :=
  <[1%positive := kernel 6 8]> (<[2%positive := bias 2]> store).

End Dqn.

(** ** quantization/quantize_evaluate.sh *)

Module Quantization.

(** What the script executes: an [echo], a simple command given by its
    words after expansion (every expansion in the script is quoted, hence
    one word), or the sourcing of a file. *)
Inductive Step : Type :=
| Echo (text : string)
| Run (argv : list string)
| Source (file : string).

(** What the script sees of the machine it runs on. *)
Record Env : Type := {
  arg1 : string;                     (* $1 *)
  isFile : string -> bool;           (* [[ -f path ]] *)
  stdout : list string -> string;    (* $(command) *)
  status : Step -> Z                 (* exit status of a step *)
}.

Definition isEmpty (s : string) : bool :=
  match s with EmptyString => true | _ => false end.

(** [set -e]: the steps run in order and the script exits with the status
    of the first one that fails.  The result is the steps executed, the
    failing one included, and the exit status. *)
Fixpoint runAll (env : Env) (steps : list Step) : list Step * Z :=
  match steps with
  | [] => ([], 0)
  | s :: rest =>
      if Z.eqb (status env s) 0
      then let '(done, code) := runAll env rest in (s :: done, code)
      else ([s], status env s)
  end.

Definition converter (bytes jsonPath outPath : string) : Step :=
  Run ["tensorflowjs_converter";
       "--input_format"; "tfjs_layers_model";
       "--output_format"; "tfjs_layers_model";
       "--quantization_bytes"; bytes;
       jsonPath; outPath].

Definition evaluate (modelName jsonPath : string) : Step :=
  Run ["yarn"; "eval-" +:+ modelName; jsonPath].

(** The script; the tests [[ -z ... ]] and [[ ! -f ... ]] are not steps of
    their own, the commands substituted in them are run by [stdout]. *)
Definition quantize_evaluate (env : Env) : list Step * Z :=
  let MODEL_NAME := arg1 env in
  if isEmpty MODEL_NAME then
    ([Echo "Usage: quantize_evaluate <MODEL_NAME>"], 1)
  else
  let MODEL_ROOT := "models/" +:+ MODEL_NAME in
  let MODEL_PATH := MODEL_ROOT +:+ "/original" in
  let MODEL_JSON_PATH := MODEL_PATH +:+ "/model.json" in
  if negb (isFile env MODEL_JSON_PATH) then
    ([Echo ("ERROR: Cannot find model JSON file at " +:+ MODEL_JSON_PATH);
      Echo "       Make sure you train and save a model with the";
      Echo "       following command first: yarn train"], 1)
  else
  if isEmpty (stdout env ["which"; "pip"]) then
    ([Echo "ERROR: Cannot find pip on path.";
      Echo "       Make sure you have python and pip installed."], 1)
  else
  let installVirtualenv :=
    if isEmpty (stdout env ["which"; "virtualenv"])
    then [Echo "Installing virtualenv..."; Run ["pip"; "install"; "virtualenv"]]
    else [] in
  let VENV_DIR := stdout env ["mktemp"; "-d"] +:+ "_venv" in
  let MODEL_PATH_16BIT := MODEL_ROOT +:+ "/quantized-16bit" in
  let MODEL_PATH_8BIT := MODEL_ROOT +:+ "/quantized-8bit" in
  runAll env
    (installVirtualenv ++
     [Run ["mktemp"; "-d"];
      Echo ("Creating virtualenv at " +:+ VENV_DIR +:+ " ...");
      Run ["virtualenv"; VENV_DIR];
      Source (VENV_DIR +:+ "/bin/activate");
      Run ["pip"; "install"; "tensorflowjs"];
      (* Perform 16-bit quantization. *)
      Run ["rm"; "-rf"; MODEL_PATH_16BIT];
      converter "2" MODEL_JSON_PATH MODEL_PATH_16BIT;
      (* Perform 8-bit quantization. *)
      Run ["rm"; "-rf"; MODEL_PATH_8BIT];
      converter "1" MODEL_JSON_PATH MODEL_PATH_8BIT;
      Run ["yarn"];
      (* No quantization, i.e. full 32-bit weight precision. *)
      evaluate MODEL_NAME MODEL_JSON_PATH;
      (* 16-bit quantization. *)
      evaluate MODEL_NAME (MODEL_PATH_16BIT +:+ "/model.json");
      (* 8-bit quantization. *)
      evaluate MODEL_NAME (MODEL_PATH_8BIT +:+ "/model.json");
      (* Clean up the virtualenv *)
      Run ["rm"; "-rf"; VENV_DIR]]).

(** The steps the property is about: the runs of the converter and the
    evaluations. *)
Definition isConverter (s : Step) : bool :=
  match s with
  | Run (prog :: _) => String.eqb prog "tensorflowjs_converter"
  | _ => false
  end.

Definition isEvaluation (s : Step) : bool :=
  match s with
  | Run [prog; script; _] => String.eqb prog "yarn" && Text.startsWith "eval-" script
  | _ => false
  end.

Definition quantizeOrEvaluate (s : Step) : bool := isConverter s || isEvaluation s.

(** The paths of a model name. *)
Definition modelRoot (name : string) : string := "models/" +:+ name.
Definition original (name : string) : string :=
  (modelRoot name +:+ "/original") +:+ "/model.json".
Definition quantized16 (name : string) : string := modelRoot name +:+ "/quantized-16bit".
Definition quantized8 (name : string) : string := modelRoot name +:+ "/quantized-8bit".

(** The steps of interest of a complete run, in order. *)
Definition expected (name : string) : list Step :=
  [converter "2" (original name) (quantized16 name);
   converter "1" (original name) (quantized8 name);
   evaluate name (original name);
   evaluate name (quantized16 name +:+ "/model.json");
   evaluate name (quantized8 name +:+ "/model.json")].

(** A machine on which everything is installed and every step succeeds. *)
Definition readyEnv (name : string) : Env :=
  {| arg1 := name;
     isFile := fun _ => true;
     stdout := fun argv =>
       match argv with
       | ["which"; prog] => "/usr/bin/" +:+ prog
       | _ => "/tmp/tmp.x"
       end;
     status := fun _ => 0 |}.

End Quantization.

(** ** The cart-pole page (UI of the policy-gradient example) *)

Module CartPoleUi.
Import Js.

(** What the page imports: the simulator of ./cart_pole, the policy
    network of ./index, [sum] and [mean] of ./utils, the numeric library and
    the browser.  [World] is all the state behind them: the policy network
    (there is one: the train and test buttons are disabled otherwise) and its
    stored copy, the simulator used for training, the random generators, the
    clock.  Integers read from the inputs are unbounded; [None] is NaN. *)
Class Host : Type := {
  World : Type;
  CartPole : Type;
  newCartPole : CartPole;                                (* new CartPole(true) *)
  setRandomState : CartPole -> World -> CartPole * World;
  (* policyNet.getLogitsAndActions(cartPole.getStateTensor())[1].dataSync()[0] *)
  chooseAction : CartPole -> World -> Z * World;
  update : CartPole -> Z -> CartPole * bool;             (* cartPole.update(action) *)
  parseInt : string -> option Z;                         (* Number.parseInt *)
  parseFloat : string -> Number;                         (* Number.parseFloat *)
  (* policyNet.train(cartPole, optimizer, discountRate, gamesPerIteration,
     maxStepsPerGame), the optimizer being adam(learningRate) *)
  train : Number -> Number -> Number -> Number -> World -> World * (Error + list Z);
  saveModel : World -> World * (Error + unit);           (* policyNet.saveModel() *)
  (* SaveablePolicyNetwork.checkStoredModelStatus(): the date saved *)
  checkStoredModelStatus : World -> World * (Error + option string);
  hasPolicyNet : World -> bool;                          (* policyNet != null *)
  getTime : World -> Z * World;                          (* new Date().getTime() *)
  numTensors : World -> Z;                               (* tf.memory().numTensors *)
  sum : list Z -> Z;
  mean : list Z -> Number
}.

(** The controls of the page that the handlers write. *)
Record Ui : Type := {
  appStatus : template;
  storedModelStatus : template;
  trainStatus : template;
  trainProgress : Number;
  trainSpeed : template;
  createModelDisabled : bool;
  hiddenLayerSizesDisabled : bool;
  deleteStoredModelDisabled : bool;
  trainDisabled : bool;
  testDisabled : bool
}.

(** The inputs of the page that the handlers read. *)
Record Inputs : Type := {
  numIterationsInput : string;
  gamesPerIterationInput : string;
  discountRateInput : string;
  maxStepsPerGameInput : string;
  learningRateInput : string
}.

(** Calls that leave the page, in the order they are made. *)
Inductive Event : Type :=
| SetRandomState
| ChooseAction (action : Z)
| Update (action : Z) (isDone : bool)
| Render
| NextFrame
| Train
| GetTime
| ConsoleLog (text : template)
| PlotSteps (values : list (Z * Number))
| SaveModel
| CheckStoredModelStatus.

Definition logStatus (message : template) (ui : Ui) : Ui :=
  {| appStatus := message;
     storedModelStatus := storedModelStatus ui;
     trainStatus := trainStatus ui;
     trainProgress := trainProgress ui;
     trainSpeed := trainSpeed ui;
     createModelDisabled := createModelDisabled ui;
     hiddenLayerSizesDisabled := hiddenLayerSizesDisabled ui;
     deleteStoredModelDisabled := deleteStoredModelDisabled ui;
     trainDisabled := trainDisabled ui;
     testDisabled := testDisabled ui |}.

(** [totalIterations] is what was read from the input: an integer or NaN. *)
Definition onIterationEnd (iterationCount : Z) (totalIterations : option Z) (ui : Ui) : Ui :=
  {| appStatus := appStatus ui;
     storedModelStatus := storedModelStatus ui;
     trainStatus := [Text "Iteration "; Subst (int iterationCount); Text " of ";
                     Subst (Num (match totalIterations with
                                 | Some n => Fin (Qc_of_Z n) | None => NaN end))];
     (* iterationCount / totalIterations * 100 *)
     trainProgress := match totalIterations with
                      | Some n => divide (iterationCount * 100) n
                      | None => NaN
                      end;
     trainSpeed := trainSpeed ui;
     createModelDisabled := createModelDisabled ui;
     hiddenLayerSizesDisabled := hiddenLayerSizesDisabled ui;
     deleteStoredModelDisabled := deleteStoredModelDisabled ui;
     trainDisabled := trainDisabled ui;
     testDisabled := testDisabled ui |}.

(** [disableUI] and [enableUI] write the same value to the train, test
    and delete buttons. *)
Definition setButtons (disabled : bool) (ui : Ui) : Ui :=
  {| appStatus := appStatus ui;
     storedModelStatus := storedModelStatus ui;
     trainStatus := trainStatus ui;
     trainProgress := trainProgress ui;
     trainSpeed := trainSpeed ui;
     createModelDisabled := createModelDisabled ui;
     hiddenLayerSizesDisabled := hiddenLayerSizesDisabled ui;
     deleteStoredModelDisabled := disabled;
     trainDisabled := disabled;
     testDisabled := disabled |}.

Definition setTrainSpeed (text : template) (ui : Ui) : Ui :=
  {| appStatus := appStatus ui;
     storedModelStatus := storedModelStatus ui;
     trainStatus := trainStatus ui;
     trainProgress := trainProgress ui;
     trainSpeed := text;
     createModelDisabled := createModelDisabled ui;
     hiddenLayerSizesDisabled := hiddenLayerSizesDisabled ui;
     deleteStoredModelDisabled := deleteStoredModelDisabled ui;
     trainDisabled := trainDisabled ui;
     testDisabled := testDisabled ui |}.

Definition disableUI : Ui -> Ui := setButtons true.
Definition enableUI : Ui -> Ui := setButtons false.

(** The controls are enabled: none of the three buttons is disabled. *)
Definition enabled (ui : Ui) : Prop :=
  trainDisabled ui = false /\ testDisabled ui = false /\
  deleteStoredModelDisabled ui = false.

Section Handlers.
Context `{Host}.

(** The state a handler runs in: the controls, the world, the calls made
    so far and the values plotted ([meanStepValues], a variable of the
    file).  An error leaves the state as it is at the throw. *)
Record State : Type := {
  ui : Ui;
  world : World;
  events : list Event;
  meanStepValues : list (Z * Number)
}.

Definition Handler (A : Type) : Type := State -> State * (Error + A).

Definition ret {A} (a : A) : Handler A := fun s => (s, inr a).

Definition bind {A B} (m : Handler A) (k : A -> Handler B) : Handler B :=
  fun s =>
    match m s with
    | (s', inl e) => (s', inl e)
    | (s', inr a) => k a s'
    end.

Definition throw {A} (e : Error) : Handler A := fun s => (s, inl e).

(** [try { body } catch (err) { handler(err) }]. *)
Definition tryCatch (body : Handler unit) (handler : Error -> Handler unit)
  : Handler unit :=
  fun s =>
    match body s with
    | (s', inl e) => handler e s'
    | (s', inr tt) => (s', inr tt)
    end.

Definition onUi (f : Ui -> Ui) : Handler unit :=
  fun s => ({| ui := f (ui s); world := world s; events := events s;
               meanStepValues := meanStepValues s |}, inr tt).

Definition setMeanStepValues (f : list (Z * Number) -> list (Z * Number)) : Handler unit :=
  fun s => ({| ui := ui s; world := world s; events := events s;
               meanStepValues := f (meanStepValues s) |}, inr tt).

(** A call that leaves the page: it is logged, it changes the world and
    it may throw. *)
Definition call {A} (e : Event) (f : World -> World * (Error + A)) : Handler A :=
  fun s =>
    let '(w, r) := f (world s) in
    ({| ui := ui s; world := w; events := events s ++ [e];
        meanStepValues := meanStepValues s |}, r).

Definition emit (e : Event) : Handler unit :=
  call e (fun w => (w, inr tt)).

Notation "'do' x <- m ; k" := (bind m (fun x => k))
  (at level 10, x name, m at level 100, k at level 200).

(** [console.log(`# of tensors: ${tf.memory().numTensors}`)]. *)
Definition logNumTensors : Handler unit :=
  fun s => emit (ConsoleLog [Text "# of tensors: "; Subst (int (numTensors (world s)))]) s.

Definition plotSteps : Handler unit :=
  fun s => emit (PlotSteps (meanStepValues s)) s.

Definition updateLocallyStoredModelStatus : Handler unit :=
  do modelInfo <- call CheckStoredModelStatus checkStoredModelStatus;
  fun s =>
    let present := hasPolicyNet (world s) in
    onUi (fun u =>
      {| appStatus := appStatus u;
         storedModelStatus :=
           match modelInfo with
           | None => [Text "No stored model."]
           | Some dateSaved => [Text "Saved @ "; Subst (Str dateSaved)]
           end;
         trainStatus := trainStatus u;
         trainProgress := trainProgress u;
         trainSpeed := trainSpeed u;
         createModelDisabled := present;
         hiddenLayerSizesDisabled := present;
         deleteStoredModelDisabled :=
           match modelInfo with None => true | Some _ => false end;
         trainDisabled := negb present;
         testDisabled := negb present |}) s.

(** The number read from an input: NaN or an integer. *)
Definition number (n : option Z) : Number :=
  match n with
  | None => NaN
  | Some z => Fin (Qc_of_Z z)
  end.

(** How many [i = 0, 1, ...] satisfy [i < n]. *)
Definition countBelow (n : option Z) : nat :=
  match n with
  | None => O
  | Some z => Z.to_nat z
  end.

(** The iterations [i], [i + 1], ... of the training loop, [count] of
    them; [t0] is the time at the start of the iteration. *)
Fixpoint trainLoop (count : nat) (i : Z) (t0 : Z) (trainIterations : option Z)
  (learningRate discountRate gamesPerIteration maxStepsPerGame : Number)
  : Handler unit :=
  match count with
  | O => ret tt
  | S count' =>
      do gameSteps <- call Train (train learningRate discountRate
                                        gamesPerIteration maxStepsPerGame);
      do t1 <- call GetTime (fun w => let '(t, w') := getTime w in (w', inr t));
      (* sum(gameSteps) / ((t1 - t0) / 1e3) *)
      let stepsPerSecond := divide (sum gameSteps * 1000) (t1 - t0) in
      do _ <- onUi (setTrainSpeed [Subst (Num stepsPerSecond); Text " steps/s"]);
      do _ <- setMeanStepValues (fun values => values ++ [(i + 1, mean gameSteps)]);
      do _ <- logNumTensors;
      do _ <- plotSteps;
      do _ <- onUi (onIterationEnd (i + 1) trainIterations);
      do _ <- emit NextFrame;
      trainLoop count' (i + 1) t1 trainIterations learningRate discountRate
                gamesPerIteration maxStepsPerGame
  end.

(** The body of the [try] of the train button. *)
Definition trainBody (inputs : Inputs) : Handler unit :=
  let trainIterations := parseInt (numIterationsInput inputs) in
  if negb (gt (number trainIterations) (Fin 0%Qc)) then
    throw (mkError [Text "Invalid number of iterations: "; Subst (Num (number trainIterations))])
  else
  let gamesPerIteration := parseInt (gamesPerIterationInput inputs) in
  if negb (gt (number gamesPerIteration) (Fin 0%Qc)) then
    throw (mkError [Text "Invalid # of games per iterations: ";
                    Subst (Num (number gamesPerIteration))])
  else
  let maxStepsPerGame := parseInt (maxStepsPerGameInput inputs) in
  if negb (gt (number maxStepsPerGame) (Fin 1%Qc)) then
    throw (mkError [Text "Invalid max. steps per game: "; Subst (Num (number maxStepsPerGame))])
  else
  let discountRate := parseFloat (discountRateInput inputs) in
  if negb (gt discountRate (Fin 0%Qc) && lt discountRate (Fin 1%Qc)) then
    throw (mkError [Text "Invalid discount rate: "; Subst (Num discountRate)])
  else
  let learningRate := parseFloat (learningRateInput inputs) in
  do _ <- onUi (logStatus [Text "Training policy network... Please wait. Network will be saved to IndexedDB when training is complete."]);
  do _ <- setMeanStepValues (fun _ => []);
  do _ <- onUi (onIterationEnd 0 trainIterations);
  do t0 <- call GetTime (fun w => let '(t, w') := getTime w in (w', inr t));
  do _ <- trainLoop (countBelow trainIterations) 0 t0 trainIterations
            learningRate discountRate (number gamesPerIteration) (number maxStepsPerGame);
  do _ <- call SaveModel saveModel;
  do _ <- updateLocallyStoredModelStatus;
  onUi (logStatus [Text "Training completed."]).

(** The click handler of the train button. *)
Definition trainButton_click (inputs : Inputs) : Handler unit :=
  do _ <- onUi disableUI;
  do _ <- tryCatch (trainBody inputs)
           (fun err => onUi (logStatus (Text "ERROR: " :: message err)));
  onUi enableUI.

(** The hyperparameters as the handler reads them are valid: the number of
    iterations and the games per iteration are greater than 0, the max steps
    per game are greater than 1, the discount rate is greater than 0 and less
    than 1 (comparisons of JavaScript: false on NaN). *)
Definition validHyperparameters (inputs : Inputs) : Prop :=
  gt (number (parseInt (numIterationsInput inputs))) (Fin 0%Qc) = true /\
  gt (number (parseInt (gamesPerIterationInput inputs))) (Fin 0%Qc) = true /\
  gt (number (parseInt (maxStepsPerGameInput inputs))) (Fin 1%Qc) = true /\
  gt (parseFloat (discountRateInput inputs)) (Fin 0%Qc) = true /\
  lt (parseFloat (discountRateInput inputs)) (Fin 1%Qc) = true.

(** *** The test button *)

Record TestState : Type := {
  t_ui : Ui;
  t_world : World;
  t_events : list Event;
  cartPole : CartPole;
  isDone : bool;
  steps : Z
}.

(** The body of the [while] loop. *)
Definition testStep (s : TestState) : TestState :=
  let steps := steps s + 1 in
  let '(action, w) := chooseAction (cartPole s) (t_world s) in
  let u := logStatus [Text "Test in progress. "; Text "Action: ";
                      Subst (Str (if action =? 1 then "←" else " →"));
                      Text " (Step "; Subst (int steps); Text ")"] (t_ui s) in
  let '(cart, isDone) := update (cartPole s) action in
  {| t_ui := u;
     t_world := w;
     t_events := t_events s ++ [ChooseAction action; Update action isDone; Render; NextFrame];
     cartPole := cart;
     isDone := isDone;
     steps := steps |}.

(** [while (!isDone) { ... }], at most [fuel] iterations; [None] when
    the loop has not ended by then. *)
Fixpoint testLoop (fuel : nat) (s : TestState) : option TestState :=
  if isDone s then Some s
  else
    match fuel with
    | O => None
    | S fuel' => testLoop fuel' (testStep s)
    end.

(** The click handler of the test button. *)
Definition testButton_click (fuel : nat) (u : Ui) (w : World) : option (Ui * World * list Event) :=
  let u := disableUI u in
  let '(cart, w) := setRandomState newCartPole w in
  let s := {| t_ui := u; t_world := w; t_events := [SetRandomState];
              cartPole := cart; isDone := false; steps := 0 |} in
  match testLoop fuel s with
  | None => None
  | Some s =>
      let u := logStatus [Text "Test finished. Survived "; Subst (int (steps s));
                          Text " step(s)."] (t_ui s) in
      Some (enableUI u, t_world s,
            t_events s ++ [ConsoleLog [Text "# of tensors: ";
                                       Subst (int (numTensors (t_world s)))]])
  end.

(** An episode: from a simulator and a world, [n] steps of the policy's
    action and [update], the last of which, and only it, returns true. *)
Inductive episode : CartPole -> World -> nat -> World -> Prop :=
| episode_last cart w action w' cart' :
    chooseAction cart w = (action, w') ->
    update cart action = (cart', true) ->
    episode cart w 1 w'
| episode_step cart w action w' cart' n w'' :
    chooseAction cart w = (action, w') ->
    update cart action = (cart', false) ->
    episode cart' w' n w'' ->
    episode cart w (S n) w''.

End Handlers.

(** The results of the calls of [update] in a log, and the number of times
    the simulator was set to a random state. *)
Definition updates (log : list Event) : list bool :=
  omap (fun e => match e with Update _ d => Some d | _ => None end) log.

Definition resets (log : list Event) : nat :=
  length (List.filter (fun e => match e with SetRandomState => true | _ => false end) log).

Definition trainings (log : list Event) : nat :=
  length (List.filter (fun e => match e with Train => true | _ => false end) log).

(** A small host, for examples.  The cart is a position on a line, lost
    beyond 2 on either side; the policy always chooses the action 1, which
    moves the cart to the left; the world counts the random draws and the
    trainings. *)
Definition exampleHost : Host :=
  {| World := nat;
     CartPole := Z;
     newCartPole := 0;
     setRandomState := fun _ w => (1, S w);
     chooseAction := fun _ w => (1, S w);
     update := fun x action =>
       let x' := if action =? 1 then x - 1 else x + 1 in
       (x', (x' <? -2) || (2 <? x'));
     parseInt := parseInt10;
     parseFloat := fun s =>
       if String.eqb s "0.95" then Fin (Q2Qc (95 # 100))
       else match parseInt10 s with Some z => Fin (Qc_of_Z z) | None => NaN end;
     train := fun _ _ _ _ w => (S w, inr [Z.of_nat w + 10; Z.of_nat w + 20]);
     saveModel := fun w => (w, inr tt);
     checkStoredModelStatus := fun w => (w, inr (Some "2019-03-01T00:00:00.000Z"));
     hasPolicyNet := fun _ => true;
     getTime := fun w => (Z.of_nat w * 1000, w);
     numTensors := fun _ => 12;
     sum := fun steps => fold_right Z.add 0 steps;
     mean := fun steps => divide (fold_right Z.add 0 steps) (Z.of_nat (length steps)) |}.

Definition world_ (draws : nat) : @World exampleHost := draws.
Definition cart_ (x : Z) : @CartPole exampleHost := x.

Definition blankUi : Ui :=
  {| appStatus := []; storedModelStatus := []; trainStatus := [];
     trainProgress := Fin 0%Qc; trainSpeed := [];
     createModelDisabled := true; hiddenLayerSizesDisabled := true;
     deleteStoredModelDisabled := false; trainDisabled := false; testDisabled := false |}.

Definition startState : State (H := exampleHost) :=
  {| ui := blankUi; world := world_ 0; events := []; meanStepValues := [] |}.

Definition exampleInputs (numIterations : string) : Inputs :=
  {| numIterationsInput := numIterations;
     gamesPerIterationInput := "20";
     discountRateInput := "0.95";
     maxStepsPerGameInput := "500";
     learningRateInput := "1" |}.

End CartPoleUi.

(** ** The date-conversion page (UI of the sequence-to-sequence example) *)

Module DateConversionUi.
Import Js.

(** Strings are ASCII here: a character is a byte, [length] counts them,
    white space is the ASCII white space and letters are a-z and A-Z. *)

(** [s] without its trailing white space. *)
Fixpoint trimEnd (s : string) : string :=
  match s with
  | EmptyString => EmptyString
  | String c rest =>
      match trimEnd rest with
      | EmptyString => if isWhiteSpace c then EmptyString else String c EmptyString
      | rest' => String c rest'
      end
  end.

Definition trim (s : string) : string := trimEnd (trimStart s).

Definition upper (c : ascii) : ascii :=
  let n := nat_of_ascii c in
  if ((97 <=? n) && (n <=? 122))%nat then ascii_of_nat (n - 32) else c.

Fixpoint toUpperCase (s : string) : string :=
  match s with
  | EmptyString => EmptyString
  | String c rest => String (upper c) (toUpperCase rest)
  end.

(** [s.slice(0, n)]. *)
Definition slice0 (n : nat) (s : string) : string := substring 0 n s.

(** The characters of a string: [s.split('')]. *)
Fixpoint chars (s : string) : list string :=
  match s with
  | EmptyString => []
  | String c rest => String c EmptyString :: chars rest
  end.

(** The double quote character. *)
Definition dquote : string :=
  String (Ascii false true false false false true false false) EmptyString.

(** What the page imports: [INPUT_LENGTH] of ./date_format, the inference
    of ./model on the loaded model, the clock and the heat map of the
    libraries. *)
Class Host : Type := {
  World : Type;
  Attention : Type;
  INPUT_LENGTH : nat;
  (* runSeq2SeqInference(model, inputStr, getAttention), getAttention true *)
  runSeq2SeqInference : string -> World -> World * (Error + (string * Attention));
  (* tf.util.now() - t0, once the inference has returned *)
  elapsed : World -> Number;
  (* tfvis.render.heatmap(...) *)
  heatmap : Attention -> list template -> list template -> World -> World * (Error + unit)
}.

Record Ui : Type := {
  outputDateString : template;
  inferenceTime : template
}.

Inductive Event {Att : Type} : Type :=
| Inference (inputStr : string)
| Heatmap (values : Att) (xLabels yLabels : list template)
| ConsoleError (err : Error).
Arguments Event : clear implicits.

(** The arguments of the inferences in a log. *)
Definition inferences {Att} (log : list (Event Att)) : list string :=
  omap (fun e => match e with Inference i => Some i | _ => None end) log.

Section Handlers.
Context `{Host}.

Definition label (i : nat) (char : string) : template :=
  [Text "("; Subst (int (Z.of_nat i + 1)); Text ") "; Text dquote;
   Subst (Str char); Text dquote].

Definition xLabels (outputStr : string) : list template :=
  imap label (chars outputStr).

(** The loop over [i] from [i] up to [INPUT_LENGTH], [count] labels. *)
Fixpoint yLabelsFrom (count i : nat) (inputStr : string) : list template :=
  match count with
  | O => []
  | S count' =>
      (if (i <? String.length inputStr)%nat
       then label i (match get i inputStr with
                     | Some c => String c EmptyString
                     | None => EmptyString
                     end)
       else [Text "("; Subst (int (Z.of_nat i + 1)); Text ") "; Text dquote; Text dquote])
      :: yLabelsFrom count' (S i) inputStr
  end.

Definition yLabels (inputStr : string) : list template :=
  yLabelsFrom INPUT_LENGTH 0 inputStr.

(** The handler of the change event of the input field, on the value of
    the field: the controls and the world after it, and its log. *)
Definition inputDateString_change (value : string) (ui : Ui) (w : World)
  : Ui * World * list (Event Attention) :=
  let inputStr := toUpperCase (trim value) in
  if (String.length inputStr <? 6)%nat then
    ({| outputDateString := []; inferenceTime := inferenceTime ui |}, w, [])
  else
  let inputStr :=
    if (INPUT_LENGTH <? String.length inputStr)%nat
    then slice0 INPUT_LENGTH inputStr else inputStr in
  match runSeq2SeqInference inputStr w with
  | (w, inl err) =>
      ({| outputDateString := message err; inferenceTime := inferenceTime ui |},
       w, [Inference inputStr; ConsoleError err])
  | (w, inr (outputStr, attention)) =>
      let ui := {| outputDateString := [Subst (Str outputStr)];
                   inferenceTime := [Text "seq2seq onversion took ";
                                     Subst (Num (elapsed w)); Text " ms"] |} in
      let xs := xLabels outputStr in
      let ys := yLabels inputStr in
      match heatmap attention xs ys w with
      | (w, inl err) =>
          ({| outputDateString := message err; inferenceTime := inferenceTime ui |},
           w, [Inference inputStr; Heatmap attention xs ys; ConsoleError err])
      | (w, inr tt) =>
          (ui, w, [Inference inputStr; Heatmap attention xs ys])
      end
  end.

End Handlers.

(** A small host, for examples: inputs of 12 characters, and a model that
    answers with its input. *)
Definition exampleHost : Host :=
  {| World := unit;
     Attention := unit;
     INPUT_LENGTH := 12;
     runSeq2SeqInference := fun inputStr w => (w, inr (inputStr, tt));
     elapsed := fun _ => Fin (Qc_of_Z 3);
     heatmap := fun _ _ _ w => (w, inr tt) |}.

Definition blankUi : Ui := {| outputDateString := [Text "Loading model..."]; inferenceTime := [] |}.

End DateConversionUi.

(** ** The IMDB data loader (data of the sentiment example) *)

Module ImdbData.
Import Js.

Definition DATA_ZIP_URL : string :=
  "https://storage.googleapis.com/learnjs-data/imdb/imdb_tfjs_data.zip".

Definition PAD_CHAR : Z := 0.
Definition OOV_CHAR : Z := 2.
Definition INDEX_FROM : Z := 3.

(** A buffer is the list of its bytes, each between 0 and 255. *)
Definition Buffer : Type := list Z.

(** [x << 24] on a byte: the shift wraps around at 32 bits, signed. *)
Definition shl24 (x : Z) : Z :=
  let u := Z.land (Z.shiftl x 24) (Z.ones 32) in
  if Z.testbit u 31 then u - 2 ^ 32 else u.

(** [buffer.readInt32LE(index)].  A read past the end throws: Node's
    error is ERR_BUFFER_OUT_OF_BOUNDS when the buffer has fewer than 4
    bytes, and ERR_OUT_OF_RANGE (the offset is beyond length - 4)
    otherwise. *)
Definition readInt32LE (buffer : Buffer) (index : nat) : Error + Z :=
  match drop index buffer with
  | first :: b1 :: b2 :: last :: _ =>
      inr (first + b1 * 2 ^ 8 + b2 * 2 ^ 16 + shl24 last)
  | _ =>
      if (length buffer <? 4)%nat
      then inl (mkError [Text "ERR_BUFFER_OUT_OF_BOUNDS"])
      else inl (mkError [Text "ERR_OUT_OF_RANGE"])
  end.

(** [buffer.readUInt8(i)]. *)
Definition readUInt8 (buffer : Buffer) (i : nat) : Error + Z :=
  match buffer !! i with
  | Some b => inr b
  | None => inl (mkError [Text "ERR_OUT_OF_RANGE"])
  end.

(** A tensor of rank 2 and its shape. *)
Record Tensor2d : Type := {
  shape : nat * nat;
  values : list (list Z)
}.

(** [tf.tensor2d(values, shape)]: the values must have the shape given. *)
Definition tensor2d (values : list (list Z)) (shape : nat * nat) : Error + Tensor2d :=
  if (length values =? shape.1)%nat && forallb (fun row => (length row =? shape.2)%nat) values
  then inr {| shape := shape; values := values |}
  else inl (mkError [Text "tensor2d() requires values to have the shape provided"]).

(** Modelled from the spec: padSequences of ./sequence_utils, which is not
    among the sources.  Called with 'pre' and 'pre', it cuts a sequence
    longer than [maxLen] at its start, keeping its last [maxLen] entries,
    and fills a shorter one at its start with [value], so that every
    sequence returned has length [maxLen]. *)
Definition padSequences (sequences : list (list Z)) (maxLen : nat) (value : Z)
  : list (list Z) :=
  map (fun seq =>
         let seq := if (maxLen <? length seq)%nat
                    then drop (length seq - maxLen) seq else seq in
         if (length seq <? maxLen)%nat
         then replicate (maxLen - length seq) value ++ seq else seq)
      sequences.

(** The [while] loop of [loadFeatures], from [index] on.  An iteration
    moves [index] by 4, so [fuel] iterations are enough when [fuel] is the
    number of bytes of the buffer. *)
Fixpoint parseFrom (fuel : nat) (buffer : Buffer) (numWords : Z)
  (sequences : list (list Z)) (seq : list Z) (index : nat)
  : Error + (list (list Z) * list Z) :=
  if (index <? length buffer)%nat then
    match fuel with
    | O => inl (mkError [Text "out of fuel"])
    | S fuel' =>
        let! value := readInt32LE buffer index in
        if value =? 1 then
          (* A new sequence has started. *)
          let sequences := if (0 <? index)%nat then sequences ++ [seq] else sequences in
          parseFrom fuel' buffer numWords sequences [] (index + 4)
        else
          (* Sequence continues. *)
          parseFrom fuel' buffer numWords sequences
                    (seq ++ [if numWords <=? value then OOV_CHAR else value]) (index + 4)
    end
  else inr (sequences, seq).

(** [loadFeatures] on the content of the file. *)
Definition loadFeatures (buffer : Buffer) (numWords : Z) (maxLen : nat) : Error + Tensor2d :=
  let numBytes := length buffer in
  let! '(sequences, seq) := parseFrom numBytes buffer numWords [] [] 0 in
  let sequences := if (0 <? length seq)%nat then sequences ++ [seq] else sequences in
  let paddedSequences := padSequences sequences maxLen PAD_CHAR in
  tensor2d paddedSequences (length paddedSequences, maxLen).

(** The sequences of [loadFeatures] before padding. *)
Definition rawSequences (buffer : Buffer) (numWords : Z) : Error + list (list Z) :=
  let! '(sequences, seq) := parseFrom (length buffer) buffer numWords [] [] 0 in
  inr (if (0 <? length seq)%nat then sequences ++ [seq] else sequences).

(** The file read as consecutive 32-bit integers, little endian. *)
Fixpoint words (buffer : Buffer) (count : nat) : list Z :=
  match count, buffer with
  | S count', first :: b1 :: b2 :: last :: rest =>
      (first + b1 * 2 ^ 8 + b2 * 2 ^ 16 + shl24 last) :: words rest count'
  | _, _ => []
  end.

(** What is recorded for a value that is not the delimiter. *)
Definition recorded (numWords value : Z) : Z :=
  if numWords <=? value then OOV_CHAR else value.

(** [loadTargets] on the content of the file: one row for each byte. *)
Fixpoint readBytes (buffer : Buffer) (count i : nat) : Error + list Z :=
  match count with
  | O => inr []
  | S count' =>
      let! y := readUInt8 buffer i in
      let! ys := readBytes buffer count' (S i) in
      inr (y :: ys)
  end.

Definition loadTargets (buffer : Buffer) : Error + Tensor2d :=
  let numBytes := length buffer in
  let! ys := readBytes buffer numBytes 0 in
  tensor2d (map (fun y => [y]) ys) (length ys, 1%nat).

(** *** Download and extraction

    The file system maps a path to a file, with its content, or to a
    directory.  [path.join] is modelled on paths that need no
    normalization. *)
Inductive Node : Type :=
| File (content : Buffer)
| Directory.

(** What the loader imports from the platform: the directory of temporary
    files, the size [lstat] gives for a directory, the answer of the server
    ([None] when the request fails: the promise of [maybeDownload] is then
    never settled), and the files of an archive, by name. *)
Class Host : Type := {
  tmpdir : string;
  directorySize : nat;
  httpsGet : string -> option Buffer;
  extract : Buffer -> Error + list (string * Buffer)
}.

Inductive Event : Type :=
| Download (sourceURL destPath : string)
| Extract (sourcePath destDir : string).

(** How an asynchronous function ends. *)
Inductive Outcome (A : Type) : Type :=
| Resolved (a : A)
| Rejected (e : Error)
| Pending.
Arguments Resolved {A} a.
Arguments Rejected {A} e.
Arguments Pending {A}.

Definition join (dir name : string) : string := dir +:+ "/" +:+ name.

(** [path.basename] of a URL or path without trailing slash. *)
Fixpoint basenameFrom (s current : string) : string :=
  match s with
  | EmptyString => current
  | String c rest =>
      if Ascii.eqb c "/" then basenameFrom rest EmptyString
      else basenameFrom rest (current +:+ String c EmptyString)
  end.

Definition basename (s : string) : string := basenameFrom s EmptyString.

Definition existsSync (fs : gmap string Node) (path : string) : bool :=
  match fs !! path with Some _ => true | None => false end.

Section Loader.
Context `{Host}.

Definition size (node : Node) : nat :=
  match node with
  | File content => length content
  | Directory => directorySize
  end.

(** [!fs.existsSync(destPath) || fs.lstatSync(destPath).size === 0]. *)
Definition mustDownload (fs : gmap string Node) (destPath : string) : bool :=
  match fs !! destPath with
  | None => true
  | Some node => (size node =? 0)%nat
  end.

Definition readFileSync (fs : gmap string Node) (path : string) : Error + Buffer :=
  match fs !! path with
  | Some (File content) => inr content
  | Some Directory => inl (mkError [Text "EISDIR: illegal operation on a directory"])
  | None => inl (mkError [Text "ENOENT: no such file or directory"])
  end.

(** The file system and the log after the call, and how the call ends. *)
Definition maybeDownload (sourceURL destPath : string) (fs : gmap string Node)
  : gmap string Node * list Event * Outcome unit :=
  if mustDownload fs destPath then
    match fs !! destPath with
    | Some Directory =>
        (* a directory of size zero: the write stream cannot be opened *)
        (fs, [Download sourceURL destPath],
         Rejected (mkError [Text "EISDIR: illegal operation on a directory"]))
    | _ =>
        match httpsGet sourceURL with
        | Some content =>
            (<[destPath := File content]> fs, [Download sourceURL destPath], Resolved tt)
        | None =>
            (<[destPath := File []]> fs, [Download sourceURL destPath], Pending)
        end
    end
  else (fs, [], Resolved tt).

(** The files of an archive written under [destDir]. *)
Fixpoint writeFiles (destDir : string) (files : list (string * Buffer))
  (fs : gmap string Node) : gmap string Node :=
  match files with
  | [] => fs
  | (name, content) :: rest =>
      writeFiles destDir rest (<[join destDir name := File content]> fs)
  end.

(** [extract] (of extract-zip) creates the target directory before it
    opens the archive: the directory is there also when the extraction
    fails. *)
Definition maybeExtract (sourcePath destDir : string) (fs : gmap string Node)
  : gmap string Node * list Event * Outcome unit :=
  if existsSync fs destDir then (fs, [], Resolved tt)
  else
    let created := <[destDir := Directory]> fs in
    match readFileSync created sourcePath with
    | inl err => (created, [Extract sourcePath destDir], Rejected err)
    | inr archive =>
        match extract archive with
        | inl err => (created, [Extract sourcePath destDir], Rejected err)
        | inr files =>
            (writeFiles destDir files created,
             [Extract sourcePath destDir], Resolved tt)
        end
    end.

Definition zipDownloadDest : string := join tmpdir (basename DATA_ZIP_URL).

Definition zipExtractDir : string :=
  substring 0 (String.length zipDownloadDest - 4) zipDownloadDest.

Definition maybeDownloadAndExtract (fs : gmap string Node)
  : gmap string Node * list Event * Outcome string :=
  match maybeDownload DATA_ZIP_URL zipDownloadDest fs with
  | (fs, log, Resolved tt) =>
      match maybeExtract zipDownloadDest zipExtractDir fs with
      | (fs, log', Resolved tt) => (fs, log ++ log', Resolved zipExtractDir)
      | (fs, log', Rejected err) => (fs, log ++ log', Rejected err)
      | (fs, log', Pending) => (fs, log ++ log', Pending)
      end
  | (fs, log, Rejected err) => (fs, log, Rejected err)
  | (fs, log, Pending) => (fs, log, Pending)
  end.

Record Data : Type := {
  xTrain : Tensor2d;
  yTrain : Tensor2d;
  xTest : Tensor2d;
  yTest : Tensor2d
}.

(** [tf.util.assert(expr, msg)]. *)
Definition util_assert (expr : bool) (msg : template) : Error + unit :=
  if expr then inr tt else inl (mkError msg).

(** The part of [loadData] after the [await]. *)
Definition loadFrom (fs : gmap string Node) (dataDir : string) (numWords : Z) (len : nat)
  : Error + Data :=
  let trainFeaturePath := join dataDir "imdb_train_data.bin" in
  let! trainFeatures := readFileSync fs trainFeaturePath in
  let! xTrain := loadFeatures trainFeatures numWords len in
  let testFeaturePath := join dataDir "imdb_test_data.bin" in
  let! testFeatures := readFileSync fs testFeaturePath in
  let! xTest := loadFeatures testFeatures numWords len in
  let trainTargetsPath := join dataDir "imdb_train_targets.bin" in
  let! trainTargets := readFileSync fs trainTargetsPath in
  let! yTrain := loadTargets trainTargets in
  let testTargetsPath := join dataDir "imdb_test_targets.bin" in
  let! testTargets := readFileSync fs testTargetsPath in
  let! yTest := loadTargets testTargets in
  let! _ := util_assert ((shape xTrain).1 =? (shape yTrain).1)%nat
                   [Text "Mismatch in number of examples between xTrain and yTrain"] in
  let! _ := util_assert ((shape xTest).1 =? (shape yTest).1)%nat
                   [Text "Mismatch in number of examples between xTest and yTest"] in
  inr {| xTrain := xTrain; yTrain := yTrain; xTest := xTest; yTest := yTest |}.

Definition loadData (numWords : Z) (len : nat) (fs : gmap string Node)
  : gmap string Node * list Event * Outcome Data :=
  match maybeDownloadAndExtract fs with
  | (fs, log, Resolved dataDir) =>
      match loadFrom fs dataDir numWords len with
      | inr data => (fs, log, Resolved data)
      | inl err => (fs, log, Rejected err)
      end
  | (fs, log, Rejected err) => (fs, log, Rejected err)
  | (fs, log, Pending) => (fs, log, Pending)
  end.

Definition downloads (log : list Event) : list Event :=
  List.filter (fun e => match e with Download _ _ => true | _ => false end) log.

Definition extractions (log : list Event) : list Event :=
  List.filter (fun e => match e with Extract _ _ => true | _ => false end) log.

End Loader.

(** The loop of [loadFeatures] on the integers of the file; [atStart]
    tells whether the next integer is the first of the file. *)
Fixpoint parseWords (numWords : Z) (ws : list Z)
  (sequences : list (list Z)) (seq : list Z) (atStart : bool)
  : list (list Z) * list Z :=
  match ws with
  | [] => (sequences, seq)
  | value :: rest =>
      if value =? 1 then
        parseWords numWords rest (if atStart then sequences else sequences ++ [seq]) [] false
      else
        parseWords numWords rest sequences (seq ++ [recorded numWords value]) false
  end.

Definition notDelimiter (value : Z) : bool := negb (value =? 1).

(** The reading of the file that the property states: the value 1 starts a
    new sequence.  [runs] cuts the integers at each 1, giving the run before
    the first 1, the runs between two 1s and the run after the last 1, each
    value recorded as above. *)
Fixpoint runs (numWords : Z) (ws : list Z) : list (list Z) :=
  match ws with
  | [] => [[]]
  | value :: rest =>
      if value =? 1 then [] :: runs numWords rest
      else
        match runs numWords rest with
        | run :: others => (recorded numWords value :: run) :: others
        | [] => [[recorded numWords value]]
        end
  end.

Definition startsWithDelimiter (ws : list Z) : bool :=
  match ws with
  | value :: _ => value =? 1
  | [] => false
  end.

Definition dropLastIfEmpty (l : list (list Z)) : list (list Z) :=
  match List.last l [0] with
  | [] => removelast l
  | _ => l
  end.

(** The sequences of a file: its runs, without the run before a 1 that
    opens the file, and without the last run when it is empty. *)
Definition sequencesOf (numWords : Z) (ws : list Z) : list (list Z) :=
  let all := runs numWords ws in
  dropLastIfEmpty (if startsWithDelimiter ws then tail all else all).

Definition emptyDisk : gmap string Node := ∅.

(** A small file of features, for examples: the integers 1, 5, 70000, 1,
    3, that is the sequences [5, 70000] and [3]; and a host whose archive
    holds two reviews of each kind. *)
Definition exampleFeatures : Buffer :=
  [1; 0; 0; 0;  5; 0; 0; 0;  112; 17; 1; 0;  1; 0; 0; 0;  3; 0; 0; 0].

Definition exampleHost : Host :=
  {| tmpdir := "/tmp";
     directorySize := 4096;
     httpsGet := fun _ => Some [80; 75; 3; 4];
     extract := fun _ =>
       inr [("imdb_train_data.bin", exampleFeatures);
            ("imdb_test_data.bin", exampleFeatures);
            ("imdb_train_targets.bin", [1; 0]);
            ("imdb_test_targets.bin", [0; 1])] |}.

(** An entry allowed in the tensor of features. *)
Definition entryOk (numWords v : Z) : Prop := v = 0 \/ v = 2 \/ v < numWords.

End ImdbData.

(** ** jena-weather/train-rnn.js *)

Module JenaWeather.
Import Js.

(** The object that [parser.parseArgs()] returns.  An argument declared
    with type 'int' holds an integer, one with action 'storeTrue' a
    boolean; --normalize has no type: it holds its default or the string
    given. *)
Record Args : Type := {
  modelType : string;
  gpu : bool;
  lookBack : Z;
  step : Z;
  delay : Z;
  normalize : Value;
  includeDateTime : bool;
  batchSize : Z;
  epochs : Z;
  displayEvery : Z
}.

(** The default values of the declarations. *)
Definition defaults : Args :=
  {| modelType := "gru";
     gpu := false;
     lookBack := 10 * 24 * 6;
     step := 6;
     delay := 24 * 6;
     normalize := Bool true;
     includeDateTime := false;
     batchSize := 128;
     epochs := 20;
     displayEvery := 10 |}.

(** The fields that a command line can set. *)
Inductive Dest : Type :=
| DModelType | DLookBack | DStep | DDelay | DNormalize
| DBatchSize | DEpochs | DDisplayEvery.

Definition store (d : Dest) (text : string) (n : Z) (a : Args) : Args :=
  {| modelType := match d with DModelType => text | _ => modelType a end;
     gpu := gpu a;
     lookBack := match d with DLookBack => n | _ => lookBack a end;
     step := match d with DStep => n | _ => step a end;
     delay := match d with DDelay => n | _ => delay a end;
     normalize := match d with DNormalize => Str text | _ => normalize a end;
     includeDateTime := includeDateTime a;
     batchSize := match d with DBatchSize => n | _ => batchSize a end;
     epochs := match d with DEpochs => n | _ => epochs a end;
     displayEvery := match d with DDisplayEvery => n | _ => displayEvery a end |}.

Definition storeTrue (flag : string) (a : Args) : Args :=
  {| modelType := modelType a;
     gpu := if String.eqb flag "--gpu" then true else gpu a;
     lookBack := lookBack a;
     step := step a;
     delay := delay a;
     normalize := normalize a;
     includeDateTime :=
       if String.eqb flag "--includeDateTime" then true else includeDateTime a;
     batchSize := batchSize a;
     epochs := epochs a;
     displayEvery := displayEvery a |}.

(** The declarations of [parseArguments]: a flag that takes a value, the
    field it is stored in and whether its type is 'int'. *)
Definition valued (flag : string) : option (Dest * bool) :=
  if String.eqb flag "--modelType" then Some (DModelType, false)
  else if String.eqb flag "--lookBack" then Some (DLookBack, true)
  else if String.eqb flag "--step" then Some (DStep, true)
  else if String.eqb flag "--delay" then Some (DDelay, true)
  else if String.eqb flag "--normalize" then Some (DNormalize, false)
  else if String.eqb flag "--batchSize" then Some (DBatchSize, true)
  else if String.eqb flag "--epochs" then Some (DEpochs, true)
  else if String.eqb flag "--displayEvery" then Some (DDisplayEvery, true)
  else None.

Definition isStoreTrue (flag : string) : bool :=
  String.eqb flag "--gpu" || String.eqb flag "--includeDateTime".

Definition isHelp (flag : string) : bool :=
  String.eqb flag "-h" || String.eqb flag "--help".

(** The option strings of the parser: those of the help, which the parser
    adds itself, and those declared, in the order of their declaration. *)
Definition optionStrings : list string :=
  ["-h"; "--help"; "--modelType"; "--gpu"; "--lookBack"; "--step"; "--delay";
   "--normalize"; "--includeDateTime"; "--batchSize"; "--epochs"; "--displayEvery"].

(** *** The library's reading of a command line (argparse)

    A word of the command line is an argument or an option.  An option is
    an option string, an unambiguous prefix of one, or one of these followed
    by [=] and a value. *)

(** [s.split('=')], cut at the first [=]: what is before it and after it. *)
Fixpoint splitEqualFrom (s current : string) : option (string * string) :=
  match s with
  | EmptyString => None
  | String c rest =>
      if Ascii.eqb c "=" then Some (current, rest)
      else splitEqualFrom rest (current +:+ String c EmptyString)
  end.

Definition splitEqual (s : string) : option (string * string) :=
  splitEqualFrom s EmptyString.

Fixpoint splitDotFrom (s current : string) : option (string * string) :=
  match s with
  | EmptyString => None
  | String c rest =>
      if Ascii.eqb c "." then Some (current, rest)
      else splitDotFrom rest (current +:+ String c EmptyString)
  end.

Definition allDigits (s : string) : bool :=
  forallb (fun c => match digit c with Some _ => true | None => false end)
          (list_ascii_of_string s).

(** The pattern of a negative number: [-] and digits, or [-], digits if
    any, a point and digits. *)
Definition isNegativeNumber (s : string) : bool :=
  match s with
  | String "-" rest =>
      (negb (String.eqb rest "") && allDigits rest) ||
      match splitDotFrom rest EmptyString with
      | Some (whole, fraction) =>
          allDigits whole && negb (String.eqb fraction "") && allDigits fraction
      | None => false
      end
  | _ => false
  end.

Definition hasSpace (s : string) : bool :=
  existsb (fun c => Ascii.eqb c " ") (list_ascii_of_string s).

Inductive Parsed : Type :=
| Positional
| Optional (optionString : string) (explicit : option string)
| UnknownOptional
| AmbiguousOption.

(** The options a word can stand for: with two dashes, the option strings
    it is a prefix of (up to its [=]); with one dash, the option string
    made of its first two characters, taking the rest as its value, and
    the option strings it is a prefix of. *)
Definition optionTuples (argString : string) : list (string * option string) :=
  match argString with
  | String _ (String "-" _) =>
      let '(optionPrefix, explicit) :=
        match splitEqual argString with
        | Some (before, after) => (before, Some after)
        | None => (argString, None)
        end in
      map (fun o => (o, explicit)) (List.filter (startsWith optionPrefix) optionStrings)
  | _ =>
      flat_map
        (fun o =>
           if String.eqb o (substring 0 2 argString)
           then [(o, Some (substring 2 (String.length argString - 2) argString))]
           else if startsWith argString o then [(o, None)] else [])
        optionStrings
  end.

(** What the parser takes a word for. *)
Definition parseOptional (argString : string) : Parsed :=
  match argString with
  | EmptyString => Positional
  | String c rest =>
      if negb (Ascii.eqb c "-") then Positional
      else if existsb (String.eqb argString) optionStrings then Optional argString None
      else if String.eqb rest "" then Positional
      else
        match splitEqual argString with
        | Some (before, after) =>
            if existsb (String.eqb before) optionStrings
            then Optional before (Some after)
            else
              match optionTuples argString with
              | _ :: _ :: _ => AmbiguousOption
              | [(o, explicit)] => Optional o explicit
              | [] =>
                  if isNegativeNumber argString || hasSpace argString
                  then Positional else UnknownOptional
              end
        | None =>
            match optionTuples argString with
            | _ :: _ :: _ => AmbiguousOption
            | [(o, explicit)] => Optional o explicit
            | [] =>
                if isNegativeNumber argString || hasSpace argString
                then Positional else UnknownOptional
            end
        end
  end.

(** A word that can be the value of an option: not [--], and not taken
    for an option. *)
Definition isArgument (word : string) : bool :=
  negb (String.eqb word "--") &&
  match parseOptional word with
  | Positional => true
  | _ => false
  end.

Fixpoint joinWords (words : list string) : string :=
  match words with
  | [] => ""
  | [word] => word
  | word :: rest => word +:+ " " +:+ joinWords rest
  end.

Definition unrecognized (extras : list string) : Error :=
  mkError [Text "Unrecognized arguments: "; Subst (Str (joinWords extras)); Text "."].

(** The value of an option converted to its type and stored. *)
Definition convert (d : Dest) (isInt : bool) (text : string) (a : Args) : Error + Args :=
  if isInt then
    match parseInt10 text with
    | Some n => inr (store d text n a)
    | None => inl (mkError [Subst (Str text); Text " is not a valid integer."])
    end
  else inr (store d text 0 a).

(** The words of the command line, from left to right.  The parser
    exits, which is [inl] here, with an error on an ambiguous prefix, on a
    value given to an option that takes none, on a missing value and on a
    value that is not an integer where one is expected; after printing the
    help on [-h] and [--help]; and, at the end of the command line, with an
    error when some words were neither options nor their values
    ([extras]).  After [--] every word is an argument. *)
Fixpoint parseKnownArgs (argv extras : list string) (a : Args) : Error + Args :=
  match argv with
  | [] =>
      match extras with
      | [] => inr a
      | _ :: _ => inl (unrecognized extras)
      end
  | word :: rest =>
      if String.eqb word "--" then inl (unrecognized (extras ++ word :: rest))
      else
        match parseOptional word with
        | Positional | UnknownOptional => parseKnownArgs rest (extras ++ [word]) a
        | AmbiguousOption => inl (mkError [Text "Ambiguous option: "; Subst (Str word)])
        | Optional optionString explicit =>
            let explicit :=
              match explicit with
              | Some EmptyString => None
              | _ => explicit
              end in
            if isHelp optionString then inl (mkError [Text "usage"])
            else if isStoreTrue optionString then
              match explicit with
              | Some text => inl (mkError [Text "ignored explicit argument "; Subst (Str text)])
              | None => parseKnownArgs rest extras (storeTrue optionString a)
              end
            else
              match valued optionString with
              | None => inl (unrecognized [word])
              | Some (d, isInt) =>
                  match explicit with
                  | Some text =>
                      match convert d isInt text a with
                      | inl err => inl err
                      | inr a' => parseKnownArgs rest extras a'
                      end
                  | None =>
                      match rest with
                      | text :: rest' =>
                          if isArgument text then
                            match convert d isInt text a with
                            | inl err => inl err
                            | inr a' => parseKnownArgs rest' extras a'
                            end
                          else inl (mkError [Text "Expected one argument."])
                      | [] => inl (mkError [Text "Expected one argument."])
                      end
                  end
              end
        end
  end.

(** [parser.parseArgs()] on the words of the command line. *)
Definition parseArgs (argv : list string) (a : Args) : Error + Args :=
  parseKnownArgs argv [] a.

Definition parseArguments (argv : list string) : Error + Args :=
  parseArgs argv defaults.

(** What the file imports: the data of ./data, the models of ./models. *)
Class Host : Type := {
  World : Type;
  Model : Type;
  load : World -> World * (Error + unit);            (* jenaWeatherData.load() *)
  getDataColumnNames : World -> list string;
  buildModel : string -> Number -> nat -> Error + Model;
  trainModel : Model -> Args -> World -> World * (Error + unit)
}.

Inductive Event : Type :=
| ConsoleLog (text : string)
| Require (module : string)
| Load
| BuildModel (modelType : string) (numTimeSteps : Number) (numFeatures : nat)
| TrainModel (normalize : Value) (includeDateTime : bool)
             (lookBack step delay batchSize epochs displayEvery : Z).

Definition buildModelCalls (log : list Event) : list Event :=
  List.filter (fun e => match e with BuildModel _ _ _ => true | _ => false end) log.

Section Main.
Context `{Host}.

(** [main], on the words of the command line: the world and the log
    after it, and whether it has thrown. *)
Definition main (argv : list string) (w : World) : World * list Event * (Error + unit) :=
  match parseArguments argv with
  | inl err => (w, [], inl err)
  | inr args =>
      let log :=
        if gpu args
        then [ConsoleLog "Using GPU for training."; Require "@tensorflow/tfjs-node-gpu"]
        else [ConsoleLog "Using CPU for training."; Require "@tensorflow/tfjs-node"] in
      let log := log ++ [ConsoleLog "Loading Jena weather data..."; Load] in
      match load w with
      | (w, inl err) => (w, log, inl err)
      | (w, inr tt) =>
          let numFeatures := length (getDataColumnNames w) in
          let numTimeSteps := Math_floor (divide (lookBack args) (step args)) in
          let log := log ++ [BuildModel (modelType args) numTimeSteps numFeatures] in
          match buildModel (modelType args) numTimeSteps numFeatures with
          | inl err => (w, log, inl err)
          | inr model =>
              let log := log ++ [TrainModel (normalize args) (includeDateTime args)
                                            (lookBack args) (step args) (delay args)
                                            (batchSize args) (epochs args)
                                            (displayEvery args)] in
              let '(w, r) := trainModel model args w in
              (w, log, r)
          end
      end
  end.

End Main.

(** A small host, for examples: data with three columns. *)
Definition exampleHost : Host :=
  {| World := list string;
     Model := Number * nat;
     load := fun _ => (["p (mbar)"; "T (degC)"; "rho (g/m**3)"], inr tt);
     getDataColumnNames := fun w => w;
     buildModel := fun _ numTimeSteps numFeatures => inr (numTimeSteps, numFeatures);
     trainModel := fun _ _ w => (w, inr tt) |}.

End JenaWeather.

(** ** quantize_evaluate.sh: what else the script shows *)

Module QuantizationMore.
Import Quantization.

Definition isEcho (s : Step) : bool :=
  match s with Echo _ => true | _ => false end.


(** The three checks at the head of the script pass. *)
Definition checksPass (env : Env) : Prop :=
  isEmpty (arg1 env) = false /\
  isFile env (original (arg1 env)) = true /\
  isEmpty (stdout env ["which"; "pip"]) = false.

(** In a list of steps run one after the other: every run of the converter
    comes right after the removal of its output directory.  [previous] is the
    step run before the list. *)
Fixpoint removedBefore (previous : option Step) (steps : list Step) : Prop :=
  match steps with
  | [] => True
  | s :: rest =>
      (forall bytes jsonPath outPath,
          s = converter bytes jsonPath outPath ->
          previous = Some (Run ["rm"; "-rf"; outPath])) /\
      removedBefore (Some s) rest
  end.

(** A machine like [readyEnv] on which the conversion to 8 bits fails with
    status 3. *)
Definition failingEnv (name : string) : Env :=
  {| arg1 := name;
     isFile := isFile (readyEnv name);
     stdout := stdout (readyEnv name);
     status := fun s =>
       match s with
       | Run (prog :: _ :: _ :: _ :: _ :: _ :: bytes :: _) =>
           if (String.eqb prog "tensorflowjs_converter" && String.eqb bytes "1")%bool
           then 3 else 0
       | _ => 0
       end |}.

(** A machine like [readyEnv] without virtualenv: the look-up prints
    nothing. *)
Definition bareEnv (name : string) : Env :=
  {| arg1 := name;
     isFile := isFile (readyEnv name);
     stdout := fun argv =>
       match argv with
       | ["which"; "virtualenv"] => ""
       | _ => stdout (readyEnv name) argv
       end;
     status := status (readyEnv name) |}.

End QuantizationMore.

(** ** dqn.js: what else the file shows *)

Module DqnMore.
Import Js Dqn.


End DqnMore.

(** ** The cart-pole page: the other handlers *)

Module CartPoleUiMore.
Import Js CartPoleUi.

(** [s.split(sep)] for a separator of one character; [current] is the piece
    being read. *)
Fixpoint splitFrom (sep : ascii) (s current : string) : list string :=
  match s with
  | EmptyString => [current]
  | String c rest =>
      if Ascii.eqb c sep then current :: splitFrom sep rest EmptyString
      else splitFrom sep rest (current +:+ String c EmptyString)
  end.

Definition split (sep : ascii) (s : string) : list string := splitFrom sep s EmptyString.

(** What the create and delete buttons call besides: the constructor of the
    policy network, the confirmation dialog of the browser, the removal of
    the stored model, and the assignment [policyNet = null]. *)
Class Page `{Host} : Type := {
  newPolicyNetwork : list Z -> World -> World * (Error + unit);
  confirm : World -> bool * World;
  removeModel : World -> World * (Error + unit);
  forgetPolicyNet : World -> World
}.

Inductive Call : Type :=
| NewPolicyNetwork (hiddenLayerSizes : list Z)
| Confirm (answer : bool)
| RemoveModel
| ForgetPolicyNet.

(** The state of the page with the calls of these two handlers. *)
Record PageState `{Host} : Type := {
  core : State;
  made : list Call
}.

Section Handlers.
Context `{Page}.

(** The function mapped over the pieces of the input: it throws at the
    first piece that [parseInt] does not read as a number greater than 0
    ([!(num > 0)], true also of NaN). *)
Fixpoint parseSizes (value : string) (pieces : list string) : Error + list Z :=
  match pieces with
  | [] => inr []
  | v :: rest =>
      match parseInt (DateConversionUi.trim v) with
      | Some num =>
          if 0 <? num then
            let! nums := parseSizes value rest in inr (num :: nums)
          else inl (mkError [Text "Invalid hidden layer sizes string: "; Subst (Str value)])
      | None => inl (mkError [Text "Invalid hidden layer sizes string: "; Subst (Str value)])
      end
  end.

(** A piece of the input that [parseSizes] accepts as a size: [parseInt]
    reads a number from it, and the number is greater than 0. *)
Definition readsAs (piece : string) (num : Z) : Prop :=
  parseInt (DateConversionUi.trim piece) = Some num /\ 0 < num.

Definition withCore (f : State -> State) (ps : PageState) : PageState :=
  {| core := f (core ps); made := made ps |}.

Definition setUi (f : Ui -> Ui) (s : State) : State :=
  {| ui := f (ui s); world := world s; events := events s;
     meanStepValues := meanStepValues s |}.

Definition logError (err : Error) : State -> State :=
  setUi (logStatus (Text "ERROR: " :: message err)).

(** The click handler of the create-model button, on the value of the
    hidden-layer-sizes input.  Every error is caught and logged. *)
Definition createModelButton_click (value : string) (ps : PageState) : PageState :=
  match parseSizes value (split "," (DateConversionUi.trim value)) with
  | inl err => withCore (logError err) ps
  | inr hiddenLayerSizes =>
      let s := core ps in
      let '(s, _) := emit (ConsoleLog [Text "Calling constructor SaveablePolicyNetwork"]) s in
      let '(w, r) := newPolicyNetwork hiddenLayerSizes (world s) in
      let s := {| ui := ui s; world := w; events := events s;
                  meanStepValues := meanStepValues s |} in
      let calls := made ps ++ [NewPolicyNetwork hiddenLayerSizes] in
      match r with
      | inl err => {| core := logError err s; made := calls |}
      | inr tt =>
          let '(s, _) :=
            emit (ConsoleLog [Text "DONE Calling constructor SaveablePolicyNetwork"]) s in
          match updateLocallyStoredModelStatus s with
          | (s, inl err) => {| core := logError err s; made := calls |}
          | (s, inr tt) => {| core := s; made := calls |}
          end
      end
  end.

(** The click handler of the delete button; it catches nothing. *)
Definition deleteStoredModelButton_click (ps : PageState) : PageState * (Error + unit) :=
  let s := core ps in
  let '(answer, w) := confirm (world s) in
  let s := {| ui := ui s; world := w; events := events s;
              meanStepValues := meanStepValues s |} in
  let calls := made ps ++ [Confirm answer] in
  if answer then
    let '(w, r) := removeModel (world s) in
    let s := {| ui := ui s; world := w; events := events s;
                meanStepValues := meanStepValues s |} in
    let calls := calls ++ [RemoveModel] in
    match r with
    | inl err => ({| core := s; made := calls |}, inl err)
    | inr tt =>
        let s := {| ui := ui s; world := forgetPolicyNet (world s); events := events s;
                    meanStepValues := meanStepValues s |} in
        let calls := calls ++ [ForgetPolicyNet] in
        let '(s, r) := updateLocallyStoredModelStatus s in
        ({| core := s; made := calls |}, r)
    end
  else ({| core := s; made := calls |}, inr tt).

(** The pole stays up: [k] steps of the policy's action and [update], all
    returning false. *)
Inductive staysUp : CartPole -> World -> nat -> Prop :=
| staysUp_0 cart w : staysUp cart w 0
| staysUp_step cart w action w' cart' k :
    chooseAction cart w = (action, w') ->
    update cart action = (cart', false) ->
    staysUp cart' w' k ->
    staysUp cart w (S k).

End Handlers.

Definition saves (log : list Event) : nat :=
  length (List.filter (fun e => match e with SaveModel => true | _ => false end) log).

(** The page of the example host: the dialog is confirmed and every call
    returns. *)
Definition examplePage : @Page exampleHost :=
  {| newPolicyNetwork := fun _ (w : @World exampleHost) => (w, inr tt);
     confirm := fun w => (true, w);
     removeModel := fun w => (w, inr tt);
     forgetPolicyNet := fun w => w |}.

Definition startPage : @PageState exampleHost := {| core := startState; made := [] |}.

(** A host like [exampleHost] whose policy always pushes the cart back to
    the middle: the pole never falls. *)
Definition steadyHost : Host :=
  {| World := nat;
     CartPole := Z;
     newCartPole := 0;
     setRandomState := fun _ w => (1, S w);
     chooseAction := fun x w => (if 0 <? x then 1 else 0, S w);
     update := fun x action =>
       let x' := if action =? 1 then x - 1 else x + 1 in
       (x', (x' <? -2) || (2 <? x'));
     parseInt := parseInt10;
     parseFloat := fun _ => NaN;
     train := fun _ _ _ _ w =>
       (S w, if (w <? 2)%nat then inr [10] else inl (mkError [Text "out of memory"]));
     saveModel := fun w => (w, inr tt);
     checkStoredModelStatus := fun w => (w, inr None);
     hasPolicyNet := fun _ => true;
     getTime := fun w => (Z.of_nat w, w);
     numTensors := fun _ => 0;
     sum := fun steps => fold_right Z.add 0 steps;
     mean := fun _ => NaN |}.

End CartPoleUiMore.

(** ** The date-conversion page: hosts whose calls throw *)

Module DateConversionUiMore.
Import Js DateConversionUi.

(** A host whose inference throws, and one whose heat map throws. *)
Definition noModelHost : Host :=
  {| World := unit;
     Attention := unit;
     INPUT_LENGTH := 12;
     runSeq2SeqInference := fun _ w => (w, inl (mkError [Text "model is undefined"]));
     elapsed := fun _ => Fin (Qc_of_Z 3);
     heatmap := fun _ _ _ w => (w, inr tt) |}.

Definition noCanvasHost : Host :=
  {| World := unit;
     Attention := unit;
     INPUT_LENGTH := 12;
     runSeq2SeqInference := fun inputStr w => (w, inr (inputStr, tt));
     elapsed := fun _ => Fin (Qc_of_Z 3);
     heatmap := fun _ _ _ w => (w, inl (mkError [Text "no canvas"])) |}.

(** A string that does not start with white space. *)
Definition trimmedStart (s : string) : Prop :=
  match s with
  | EmptyString => True
  | String c _ => isWhiteSpace c = false
  end.

(** The errors written to the console in a log. *)
Definition consoleErrors {Att} (log : list (Event Att)) : list Error :=
  omap (fun e => match e with ConsoleError err => Some err | _ => None end) log.

(** The label of the heat map for the character at index [i] of a string,
    as the loop over the input builds it. *)
Definition labelAt (i : nat) (inputStr : string) : template :=
  match get i inputStr with
  | Some c => label i (String c EmptyString)
  | None => [Text "("; Subst (int (Z.of_nat i + 1)); Text ") "; Text dquote; Text dquote]
  end.

End DateConversionUiMore.

(** ** The IMDB data: files whose numbers of examples differ *)

Module ImdbDataMore.
Import Js ImdbData.

(** A host whose archive has two reviews for training and three targets. *)
Definition mismatchHost : Host :=
  {| tmpdir := "/tmp";
     directorySize := 4096;
     httpsGet := fun _ => Some [80; 75; 3; 4];
     extract := fun _ =>
       inr [("imdb_train_data.bin", exampleFeatures);
            ("imdb_test_data.bin", exampleFeatures);
            ("imdb_train_targets.bin", [1; 0; 1]);
            ("imdb_test_targets.bin", [0; 1])] |}.

(** The tensor of the features of a file of [n] integers, and that of the
    targets of a file. *)
Definition featuresOf (buffer : Buffer) (n : nat) (numWords : Z) (maxLen : nat) : Tensor2d :=
  let sequences := sequencesOf numWords (words buffer n) in
  {| shape := (length sequences, maxLen);
     values := padSequences sequences maxLen PAD_CHAR |}.

Definition targetsOf (buffer : Buffer) : Tensor2d :=
  {| shape := (length buffer, 1%nat); values := map (fun y => [y]) buffer |}.

(** The file system of the example host after a first call of [loadData]. *)
Definition loadedDisk : gmap string Node :=
  (loadData (H := exampleHost) 100 3 emptyDisk).1.1.

Definition mismatchDisk : gmap string Node :=
  (loadData (H := mismatchHost) 100 3 emptyDisk).1.1.

End ImdbDataMore.

(** ** The Jena weather trainer: the calls of the training *)

Module JenaWeatherMore.
Import Js JenaWeather.

Definition trainModelCalls (log : list Event) : list Event :=
  List.filter (fun e => match e with TrainModel _ _ _ _ _ _ _ _ => true | _ => false end) log.


(** A field of the arguments parsed from a command line; [None] when the
    parser exits. *)
Definition parsed {A} (field : Args -> A) (argv : list string) : option A :=
  match parseArguments argv with
  | inr args => Some (field args)
  | inl _ => None
  end.

(** A host whose data cannot be loaded. *)
Definition offlineHost : Host :=
  {| World := list string;
     Model := Number * nat;
     load := fun w => (w, inl (mkError [Text "request failed"]));
     getDataColumnNames := fun w => w;
     buildModel := fun _ numTimeSteps numFeatures => inr (numTimeSteps, numFeatures);
     trainModel := fun _ _ w => (w, inr tt) |}.

End JenaWeatherMore.

(** * Properties *)

Module JsFacts.
Import Js.

Lemma integerAbove_int (lo z : Z) : lo < z -> integerAbove lo (int z) = Some z.
Proof.
  intros Hlt. unfold integerAbove, int, Number_isInteger, gt. simpl.
  rewrite bool_decide_eq_true_2; [reflexivity|].
  exact (proj1 (Z2Qc_inj_lt lo z) Hlt).
Qed.

Lemma integral_Qc (q : Qc) : Qden (this q) = 1%positive -> q = Qc_of_Z (Qnum (this q)).
Proof.
  intros Hden. apply Qc_is_canon.
  destruct q as [[n d] Hc]. simpl in *. subst d. reflexivity.
Qed.

Lemma integerAbove_Some (lo z : Z) (v : Value) :
  integerAbove lo v = Some z -> v = int z /\ lo < z.
Proof.
  unfold integerAbove. destruct v as [| |b|[| |q|]|s]; try discriminate.
  unfold Number_isInteger, gt.
  destruct (Pos.eqb_spec (Qden (this q)) 1) as [Hden|]; [|discriminate].
  simpl. case_bool_decide as Hlt; [|discriminate].
  intros [= <-]. apply integral_Qc in Hden.
  split.
  - unfold int. now rewrite <- Hden.
  - apply (proj2 (Z2Qc_inj_lt lo _)). now rewrite <- Hden.
Qed.

End JsFacts.

Module DqnFacts.
Import Js Dqn JsFacts.

(** The network of the unit test: a 9 by 9 board, one frame, 4 actions. *)
Example createDeepQNetwork_9_9 :
  createDeepQNetwork (int 9) (int 9) (int 1) (int 4) =
  inr {| layers :=
           [conv2d {| filters := 16; kernelSize := 3; strides := 1;
                      conv_activation := relu; inputShape := Some [9; 9; 2] |};
            conv2d {| filters := 32; kernelSize := 3; strides := 1;
                      conv_activation := relu; inputShape := None |};
            flatten;
            dense {| units := 256; dense_activation := relu |};
            dense {| units := 4; dense_activation := linear |}];
         inputs := [[None; Some 9; Some 9; Some 2]];
         outputs := [[None; Some 4]] |}.
Proof. reflexivity. Qed.





(** C1 as it was stated fails on a board of height 3: the arguments are
    positive integers, with more than one action, and no model is
    returned; the second convolution would have an output of height -1. *)
Lemma createDeepQNetwork_shapes_counterexample :
  0 < 3 /\ 0 < 9 /\ 0 < 1 /\ 1 < 4 /\
  createDeepQNetwork (int 3) (int 9) (int 1) (int 4) = inl negativeDimension /\
  ~ (exists model,
       createDeepQNetwork (int 3) (int 9) (int 1) (int 4) = inr model /\
       map kind (layers model) = [KConv2d; KConv2d; KFlatten; KDense; KDense] /\
       inputs model = [[None; Some 3; Some 9; Some (2 * 1)]] /\
       outputs model = [[None; Some 4]]).
Proof.
  repeat (split; [lia|]). split; [reflexivity|].
  intros (model & Hmodel & _). discriminate Hmodel.
Qed.

Lemma integerAbove_positive (v : Value) :
  (exists z, integerAbove 0 v = Some z) <-> PositiveInteger v.
Proof.
  split.
  - intros [z Hz]. exists z. now apply integerAbove_Some.
  - intros (z & -> & Hz). exists z. now apply integerAbove_int.
Qed.


Lemma int_inj (a b : Z) : int a = int b -> a = b.
Proof.
  intros Heq. injection Heq as Heq. exact Heq.
Qed.




Lemma PositiveInteger_int (z : Z) : PositiveInteger (int z) <-> 0 < z.
Proof.
  split.
  - intros (z' & Heq & Hz). apply int_inj in Heq. now subst.
  - intros Hz. now exists z.
Qed.

Lemma IntegerAboveOne_int (z : Z) : IntegerAboveOne (int z) <-> 1 < z.
Proof.
  split.
  - intros (z' & Heq & Hz). apply int_inj in Heq. now subst.
  - intros Hz. now exists z.
Qed.


(** C2 as it was stated fails on a board of 3 by 3: the four arguments
    are valid and the call throws. *)
Lemma createDeepQNetwork_throws_counterexample :
  PositiveInteger (int 3) /\ PositiveInteger (int 3) /\ PositiveInteger (int 1) /\
  IntegerAboveOne (int 2) /\
  throws (createDeepQNetwork (int 3) (int 3) (int 1) (int 2)) /\
  ~ (throws (createDeepQNetwork (int 3) (int 3) (int 1) (int 2)) <->
       ~ PositiveInteger (int 3) \/ ~ PositiveInteger (int 3) \/
       ~ PositiveInteger (int 1) \/ ~ IntegerAboveOne (int 2)).
Proof.
  assert (PositiveInteger (int 3)) as H3 by (apply PositiveInteger_int; lia).
  assert (PositiveInteger (int 1)) as H1 by (apply PositiveInteger_int; lia).
  assert (IntegerAboveOne (int 2)) as H2 by (apply IntegerAboveOne_int; lia).
  assert (throws (createDeepQNetwork (int 3) (int 3) (int 1) (int 2))) as Hthrows
    by (eexists; reflexivity).
  repeat (split; [assumption|]).
  intros [Honly _]. destruct (Honly Hthrows) as [H|[H|[H|H]]]; now apply H.
Qed.

(** *** copyWeights *)

Lemma weightValueTuples_zip store params ws tuples :
  length params = length ws ->
  weightValueTuples store params ws = inr tuples ->
  map fst tuples = params /\ map snd tuples = ws.
Proof.
  revert ws tuples. induction params as [|p params IH]; intros [|w ws] tuples Hlen; simpl;
    try discriminate.
  - intros [= <-]. split; reflexivity.
  - destruct (store !! p) as [pv|]; [|discriminate].
    destruct (decide (shape pv = shape w)) as [Hshape|]; [|discriminate].
    destruct (weightValueTuples store params ws) as [err|rest] eqn:Erest; [discriminate|].
    simpl. intros [= <-]. simpl in Hlen.
    destruct (IH ws rest) as [Hf Hs]; [lia|exact Erest|].
    simpl. now rewrite Hf, Hs.
Qed.

(** An assignment that returns has stored the new value, in a variable that
    held a tensor of its shape and type of elements. *)
Lemma write_inr store store' v t :
  write store v t = inr store' ->
  store' = <[v := t]> store /\
  exists val, store !! v = Some val /\ shape val = shape t /\ dtype val = dtype t.
Proof.
  unfold write. destruct (store !! v) as [val|]; [|discriminate].
  case_bool_decide as Hshape; simpl; [|discriminate].
  case_bool_decide as Hdtype; simpl; [|discriminate].
  intros [= <-]. split; [reflexivity|]. now exists val.
Qed.

Lemma batchSetValue_other store store' tuples v :
  batchSetValue store tuples = inr store' ->
  v ∉ map fst tuples -> store' !! v = store !! v.
Proof.
  revert store. induction tuples as [|[u t] rest IH]; intros store; simpl.
  - now intros [= <-].
  - destruct (write store u t) as [err|store1] eqn:Hw; simpl; [discriminate|].
    intros Hrest Hv. apply write_inr in Hw as [-> _].
    apply not_elem_of_cons in Hv as [Hne Hv].
    rewrite (IH _ Hrest Hv). now apply lookup_insert_ne.
Qed.

Lemma batchSetValue_lookup store store' tuples :
  batchSetValue store tuples = inr store' ->
  NoDup (map fst tuples) ->
  Forall (fun u => store' !! u.1 = Some u.2) tuples.
Proof.
  revert store. induction tuples as [|[v t] rest IH]; intros store; simpl; [constructor|].
  destruct (write store v t) as [err|store1] eqn:Hw; simpl; [discriminate|].
  intros Hrest Hnd. apply write_inr in Hw as [-> _]. constructor.
  - simpl. rewrite (batchSetValue_other _ _ _ _ Hrest (NoDup_cons_1_1 _ _ Hnd)).
    apply lookup_insert_eq.
  - exact (IH _ Hrest (NoDup_cons_1_2 _ _ Hnd)).
Qed.

Lemma batchGetValue_ext store1 store2 vars :
  (forall v, v ∈ vars -> store1 !! v = store2 !! v) ->
  batchGetValue store1 vars = batchGetValue store2 vars.
Proof.
  induction vars as [|v rest IH]; intros Hsame; simpl; [reflexivity|].
  rewrite (Hsame v) by (apply elem_of_cons; now left).
  rewrite IH; [reflexivity|]. intros u Hu. apply Hsame. apply elem_of_cons. now right.
Qed.

Lemma batchGetValue_held store tuples :
  Forall (fun u => store !! u.1 = Some u.2) tuples ->
  batchGetValue store (map fst tuples) = inr (map snd tuples).
Proof.
  induction 1 as [|[v t] rest Hv _ IH]; simpl; [reflexivity|].
  simpl in Hv. now rewrite Hv, IH.
Qed.

(** Assignments of tensors that fit, one by one, the variables they go to
    all return. *)
Lemma batchSetValue_returns tuples :
  forall store,
    Forall (fun u => exists val, store !! u.1 = Some val /\
                                 shape val = shape u.2 /\ dtype val = dtype u.2) tuples ->
    exists store', batchSetValue store tuples = inr store'.
Proof.
  induction tuples as [|[v t] rest IH]; intros store Hall; simpl; [now eexists|].
  inversion Hall as [|? ? (val & Hv & Hshape & Hdtype) Hrest]; subst. simpl in *.
  unfold write. rewrite Hv.
  rewrite bool_decide_eq_true_2 by assumption. simpl.
  rewrite bool_decide_eq_true_2 by (symmetry; assumption). simpl.
  apply IH. eapply Forall_impl; [|exact Hrest].
  intros [u t'] (val' & Hu & Hshape' & Hdtype'). simpl in *.
  destruct (decide (u = v)) as [->|Hne].
  - exists t. rewrite lookup_insert_eq. rewrite Hv in Hu. injection Hu as <-.
    split; [reflexivity|]. split; congruence.
  - exists val'. rewrite lookup_insert_ne by congruence. auto.
Qed.

(** What a call that returns has done. *)
Lemma copyWeights_inr store store' dest src :
  copyWeights store dest src = inr store' ->
  exists ws tuples,
    getWeights store src = inr ws /\
    map fst tuples = weights dest /\ map snd tuples = ws /\
    batchSetValue store tuples = inr store'.
Proof.
  unfold copyWeights, setWeights.
  destruct (getWeights store src) as [e|ws] eqn:Hsrc; [discriminate|]. simpl.
  destruct (Nat.eqb_spec (length (weights dest)) (length ws)) as [Hlen|]; [|discriminate].
  simpl.
  destruct (weightValueTuples store (weights dest) ws) as [e|tuples] eqn:Htup; [discriminate|].
  simpl. intros Hset.
  destruct (weightValueTuples_zip _ _ _ _ Hlen Htup) as [Hfst Hsnd].
  now exists ws, tuples.
Qed.

Lemma weightValueTuples_fits store params ws :
  Forall2 (fun p w => exists pv, store !! p = Some pv /\
                                 shape pv = shape w /\ dtype pv = dtype w) params ws ->
  weightValueTuples store params ws = inr (zip params ws).
Proof.
  induction 1 as [|p w ps ws' (pv & Hp & Hsh & _) _ IH]; simpl; [reflexivity|].
  rewrite Hp. rewrite decide_True by assumption. now rewrite IH.
Qed.

Lemma Forall2_zip_Forall {A B} (P : A -> B -> Prop) (l : list A) (k : list B) :
  Forall2 P l k -> Forall (fun u => P u.1 u.2) (zip l k).
Proof. induction 1; simpl; constructor; assumption. Qed.

(** The call returns on two live networks of one architecture. *)
Lemma copyWeights_returns store dest src ws :
  getWeights store src = inr ws ->
  fits store dest ws ->
  exists store', copyWeights store dest src = inr store'.
Proof.
  intros Hsrc Hfits. unfold copyWeights. rewrite Hsrc. simpl. unfold setWeights.
  rewrite (Forall2_length Hfits), Nat.eqb_refl. simpl.
  rewrite (weightValueTuples_fits _ _ _ Hfits). simpl.
  apply batchSetValue_returns. exact (Forall2_zip_Forall _ _ _ Hfits).
Qed.

(** C3. On two separate networks of one architecture, each with distinct
    variables as weights, copyWeights(destNetwork, srcNetwork) returns;
    after it the weights of destNetwork are, one by one, the values that
    the weights of srcNetwork had at the call (and still have); and the
    copy is by value: whatever is done afterwards to the weights of
    srcNetwork, the weights of destNetwork are still the values that
    srcNetwork had at the call. *)
Theorem copyWeights_by_value store dest src ws :
  NoDup (weights dest) ->
  separate dest src ->
  getWeights store src = inr ws ->
  fits store dest ws ->
  exists store',
    copyWeights store dest src = inr store' /\
    getWeights store' dest = inr ws /\
    getWeights store' src = inr ws /\
    (forall later,
        modifiedOnly src store' later ->
        getWeights later dest = inr ws).
Proof.
  intros Hnd Hsep Hsrc Hfits.
  destruct (copyWeights_returns store dest src ws Hsrc Hfits) as [store' Hcopy].
  exists store'. split; [exact Hcopy|].
  apply copyWeights_inr in Hcopy as (ws' & tuples & Hsrc' & Hfst & Hsnd & Hset).
  rewrite Hsrc in Hsrc'. injection Hsrc' as <-.
  assert (getWeights store' dest = inr ws) as Hdest.
  { unfold getWeights. rewrite <- Hfst, <- Hsnd. apply batchGetValue_held.
    apply (batchSetValue_lookup store _ _ Hset). now rewrite Hfst. }
  split; [exact Hdest|]. split.
  - rewrite <- Hsrc. unfold getWeights. apply batchGetValue_ext.
    intros v Hv. apply (batchSetValue_other _ _ _ _ Hset). rewrite Hfst.
    intros Hd. exact (Hsep v Hd Hv).
  - intros later Hlater. rewrite <- Hdest. unfold getWeights. apply batchGetValue_ext.
    intros v Hv. apply Hlater. exact (Hsep v Hv).
Qed.

(** The target network takes the weights of the online network and keeps
    them when the online network is trained. *)
Lemma copyWeights_by_value_witness :
  exists store',
    copyWeights twoNetworks targetNetwork onlineNetwork = inr store' /\
    getWeights store' targetNetwork = inr [kernel 5 7; bias 1] /\
    getWeights store' onlineNetwork = inr [kernel 5 7; bias 1] /\
    getWeights (trained store') onlineNetwork = inr [kernel 6 8; bias 2] /\
    getWeights (trained store') targetNetwork = inr [kernel 5 7; bias 1].
Proof.
  destruct (copyWeights_by_value twoNetworks targetNetwork onlineNetwork
              [kernel 5 7; bias 1]) as (store' & Hcopy & Hdest & Hsrc & Hlater).
  - apply (bool_decide_unpack (NoDup [3; 4]%positive)). vm_compute. exact I.
  - intros v Hv Hv'.
    revert Hv Hv'. unfold targetNetwork, onlineNetwork. simpl.
    rewrite !elem_of_cons, !elem_of_nil. intros [->|[->|[]]] [Heq|[Heq|[]]]; discriminate Heq.
  - reflexivity.
  - unfold fits, targetNetwork. simpl.
    constructor; [exists (kernel 0 2); repeat split|].
    constructor; [exists (bias 0); repeat split|]. constructor.
  - exists store'. split; [exact Hcopy|]. split; [exact Hdest|]. split; [exact Hsrc|].
    split.
    + unfold trained, getWeights, onlineNetwork. simpl.
      rewrite lookup_insert_eq.
      rewrite lookup_insert_ne by discriminate. rewrite lookup_insert_eq. reflexivity.
    + apply Hlater. intros v Hv. unfold trained.
      unfold onlineNetwork in Hv. simpl in Hv.
      rewrite !not_elem_of_cons in Hv. destruct Hv as (H1 & H2 & _).
      rewrite !lookup_insert_ne by congruence. reflexivity.
Defined.

End DqnFacts.

Module QuantizationFacts.
Import Quantization.

Lemma runAll_prefix (env : Env) (steps : list Step) :
  exists rest, steps = (runAll env steps).1 ++ rest.
Proof.
  induction steps as [|s steps [rest IH]]; simpl.
  - exists []. reflexivity.
  - destruct (Z.eqb (status env s) 0).
    + destruct (runAll env steps) as [done code]. simpl in *.
      exists rest. now rewrite IH at 1.
    + exists steps. reflexivity.
Qed.

Lemma runAll_all (env : Env) (steps : list Step) :
  (forall s, status env s = 0) -> runAll env steps = (steps, 0).
Proof.
  intros Hok. induction steps as [|s steps IH]; simpl; [reflexivity|].
  now rewrite Hok, IH.
Qed.

Lemma filter_prefix {A} (f : A -> bool) (l l' rest : list A) :
  l' = l ++ rest -> exists rest', List.filter f l' = List.filter f l ++ rest'.
Proof. intros ->. exists (List.filter f rest). apply List.filter_app. Qed.

Lemma append_assoc (a b c : string) : (a +:+ b) +:+ c = a +:+ (b +:+ c).
Proof. induction a as [|x a IH]; [reflexivity|]. exact (f_equal (String x) IH). Qed.

(** The paths of the script, written out. *)
Lemma original_literal (name : string) :
  original name = "models/" +:+ name +:+ "/original/model.json".
Proof. unfold original, modelRoot. now rewrite ?append_assoc. Qed.

Lemma quantized16_literal (name : string) :
  quantized16 name = "models/" +:+ name +:+ "/quantized-16bit".
Proof. unfold quantized16, modelRoot. now rewrite ?append_assoc. Qed.

Lemma quantized8_literal (name : string) :
  quantized8 name = "models/" +:+ name +:+ "/quantized-8bit".
Proof. unfold quantized8, modelRoot. now rewrite ?append_assoc. Qed.

Lemma quantized16_json_literal (name : string) :
  quantized16 name +:+ "/model.json" = "models/" +:+ name +:+ "/quantized-16bit/model.json".
Proof. unfold quantized16, modelRoot. now rewrite ?append_assoc. Qed.

Lemma quantized8_json_literal (name : string) :
  quantized8 name +:+ "/model.json" = "models/" +:+ name +:+ "/quantized-8bit/model.json".
Proof. unfold quantized8, modelRoot. now rewrite ?append_assoc. Qed.

(** The command lines of the two conversions and of the three
    evaluations, word by word. *)
Lemma expected_literal (name : string) :
  expected name =
  [Run ["tensorflowjs_converter";
        "--input_format"; "tfjs_layers_model"; "--output_format"; "tfjs_layers_model";
        "--quantization_bytes"; "2";
        "models/" +:+ name +:+ "/original/model.json";
        "models/" +:+ name +:+ "/quantized-16bit"];
   Run ["tensorflowjs_converter";
        "--input_format"; "tfjs_layers_model"; "--output_format"; "tfjs_layers_model";
        "--quantization_bytes"; "1";
        "models/" +:+ name +:+ "/original/model.json";
        "models/" +:+ name +:+ "/quantized-8bit"];
   Run ["yarn"; "eval-" +:+ name; "models/" +:+ name +:+ "/original/model.json"];
   Run ["yarn"; "eval-" +:+ name; "models/" +:+ name +:+ "/quantized-16bit/model.json"];
   Run ["yarn"; "eval-" +:+ name; "models/" +:+ name +:+ "/quantized-8bit/model.json"]].
Proof.
  unfold expected, converter, evaluate.
  now rewrite quantized16_json_literal, quantized8_json_literal,
    original_literal, quantized16_literal, quantized8_literal.
Qed.

(** The conversions and evaluations that a run of the script made are the
    first ones of the list expected, and the whole list when the checks
    pass and every step succeeds. *)
Lemma quantize_evaluate_expected (env : Env) :
  (exists rest,
      expected (arg1 env) = List.filter quantizeOrEvaluate (quantize_evaluate env).1 ++ rest) /\
  (isEmpty (arg1 env) = false ->
   isFile env (original (arg1 env)) = true ->
   isEmpty (stdout env ["which"; "pip"]) = false ->
   (forall s, status env s = 0) ->
   List.filter quantizeOrEvaluate (quantize_evaluate env).1 = expected (arg1 env) /\
   (quantize_evaluate env).2 = 0).
Proof.
  unfold quantize_evaluate.
  change ((("models/" +:+ arg1 env) +:+ "/original") +:+ "/model.json")
    with (original (arg1 env)).
  split.
  - destruct (isEmpty (arg1 env)); [eexists; reflexivity|].
    destruct (isFile env (original (arg1 env))); simpl negb; cbv iota;
      [|eexists; reflexivity].
    destruct (isEmpty (stdout env ["which"; "pip"])); [eexists; reflexivity|].
    match goal with |- context [runAll env ?steps] =>
      destruct (runAll_prefix env steps) as [rest Hrest];
      apply (filter_prefix quantizeOrEvaluate) in Hrest as [rest' Hrest]
    end.
    exists rest'. rewrite <- Hrest. clear Hrest.
    rewrite List.filter_app.
    destruct (isEmpty (stdout env ["which"; "virtualenv"])); reflexivity.
  - intros -> Hfile -> Hok. rewrite Hfile. simpl negb. cbv iota.
    rewrite runAll_all by assumption. split; [|reflexivity].
    unfold fst. rewrite List.filter_app.
    destruct (isEmpty (stdout env ["which"; "virtualenv"])); reflexivity.
Qed.

(** C4. The script does not quantize by itself: it runs the external
    tensorflowjs_converter, on the JSON file of the original model, with
    --quantization_bytes 2 for the 16-bit model and then with
    --quantization_bytes 1 for the 8-bit model, and then evaluates (yarn
    eval-NAME) the original (32-bit) model, the 16-bit model and the 8-bit
    model, in this order.  Whatever fails, the runs of the converter and
    the evaluations that took place are the first ones of this list; when
    the model is there, pip is installed and every step succeeds, they are
    the whole list and the script exits with status 0. *)
Theorem quantize_evaluate_order (env : Env) :
  let name := arg1 env in
  let run := quantize_evaluate env in
  let json := "models/" +:+ name +:+ "/original/model.json" in
  let claimed :=
    [Run ["tensorflowjs_converter";
          "--input_format"; "tfjs_layers_model"; "--output_format"; "tfjs_layers_model";
          "--quantization_bytes"; "2";
          json; "models/" +:+ name +:+ "/quantized-16bit"];
     Run ["tensorflowjs_converter";
          "--input_format"; "tfjs_layers_model"; "--output_format"; "tfjs_layers_model";
          "--quantization_bytes"; "1";
          json; "models/" +:+ name +:+ "/quantized-8bit"];
     Run ["yarn"; "eval-" +:+ name; json];
     Run ["yarn"; "eval-" +:+ name; "models/" +:+ name +:+ "/quantized-16bit/model.json"];
     Run ["yarn"; "eval-" +:+ name; "models/" +:+ name +:+ "/quantized-8bit/model.json"]] in
  (exists rest, claimed = List.filter quantizeOrEvaluate run.1 ++ rest) /\
  (isEmpty name = false ->
   isFile env json = true ->
   isEmpty (stdout env ["which"; "pip"]) = false ->
   (forall s, status env s = 0) ->
   List.filter quantizeOrEvaluate run.1 = claimed /\ run.2 = 0).
Proof.
  intros name run json claimed. subst name run json claimed.
  rewrite <- expected_literal, <- original_literal.
  exact (quantize_evaluate_expected env).
Qed.

(** For the model "mobilenet" on a machine where everything succeeds. *)
Lemma quantize_evaluate_order_witness :
  List.filter quantizeOrEvaluate (quantize_evaluate (readyEnv "mobilenet")).1 =
    [Run ["tensorflowjs_converter";
          "--input_format"; "tfjs_layers_model"; "--output_format"; "tfjs_layers_model";
          "--quantization_bytes"; "2";
          "models/mobilenet/original/model.json"; "models/mobilenet/quantized-16bit"];
     Run ["tensorflowjs_converter";
          "--input_format"; "tfjs_layers_model"; "--output_format"; "tfjs_layers_model";
          "--quantization_bytes"; "1";
          "models/mobilenet/original/model.json"; "models/mobilenet/quantized-8bit"];
     Run ["yarn"; "eval-mobilenet"; "models/mobilenet/original/model.json"];
     Run ["yarn"; "eval-mobilenet"; "models/mobilenet/quantized-16bit/model.json"];
     Run ["yarn"; "eval-mobilenet"; "models/mobilenet/quantized-8bit/model.json"]] /\
  (quantize_evaluate (readyEnv "mobilenet")).2 = 0.
Proof.
  apply (proj2 (quantize_evaluate_order (readyEnv "mobilenet")));
    first [reflexivity | intros s; reflexivity].
Defined.

End QuantizationFacts.

Module CartPoleUiFacts.
Import Js CartPoleUi.

Section TestButton.
Context `{Host}.

Lemma updates_app (l1 l2 : list Event) : updates (l1 ++ l2) = updates l1 ++ updates l2.
Proof. unfold updates. apply omap_app. Qed.

Lemma resets_app (l1 l2 : list Event) : resets (l1 ++ l2) = (resets l1 + resets l2)%nat.
Proof. unfold resets. now rewrite List.filter_app, length_app. Qed.

(** The loop on an episode of [n] steps: it ends after [n] iterations,
    having called [update] [n] times. *)
Lemma testLoop_episode (n : nat) (w' : World) (s : TestState) (fuel : nat) :
  episode (cartPole s) (t_world s) n w' ->
  isDone s = false ->
  (n <= fuel)%nat ->
  exists s' extra,
    testLoop fuel s = Some s' /\
    t_world s' = w' /\
    steps s' = steps s + Z.of_nat n /\
    t_events s' = t_events s ++ extra /\
    updates extra = replicate (n - 1) false ++ [true] /\
    resets extra = 0%nat /\
    trainDisabled (t_ui s') = trainDisabled (t_ui s) /\
    testDisabled (t_ui s') = testDisabled (t_ui s) /\
    deleteStoredModelDisabled (t_ui s') = deleteStoredModelDisabled (t_ui s).
Proof.
  intros Hep. remember (cartPole s) as cart eqn:Hcart. remember (t_world s) as w eqn:Hw.
  revert s fuel Hcart Hw.
  induction Hep as [cart w action w1 cart' Hact Hupd
                   |cart w action w1 cart' n w2 Hact Hupd Hep IH];
    intros s fuel -> -> Hdone Hfuel.
  - destruct fuel as [|fuel]; [lia|]. simpl. rewrite Hdone.
    unfold testStep. rewrite Hact, Hupd.
    eexists. eexists. split; [destruct fuel; reflexivity|].
    simpl. repeat split; reflexivity.
  - destruct fuel as [|fuel]; [lia|]. simpl. rewrite Hdone.
    unfold testStep. rewrite Hact, Hupd.
    match goal with |- context [testLoop fuel ?s1] =>
      destruct (IH s1 fuel eq_refl eq_refl eq_refl)
        as (s' & extra & Hloop & Hw' & Hsteps & Hev & Hupds & Hres & Hb); [lia|]
    end.
    exists s', ([ChooseAction action; Update action false; Render; NextFrame] ++ extra).
    split; [exact Hloop|]. simpl in *.
    assert (1 <= n)%nat as Hn by (inversion Hep; lia).
    repeat split; try tauto; try lia.
    + rewrite Hev, <- app_assoc. reflexivity.
    + rewrite Hupds.
      replace (n - 0)%nat with (S (n - 1)) by lia. reflexivity.
Qed.

(** C5. The handler of the test button runs exactly one episode of the
    simulator: it sets a new cart-pole to a random state once, then
    picks the action of the policy network and calls update, again and
    again until update returns true; update is called n times for an
    episode of n steps, all calls but the last returning false, so the
    simulator is not stepped after its terminal state; and the status
    reports the n steps survived.  The controls are enabled at the end. *)
Theorem testButton_runs_one_episode (u : Ui) (w w1 w' : World) (cart : CartPole)
    (n fuel : nat) :
  setRandomState newCartPole w = (cart, w1) ->
  episode cart w1 n w' ->
  (n <= fuel)%nat ->
  exists u' log,
    testButton_click fuel u w = Some (u', w', log) /\
    resets log = 1%nat /\
    head log = Some SetRandomState /\
    updates log = replicate (n - 1) false ++ [true] /\
    appStatus u' = [Text "Test finished. Survived "; Subst (int (Z.of_nat n));
                    Text " step(s)."] /\
    enabled u'.
Proof.
  intros Hset Hep Hfuel. unfold testButton_click. rewrite Hset.
  edestruct (testLoop_episode n w'
               {| t_ui := disableUI u; t_world := w1; t_events := [SetRandomState];
                  cartPole := cart; isDone := false; steps := 0 |} fuel)
    as (s' & extra & Hloop & Hw' & Hsteps & Hev & Hupds & Hres & Hb);
    try eassumption; try reflexivity.
  rewrite Hloop. cbn [t_world t_events t_ui steps] in *. subst w'.
  do 2 eexists. split; [reflexivity|].
  rewrite Hev, Hsteps.
  repeat split; try tauto.
  - rewrite !resets_app, Hres. reflexivity.
  - rewrite !updates_app, Hupds. simpl. now rewrite app_nil_r.
Qed.

End TestButton.

Section TrainButton.
Context `{Host}.

(** Whatever the body of the [try] does, the handler returns normally,
    with the three buttons enabled. *)
Lemma trainButton_click_enables (inputs : Inputs) (s : State) :
  (trainButton_click inputs s).2 = inr tt /\
  enabled (ui (trainButton_click inputs s).1).
Proof.
  unfold trainButton_click, bind, tryCatch, onUi. simpl.
  destruct (trainBody inputs _) as [s1 [e|[]]]; simpl; repeat split.
Qed.

(** When the body throws at once, the handler has logged the error and
    has called nothing. *)
Lemma trainButton_click_throw (inputs : Inputs) (s : State) (e : Error) :
  (forall s0, trainBody inputs s0 = (s0, inl e)) ->
  appStatus (ui (trainButton_click inputs s).1) = Text "ERROR: " :: message e /\
  events (trainButton_click inputs s).1 = events s /\
  world (trainButton_click inputs s).1 = world s.
Proof.
  intros Hthrow. unfold trainButton_click, bind, tryCatch, onUi. simpl.
  rewrite Hthrow. simpl. repeat split.
Qed.

(** C9. The handler of the train button checks the hyperparameters before
    it trains: when the number of iterations is not greater than 0, or the
    games per iteration are not greater than 0, or the max steps per game
    are not greater than 1, or the discount rate is not strictly between 0
    and 1, it reports an error ("ERROR: Invalid ...") and does not train
    (it calls nothing outside the page).  In every case the handler
    finishes with the controls enabled. *)
Theorem trainButton_click_validates (inputs : Inputs) (s : State) :
  let final := (trainButton_click inputs s).1 in
  (trainButton_click inputs s).2 = inr tt /\
  enabled (ui final) /\
  (~ validHyperparameters inputs ->
     (exists report, appStatus (ui final) = Text "ERROR: " :: report /\
                     names "Invalid" report = true) /\
     trainings (events final) = trainings (events s) /\
     events final = events s /\
     world final = world s).
Proof.
  intros final. subst final.
  destruct (trainButton_click_enables inputs s) as [Hret Hen].
  split; [exact Hret|]. split; [exact Hen|].
  intros Hinvalid.
  assert (exists e, (forall s0, trainBody inputs s0 = (s0, inl e)) /\
                    names "Invalid" (message e) = true) as (e & Hthrow & Hname).
  { unfold trainBody.
    destruct (gt (number (parseInt (numIterationsInput inputs))) (Fin 0%Qc)) eqn:E1;
      simpl negb; cbv iota; [|eexists; split; [intros; reflexivity | reflexivity]].
    destruct (gt (number (parseInt (gamesPerIterationInput inputs))) (Fin 0%Qc)) eqn:E2;
      simpl negb; cbv iota; [|eexists; split; [intros; reflexivity | reflexivity]].
    destruct (gt (number (parseInt (maxStepsPerGameInput inputs))) (Fin 1%Qc)) eqn:E3;
      simpl negb; cbv iota; [|eexists; split; [intros; reflexivity | reflexivity]].
    destruct (gt (parseFloat (discountRateInput inputs)) (Fin 0%Qc)) eqn:E4;
      [destruct (lt (parseFloat (discountRateInput inputs)) (Fin 1%Qc)) eqn:E5|];
      simpl negb; cbv iota;
      try (eexists; split; [intros; reflexivity | reflexivity]).
    exfalso. apply Hinvalid. unfold validHyperparameters.
    rewrite E1, E2, E3, E4, E5. repeat split. }
  destruct (trainButton_click_throw inputs s e Hthrow) as (Hstatus & Hev & Hw).
  split; [exists (message e); split; assumption|].
  split; [now rewrite Hev|]. split; assumption.
Qed.

End TrainButton.

(** On the example host the cart starts at 1 and is lost after 4 steps. *)
Lemma testButton_runs_one_episode_witness :
  exists u' log,
    testButton_click 10 blankUi (world_ 0) = Some (u', world_ 5, log) /\
    resets log = 1%nat /\
    head log = Some SetRandomState /\
    updates log = replicate (4 - 1) false ++ [true] /\
    appStatus u' = [Text "Test finished. Survived "; Subst (int (Z.of_nat 4));
                    Text " step(s)."] /\
    enabled u'.
Proof.
  apply (testButton_runs_one_episode blankUi (world_ 0) (world_ 1) (world_ 5) (cart_ 1) 4 10).
  - reflexivity.
  - eapply episode_step; [reflexivity | reflexivity |].
    eapply episode_step; [reflexivity | reflexivity |].
    eapply episode_step; [reflexivity | reflexivity |].
    eapply episode_last; reflexivity.
  - lia.
Defined.

Example trainButton_click_trains :
  let final := (trainButton_click (H := exampleHost) (exampleInputs "3") startState).1 in
  trainings (events final) = 3%nat /\
  world final = world_ 3 /\
  appStatus (ui final) = [Text "Training completed."].
Proof. vm_compute. repeat split. Qed.

(** Zero iterations asked: an error is reported and nothing is trained. *)
Lemma trainButton_click_validates_witness :
  let final := (trainButton_click (H := exampleHost) (exampleInputs "0") startState).1 in
  (exists report, appStatus (ui final) = Text "ERROR: " :: report /\
                  names "Invalid" report = true) /\
  trainings (events final) = trainings (events startState) /\
  events final = events startState /\
  world final = world startState.
Proof.
  apply (trainButton_click_validates (H := exampleHost) (exampleInputs "0") startState).
  intros [Hiterations _]. vm_compute in Hiterations. discriminate Hiterations.
Defined.

End CartPoleUiFacts.

Module DateConversionUiFacts.
Import Js DateConversionUi.

Lemma length_substring0 (n : nat) (s : string) :
  (n <= String.length s)%nat -> String.length (substring 0 n s) = n.
Proof.
  revert s. induction n as [|n IH]; intros [|c s] Hn; simpl in *; try reflexivity; try lia.
  rewrite IH; [reflexivity | lia].
Qed.

Section Change.
Context `{Host}.

(** The log of the handler once the length check has passed: first the
    inference, on the input cut to [INPUT_LENGTH] characters when it is
    longer. *)
Lemma inputDateString_change_log (value : string) (ui : Ui) (w : World) :
  let inputStr := toUpperCase (trim value) in
  (6 <= String.length inputStr)%nat ->
  exists rest,
    (inputDateString_change value ui w).2 =
      Inference (if (INPUT_LENGTH <? String.length inputStr)%nat
                 then slice0 INPUT_LENGTH inputStr else inputStr) :: rest /\
    inferences rest = [].
Proof.
  intros inputStr Hlen. unfold inputDateString_change. fold inputStr.
  destruct (Nat.ltb_spec (String.length inputStr) 6) as [Hlt|_]; [lia|].
  destruct (runSeq2SeqInference _ w) as [w1 [err|[outputStr attention]]].
  - eexists. split; reflexivity.
  - destruct (heatmap attention _ _ w1) as [w2 [err|[]]]; eexists; split; reflexivity.
Qed.

(** C8. When the trimmed, uppercased value of the input field has fewer
    than 6 characters, the handler sets the output field to the empty
    string and runs no inference (it calls nothing).  When it has more
    than INPUT_LENGTH characters, any inference the handler runs is on
    its first INPUT_LENGTH characters; with at least 6 characters the
    handler runs exactly one inference, before anything else. *)
Theorem inputDateString_change_lengths (value : string) (ui : Ui) (w : World) :
  let inputStr := toUpperCase (trim value) in
  let result := inputDateString_change value ui w in
  ((String.length inputStr < 6)%nat ->
     outputDateString result.1.1 = [] /\ result.2 = [] /\ result.1.2 = w) /\
  ((INPUT_LENGTH < String.length inputStr)%nat ->
     String.length (slice0 INPUT_LENGTH inputStr) = INPUT_LENGTH /\
     Forall (fun arg => arg = slice0 INPUT_LENGTH inputStr) (inferences result.2) /\
     ((6 <= String.length inputStr)%nat ->
        head result.2 = Some (Inference (slice0 INPUT_LENGTH inputStr)) /\
        inferences result.2 = [slice0 INPUT_LENGTH inputStr])).
Proof.
  intros inputStr result. split.
  - intros Hshort. subst result. unfold inputDateString_change. fold inputStr.
    destruct (Nat.ltb_spec (String.length inputStr) 6) as [_|Hge]; [|lia].
    repeat split.
  - intros Hlong. split; [apply length_substring0; lia|].
    destruct (Nat.ltb_spec (String.length inputStr) 6) as [Hlt|Hge].
    + split; [|lia]. subst result. unfold inputDateString_change. fold inputStr.
      destruct (Nat.ltb_spec (String.length inputStr) 6) as [_|Hge]; [|lia].
      constructor.
    + destruct (inputDateString_change_log value ui w Hge) as (rest & Hlog & Hrest).
      fold inputStr in Hlog. fold result in Hlog.
      destruct (Nat.ltb_spec INPUT_LENGTH (String.length inputStr)) as [_|Hle]; [|lia].
      rewrite Hlog.
      change (inferences (Inference (slice0 INPUT_LENGTH inputStr) :: rest))
        with (slice0 INPUT_LENGTH inputStr :: inferences rest).
      rewrite Hrest.
      split; [repeat constructor|]. intros _. split; reflexivity.
Qed.

End Change.

Example inputDateString_change_example :
  inputDateString_change (H := exampleHost) "  january 05, 2019 at noon " blankUi tt =
  ({| outputDateString := [Subst (Str "JANUARY 05, ")];
      inferenceTime := [Text "seq2seq onversion took "; Subst (Num (Fin (Qc_of_Z 3)));
                        Text " ms"] |},
   tt,
   [Inference "JANUARY 05, ";
    Heatmap tt (xLabels "JANUARY 05, ") (yLabels (H := exampleHost) "JANUARY 05, ")]).
Proof. reflexivity. Qed.

(** A short value and a long one. *)
Lemma inputDateString_change_lengths_witness :
  (let result := inputDateString_change (H := exampleHost) " 5/1 " blankUi tt in
   outputDateString result.1.1 = [] /\ result.2 = [] /\ result.1.2 = tt) /\
  (let result := inputDateString_change (H := exampleHost)
                   "  january 05, 2019 at noon " blankUi tt in
   String.length "JANUARY 05, " = 12%nat /\
   Forall (fun arg => arg = "JANUARY 05, ") (inferences result.2) /\
   ((6 <= 24)%nat ->
      head result.2 = Some (Inference "JANUARY 05, ") /\
      inferences result.2 = ["JANUARY 05, "])).
Proof.
  split.
  - apply (inputDateString_change_lengths (H := exampleHost) " 5/1 " blankUi tt).
    vm_compute. lia.
  - apply (inputDateString_change_lengths (H := exampleHost)
             "  january 05, 2019 at noon " blankUi tt).
    vm_compute. lia.
Defined.

End DateConversionUiFacts.

Module ImdbDataFacts.
Import Js ImdbData ImdbDataMore.

(** *** The loop reads the integers of the file one after the other *)

Lemma parseFrom_parseWords (numWords : Z) (n : nat) :
  forall (fuel : nat) (pre suf : Buffer) (sequences : list (list Z)) (seq : list Z),
    length suf = (4 * n)%nat ->
    (n <= fuel)%nat ->
    parseFrom fuel (pre ++ suf) numWords sequences seq (length pre) =
    inr (parseWords numWords (words suf n) sequences seq (length pre =? 0)%nat).
Proof.
  induction n as [|n IH]; intros fuel pre suf sequences seq Hlen Hfuel.
  - destruct suf; [|discriminate]. rewrite app_nil_r.
    destruct fuel; simpl; now rewrite Nat.ltb_irrefl.
  - destruct suf as [|first [|b1 [|b2 [|last suf]]]]; simpl in Hlen; try lia.
    destruct fuel as [|fuel]; [lia|].
    cbn [parseFrom].
    assert ((length pre <? length (pre ++ first :: b1 :: b2 :: last :: suf))%nat = true) as ->.
    { apply Nat.ltb_lt. rewrite length_app. simpl. lia. }
    unfold readInt32LE. rewrite drop_app_length. cbn [andThen words].
    replace (pre ++ first :: b1 :: b2 :: last :: suf)
      with ((pre ++ [first; b1; b2; last]) ++ suf) by now rewrite <- app_assoc.
    replace (length pre + 4)%nat with (length (pre ++ [first; b1; b2; last]))
      by (rewrite length_app; reflexivity).
    assert ((length (pre ++ [first; b1; b2; last]) =? 0)%nat = false) as Hnotstart.
    { apply Nat.eqb_neq. rewrite length_app. simpl. lia. }
    cbn [parseWords].
    destruct (first + b1 * 2 ^ 8 + b2 * 2 ^ 16 + shl24 last =? 1).
    + rewrite IH by lia. rewrite Hnotstart.
      destruct pre; reflexivity.
    + rewrite IH by lia. rewrite Hnotstart. reflexivity.
Qed.

(** *** What the loop records *)

Lemma parseWords_concat (numWords : Z) (ws : list Z) :
  forall sequences seq atStart,
    (atStart = true -> seq = []) ->
    let '(sequences', seq') := parseWords numWords ws sequences seq atStart in
    concat sequences' ++ seq' =
    concat sequences ++ seq ++ map (recorded numWords) (List.filter notDelimiter ws).
Proof.
  induction ws as [|value ws IH]; intros sequences seq atStart Hstart; simpl.
  - now rewrite app_nil_r.
  - unfold notDelimiter at 1. destruct (value =? 1); simpl.
    + specialize (IH (if atStart then sequences else sequences ++ [seq]) [] false).
      destruct (parseWords numWords ws _ [] false) as [sequences' seq'].
      rewrite IH by discriminate. destruct atStart.
      * now rewrite Hstart.
      * rewrite concat_app. simpl. now rewrite app_nil_r, <- app_assoc.
    + specialize (IH sequences (seq ++ [recorded numWords value]) false).
      destruct (parseWords numWords ws sequences _ false) as [sequences' seq'].
      rewrite IH by discriminate. now rewrite <- !app_assoc.
Qed.

Lemma runs_nonempty (numWords : Z) (ws : list Z) : runs numWords ws <> [].
Proof.
  destruct ws as [|value ws]; simpl; [discriminate|].
  destruct (value =? 1); [discriminate|].
  destruct (runs numWords ws); discriminate.
Qed.

(** The loop and the reading by runs agree. *)
Lemma parseWords_runs (numWords : Z) (ws : list Z) :
  forall sequences seq atStart,
    let '(sequences', seq') := parseWords numWords ws sequences seq atStart in
    sequences' ++ [seq'] =
    sequences ++
    match runs numWords ws with
    | run :: others =>
        if atStart && startsWithDelimiter ws then others else (seq ++ run) :: others
    | [] => []
    end.
Proof.
  induction ws as [|value ws IH]; intros sequences seq atStart; simpl.
  - now rewrite andb_false_r, app_nil_r.
  - destruct (value =? 1).
    + specialize (IH (if atStart then sequences else sequences ++ [seq]) [] false).
      destruct (parseWords numWords ws _ [] false) as [sequences' seq'].
      rewrite IH. simpl.
      destruct (runs numWords ws) as [|run others] eqn:Eruns;
        [now apply runs_nonempty in Eruns|].
      destruct atStart; simpl; now rewrite ?app_nil_r, <- ?app_assoc.
    + specialize (IH sequences (seq ++ [recorded numWords value]) false).
      destruct (parseWords numWords ws sequences _ false) as [sequences' seq'].
      rewrite IH, andb_false_r. simpl.
      destruct (runs numWords ws) as [|run others] eqn:Eruns;
        [now apply runs_nonempty in Eruns|].
      simpl. now rewrite <- app_assoc.
Qed.

Lemma dropLastIfEmpty_snoc (l : list (list Z)) (x : list Z) :
  dropLastIfEmpty (l ++ [x]) = if (0 <? length x)%nat then l ++ [x] else l.
Proof.
  unfold dropLastIfEmpty. rewrite List.last_last.
  destruct x; simpl; [apply removelast_last | reflexivity].
Qed.

Lemma recorded_ok (numWords value : Z) :
  recorded numWords value = 2 \/ recorded numWords value < numWords.
Proof. unfold recorded, OOV_CHAR. destruct (Z.leb_spec numWords value); [now left | now right]. Qed.

Lemma Forall_concat_iff {A} (P : A -> Prop) (ls : list (list A)) :
  Forall P (concat ls) <-> Forall (Forall P) ls.
Proof.
  induction ls as [|l ls IH]; simpl.
  - split; constructor.
  - rewrite Forall_app, IH. split.
    + intros [Hl Hls]. now constructor.
    + intros Hall. inversion Hall; subst. now split.
Qed.

(** *** Padding *)

Lemma padSequences_rows (numWords : Z) (sequences : list (list Z)) (maxLen : nat) :
  Forall (Forall (fun v => v = 2 \/ v < numWords)) sequences ->
  Forall (fun row => length row = maxLen /\ Forall (entryOk numWords) row)
         (padSequences sequences maxLen PAD_CHAR).
Proof.
  intros Hall. unfold padSequences.
  induction Hall as [|seq sequences Hseq _ IH]; simpl; constructor; [|exact IH].
  assert (Forall (entryOk numWords) seq) as Hok.
  { eapply Forall_impl; [|exact Hseq]. intros v Hv. right. exact Hv. }
  destruct (Nat.ltb_spec maxLen (length seq)) as [Hlong|Hshort].
  - assert (length (drop (length seq - maxLen) seq) = maxLen) as Hlen
      by (rewrite length_drop; lia).
    rewrite Hlen, Nat.ltb_irrefl. split; [exact Hlen|]. now apply Forall_drop.
  - destruct (Nat.ltb_spec (length seq) maxLen) as [Hlt|Hge].
    + split; [rewrite length_app, length_replicate; lia|].
      apply Forall_app. split; [|exact Hok].
      apply Forall_replicate. now left.
    + split; [lia | exact Hok].
Qed.

Lemma tensor2d_rows (rows : list (list Z)) (maxLen : nat) :
  Forall (fun row => length row = maxLen) rows ->
  tensor2d rows (length rows, maxLen) = inr {| shape := (length rows, maxLen); values := rows |}.
Proof.
  intros Hrows. unfold tensor2d. simpl. rewrite Nat.eqb_refl. simpl.
  assert (forallb (fun row => (length row =? maxLen)%nat) rows = true) as ->; [|reflexivity].
  induction Hrows as [|row rows Hrow _ IH]; simpl; [reflexivity|].
  now rewrite IH, (proj2 (Nat.eqb_eq _ _) Hrow).
Qed.

(** C6. On a file made of 32-bit integers, loadFeatures returns a tensor.
    The file is read as consecutive little-endian 32-bit integers, in which
    the value 1 starts a new sequence; the values other than the delimiter
    are recorded in the sequences, in order, as OOV_CHAR (2) when at least
    numWords and as they are otherwise; the rows of the tensor are the
    sequences padded and cut at their start to length maxLen with PAD_CHAR
    (0); so the tensor has shape [number of sequences, maxLen] and each of
    its entries is 0, 2 or less than numWords. *)
Theorem loadFeatures_entries (buffer : Buffer) (numWords : Z) (maxLen n : nat) :
  length buffer = (4 * n)%nat ->
  exists sequences t,
    rawSequences buffer numWords = inr sequences /\
    sequences = sequencesOf numWords (words buffer n) /\
    concat sequences =
      map (recorded numWords) (List.filter notDelimiter (words buffer n)) /\
    loadFeatures buffer numWords maxLen = inr t /\
    shape t = (length sequences, maxLen) /\
    values t = padSequences sequences maxLen PAD_CHAR /\
    Forall (fun row => length row = maxLen /\ Forall (entryOk numWords) row) (values t).
Proof.
  intros Hlen.
  pose proof (parseFrom_parseWords numWords n (length buffer) [] buffer [] [] Hlen) as Hparse.
  simpl in Hparse. specialize (Hparse ltac:(lia)).
  pose proof (parseWords_concat numWords (words buffer n) [] [] true (fun _ => eq_refl))
    as Hconcat.
  pose proof (parseWords_runs numWords (words buffer n) [] [] true) as Hruns.
  destruct (parseWords numWords (words buffer n) [] [] true) as [sequences seq].
  simpl in Hconcat, Hruns.
  set (final := if (0 <? length seq)%nat then sequences ++ [seq] else sequences).
  assert (concat final = concat sequences ++ seq) as Hfinal.
  { subst final. destruct seq; simpl.
    - now rewrite app_nil_r.
    - rewrite concat_app. simpl. now rewrite app_nil_r. }
  assert (Forall (Forall (fun v => v = 2 \/ v < numWords)) final) as Hall.
  { apply Forall_concat_iff. rewrite Hfinal, Hconcat.
    apply Forall_forall. intros v Hv. apply in_map_iff in Hv as (value & <- & _).
    apply recorded_ok. }
  pose proof (padSequences_rows numWords final maxLen Hall) as Hrows.
  exists final, {| shape := (length final, maxLen);
                   values := padSequences final maxLen PAD_CHAR |}.
  split; [unfold rawSequences; rewrite Hparse; reflexivity|].
  split.
  { subst final. rewrite <- dropLastIfEmpty_snoc, Hruns. unfold sequencesOf.
    destruct (runs numWords (words buffer n)) as [|run others] eqn:Eruns;
      [now apply runs_nonempty in Eruns|].
    destruct (startsWithDelimiter (words buffer n)); reflexivity. }
  split; [now rewrite Hfinal|].
  split.
  { unfold loadFeatures. rewrite Hparse. cbn [andThen]. fold final.
    rewrite tensor2d_rows.
    - unfold padSequences at 1 3. now rewrite length_map.
    - eapply Forall_impl; [|exact Hrows]. now intros row [Hrow _]. }
  repeat split. exact Hrows.
Qed.

(** *** loadData *)

Lemma length_append (a b : string) :
  String.length (a +:+ b) = (String.length a + String.length b)%nat.
Proof.
  induction a as [|c a IH]; [reflexivity|].
  change (String c a +:+ b) with (String c (a +:+ b)). simpl. now rewrite IH.
Qed.

Lemma length_substring_le (n m : nat) (s : string) :
  (String.length (substring n m s) <= m)%nat.
Proof.
  revert n m. induction s as [|c s IH]; intros [|n] [|m]; simpl; try lia.
  - specialize (IH 0%nat m). lia.
  - apply IH.
  - apply IH.
Qed.

Section Loader.
Context `{Host}.

Lemma zipExtractDir_neq : zipExtractDir <> zipDownloadDest.
Proof.
  intros Heq. apply (f_equal String.length) in Heq.
  pose proof (length_substring_le 0 (String.length zipDownloadDest - 4) zipDownloadDest) as Hle.
  fold zipExtractDir in Hle.
  assert (4 <= String.length zipDownloadDest)%nat as Hlong.
  { unfold zipDownloadDest, join. rewrite !length_append.
    change (String.length (basename DATA_ZIP_URL)) with 18%nat. lia. }
  lia.
Qed.

Lemma loadFrom_rows (fs : gmap string Node) (dataDir : string) (numWords : Z) (len : nat)
    (data : Data) :
  loadFrom fs dataDir numWords len = inr data ->
  (shape (xTrain data)).1 = (shape (yTrain data)).1 /\
  (shape (xTest data)).1 = (shape (yTest data)).1.
Proof.
  unfold loadFrom.
  repeat match goal with
         | |- context [andThen ?c _] =>
             let E := fresh "E" in
             destruct c eqn:E; cbn [andThen]; [discriminate|]
         end.
  intros [= <-]. simpl.
  unfold util_assert in *.
  repeat match goal with
         | E : (if ?b then _ else _) = inr _ |- _ =>
             destruct b eqn:?; [clear E | discriminate E]
         end.
  split; now apply Nat.eqb_eq.
Qed.

Lemma maybeDownload_log (sourceURL destPath : string) (fs : gmap string Node) :
  (maybeDownload sourceURL destPath fs).1.2 =
  if mustDownload fs destPath then [Download sourceURL destPath] else [].
Proof.
  unfold maybeDownload. destruct (mustDownload fs destPath); [|reflexivity].
  destruct (fs !! destPath) as [[content|]|]; try reflexivity;
    destruct (httpsGet sourceURL); reflexivity.
Qed.

(** The download writes the destination only. *)
Lemma maybeDownload_other (sourceURL destPath path : string) (fs : gmap string Node) :
  path <> destPath -> (maybeDownload sourceURL destPath fs).1.1 !! path = fs !! path.
Proof.
  intros Hne. unfold maybeDownload. destruct (mustDownload fs destPath); [|reflexivity].
  destruct (fs !! destPath) as [[content|]|]; try reflexivity;
    destruct (httpsGet sourceURL); simpl; now rewrite lookup_insert_ne.
Qed.

Lemma maybeExtract_log (sourcePath destDir : string) (fs : gmap string Node) :
  (maybeExtract sourcePath destDir fs).1.2 =
  if existsSync fs destDir then [] else [Extract sourcePath destDir].
Proof.
  unfold maybeExtract. destruct (existsSync fs destDir); [reflexivity|].
  destruct (readFileSync _ sourcePath) as [err|archive]; [reflexivity|].
  destruct (extract archive); reflexivity.
Qed.

(** The log of [loadData]: that of the download, then, when the download
    has resolved, that of the extraction. *)
Lemma loadData_log (numWords : Z) (len : nat) (fs : gmap string Node) :
  let downloaded := maybeDownload DATA_ZIP_URL zipDownloadDest fs in
  (loadData numWords len fs).1.2 =
  downloaded.1.2 ++
  match downloaded.2 with
  | Resolved _ => (maybeExtract zipDownloadDest zipExtractDir downloaded.1.1).1.2
  | _ => []
  end.
Proof.
  unfold loadData, maybeDownloadAndExtract.
  destruct (maybeDownload DATA_ZIP_URL zipDownloadDest fs) as [[fs1 log1] [[]|err|]]; simpl;
    try now rewrite app_nil_r.
  destruct (maybeExtract zipDownloadDest zipExtractDir fs1) as [[fs2 log2] [[]|err|]]; simpl;
    try reflexivity.
  destruct (loadFrom fs2 zipExtractDir numWords len); reflexivity.
Qed.

Lemma loadData_resolved (numWords : Z) (len : nat) (fs : gmap string Node) (data : Data) :
  (loadData numWords len fs).2 = Resolved data ->
  exists fs', loadFrom fs' zipExtractDir numWords len = inr data.
Proof.
  unfold loadData.
  destruct (maybeDownloadAndExtract fs) as [[fs' log] [dataDir|err|]] eqn:Hprep;
    simpl; try discriminate.
  assert (dataDir = zipExtractDir) as ->.
  { revert Hprep. unfold maybeDownloadAndExtract.
    destruct (maybeDownload _ _ fs) as [[fs1 log1] [[]|?|]]; try discriminate.
    destruct (maybeExtract _ _ fs1) as [[fs2 log2] [[]|?|]]; try discriminate.
    now intros [= _ _ <-]. }
  destruct (loadFrom fs' zipExtractDir numWords len) as [err|data'] eqn:Hload;
    simpl; [discriminate|].
  intros [= <-]. now exists fs'.
Qed.

Lemma loadData_after (numWords : Z) (len : nat) (fs : gmap string Node) :
  (loadData numWords len fs).1.1 = (maybeDownloadAndExtract fs).1.1.
Proof.
  unfold loadData.
  destruct (maybeDownloadAndExtract fs) as [[fs' log] [dataDir|err|]]; try reflexivity.
  destruct (loadFrom fs' dataDir numWords len); reflexivity.
Qed.

(** When the download and the extraction have resolved, [loadData] ends as
    the loading of the four files of the directory does. *)
Lemma loadData_loadFrom (numWords : Z) (len : nat) (fs : gmap string Node) (dataDir : string) :
  (maybeDownloadAndExtract fs).2 = Resolved dataDir ->
  dataDir = zipExtractDir /\
  (loadData numWords len fs).2 =
    match loadFrom (loadData numWords len fs).1.1 zipExtractDir numWords len with
    | inr data => Resolved data
    | inl err => Rejected err
    end.
Proof.
  intros Hprep.
  assert (dataDir = zipExtractDir) as ->.
  { revert Hprep. unfold maybeDownloadAndExtract.
    destruct (maybeDownload _ _ fs) as [[fs1 log1] [[]|?|]]; try discriminate.
    destruct (maybeExtract _ _ fs1) as [[fs2 log2] [[]|?|]]; try discriminate.
    now intros [= <-]. }
  split; [reflexivity|].
  rewrite loadData_after. unfold loadData.
  destruct (maybeDownloadAndExtract fs) as [[fs' log] [dir|err|]]; try discriminate.
  simpl in Hprep. injection Hprep as ->. cbn [fst snd].
  destruct (loadFrom fs' zipExtractDir numWords len); reflexivity.
Qed.

Lemma loadData_resolved_after (numWords : Z) (len : nat) (fs : gmap string Node)
    (data : Data) :
  (loadData numWords len fs).2 = Resolved data ->
  (maybeDownloadAndExtract fs).2 = Resolved zipExtractDir /\
  loadFrom (loadData numWords len fs).1.1 zipExtractDir numWords len = inr data.
Proof.
  intros Hdata.
  destruct (maybeDownloadAndExtract fs) as [[fs' log] [dataDir|err|]] eqn:Hprep.
  - destruct (loadData_loadFrom numWords len fs dataDir) as [-> Hend];
      [now rewrite Hprep|].
    split; [reflexivity|].
    rewrite Hend in Hdata.
    destruct (loadFrom _ zipExtractDir numWords len) as [err|data']; [discriminate|].
    now injection Hdata as ->.
  - unfold loadData in Hdata. rewrite Hprep in Hdata. discriminate.
  - unfold loadData in Hdata. rewrite Hprep in Hdata. discriminate.
Qed.

(** What a loading that returns has read and checked. *)
Lemma loadFrom_inr (fs : gmap string Node) (dataDir : string) (numWords : Z) (len : nat)
    (data : Data) :
  loadFrom fs dataDir numWords len = inr data ->
  exists trainFeatures testFeatures trainTargets testTargets,
    readFileSync fs (join dataDir "imdb_train_data.bin") = inr trainFeatures /\
    readFileSync fs (join dataDir "imdb_test_data.bin") = inr testFeatures /\
    readFileSync fs (join dataDir "imdb_train_targets.bin") = inr trainTargets /\
    readFileSync fs (join dataDir "imdb_test_targets.bin") = inr testTargets /\
    loadFeatures trainFeatures numWords len = inr (xTrain data) /\
    loadFeatures testFeatures numWords len = inr (xTest data) /\
    loadTargets trainTargets = inr (yTrain data) /\
    loadTargets testTargets = inr (yTest data).
Proof.
  unfold loadFrom.
  destruct (readFileSync fs (join dataDir "imdb_train_data.bin")) as [e|f1] eqn:Hf1;
    cbn [andThen]; [discriminate|].
  destruct (loadFeatures f1 numWords len) as [e|x1] eqn:Hx1; cbn [andThen]; [discriminate|].
  destruct (readFileSync fs (join dataDir "imdb_test_data.bin")) as [e|f2] eqn:Hf2;
    cbn [andThen]; [discriminate|].
  destruct (loadFeatures f2 numWords len) as [e|x2] eqn:Hx2; cbn [andThen]; [discriminate|].
  destruct (readFileSync fs (join dataDir "imdb_train_targets.bin")) as [e|t1] eqn:Ht1;
    cbn [andThen]; [discriminate|].
  destruct (loadTargets t1) as [e|y1] eqn:Hy1; cbn [andThen]; [discriminate|].
  destruct (readFileSync fs (join dataDir "imdb_test_targets.bin")) as [e|t2] eqn:Ht2;
    cbn [andThen]; [discriminate|].
  destruct (loadTargets t2) as [e|y2] eqn:Hy2; cbn [andThen]; [discriminate|].
  destruct (util_assert _ _) as [e|[]]; cbn [andThen]; [discriminate|].
  destruct (util_assert _ _) as [e|[]]; cbn [andThen]; [discriminate|].
  intros [= <-]. exists f1, f2, t1, t2. cbn [xTrain yTrain xTest yTest].
  repeat split; assumption.
Qed.

(** The two assertions, once the four files are loaded. *)
Lemma loadFrom_asserts (fs : gmap string Node) (dataDir : string) (numWords : Z) (len : nat)
    (trainFeatures testFeatures trainTargets testTargets : Buffer)
    (x1 y1 x2 y2 : Tensor2d) :
  readFileSync fs (join dataDir "imdb_train_data.bin") = inr trainFeatures ->
  readFileSync fs (join dataDir "imdb_test_data.bin") = inr testFeatures ->
  readFileSync fs (join dataDir "imdb_train_targets.bin") = inr trainTargets ->
  readFileSync fs (join dataDir "imdb_test_targets.bin") = inr testTargets ->
  loadFeatures trainFeatures numWords len = inr x1 ->
  loadFeatures testFeatures numWords len = inr x2 ->
  loadTargets trainTargets = inr y1 ->
  loadTargets testTargets = inr y2 ->
  loadFrom fs dataDir numWords len =
    if negb ((shape x1).1 =? (shape y1).1)%nat then
      inl (mkError [Text "Mismatch in number of examples between xTrain and yTrain"])
    else if negb ((shape x2).1 =? (shape y2).1)%nat then
      inl (mkError [Text "Mismatch in number of examples between xTest and yTest"])
    else inr {| xTrain := x1; yTrain := y1; xTest := x2; yTest := y2 |}.
Proof.
  intros Hf1 Hf2 Ht1 Ht2 Hx1 Hx2 Hy1 Hy2. unfold loadFrom.
  rewrite Hf1. cbn [andThen]. rewrite Hx1. cbn [andThen].
  rewrite Hf2. cbn [andThen]. rewrite Hx2. cbn [andThen].
  rewrite Ht1. cbn [andThen]. rewrite Hy1. cbn [andThen].
  rewrite Ht2. cbn [andThen]. rewrite Hy2. cbn [andThen].
  unfold util_assert.
  destruct ((shape x1).1 =? (shape y1).1)%nat; cbn [negb andThen]; [|reflexivity].
  destruct ((shape x2).1 =? (shape y2).1)%nat; reflexivity.
Qed.

Lemma mustDownload_true (fs : gmap string Node) (path : string) :
  mustDownload fs path = true <->
  fs !! path = None \/ exists node, fs !! path = Some node /\ size node = 0%nat.
Proof.
  unfold mustDownload. destruct (fs !! path) as [node|].
  - rewrite Nat.eqb_eq. split.
    + intros Hsize. right. now exists node.
    + intros [Hnone|(node' & [= <-] & Hsize)]; [discriminate | exact Hsize].
  - split; [now left | reflexivity].
Qed.

Lemma mustDownload_false (fs : gmap string Node) (path : string) :
  mustDownload fs path = false <->
  exists node, fs !! path = Some node /\ size node <> 0%nat.
Proof.
  unfold mustDownload. destruct (fs !! path) as [node|].
  - rewrite Nat.eqb_neq. split.
    + intros Hsize. now exists node.
    + now intros (node' & [= <-] & Hsize).
  - split; [discriminate | now intros (node & Hnode & _)].
Qed.

(** C7. loadData downloads the archive exactly when the destination file
    does not exist or has size zero, and extracts it only when the
    extraction directory does not exist (at most once each).  When it
    returns, its four tensors are what loadFeatures and loadTargets give
    on the four files of the extraction directory, and xTrain has as many
    rows as yTrain and xTest as many rows as yTest.  Both equalities are
    asserted: once the archive is in place and the four files are loaded,
    loadData is rejected with the error of the first assertion that fails,
    and returns the four tensors when both hold. *)
Theorem loadData_download_extract_rows (numWords : Z) (len : nat) (fs : gmap string Node) :
  let result := loadData numWords len fs in
  let log := result.1.2 in
  let after := result.1.1 in
  (downloads log = [Download DATA_ZIP_URL zipDownloadDest] /\
   (fs !! zipDownloadDest = None \/
    exists node, fs !! zipDownloadDest = Some node /\ size node = 0%nat)
   \/
   downloads log = [] /\
   exists node, fs !! zipDownloadDest = Some node /\ size node <> 0%nat) /\
  (extractions log = [] \/
   extractions log = [Extract zipDownloadDest zipExtractDir] /\
   fs !! zipExtractDir = None) /\
  (forall data, result.2 = Resolved data ->
     exists trainFeatures testFeatures trainTargets testTargets,
       readFileSync after (join zipExtractDir "imdb_train_data.bin") = inr trainFeatures /\
       readFileSync after (join zipExtractDir "imdb_test_data.bin") = inr testFeatures /\
       readFileSync after (join zipExtractDir "imdb_train_targets.bin") = inr trainTargets /\
       readFileSync after (join zipExtractDir "imdb_test_targets.bin") = inr testTargets /\
       loadFeatures trainFeatures numWords len = inr (xTrain data) /\
       loadFeatures testFeatures numWords len = inr (xTest data) /\
       loadTargets trainTargets = inr (yTrain data) /\
       loadTargets testTargets = inr (yTest data) /\
       (shape (xTrain data)).1 = (shape (yTrain data)).1 /\
       (shape (xTest data)).1 = (shape (yTest data)).1) /\
  (forall trainFeatures testFeatures trainTargets testTargets x1 y1 x2 y2,
     (maybeDownloadAndExtract fs).2 = Resolved zipExtractDir ->
     readFileSync after (join zipExtractDir "imdb_train_data.bin") = inr trainFeatures ->
     readFileSync after (join zipExtractDir "imdb_test_data.bin") = inr testFeatures ->
     readFileSync after (join zipExtractDir "imdb_train_targets.bin") = inr trainTargets ->
     readFileSync after (join zipExtractDir "imdb_test_targets.bin") = inr testTargets ->
     loadFeatures trainFeatures numWords len = inr x1 ->
     loadFeatures testFeatures numWords len = inr x2 ->
     loadTargets trainTargets = inr y1 ->
     loadTargets testTargets = inr y2 ->
     result.2 =
       if negb ((shape x1).1 =? (shape y1).1)%nat then
         Rejected (mkError [Text "Mismatch in number of examples between xTrain and yTrain"])
       else if negb ((shape x2).1 =? (shape y2).1)%nat then
         Rejected (mkError [Text "Mismatch in number of examples between xTest and yTest"])
       else Resolved {| xTrain := x1; yTrain := y1; xTest := x2; yTest := y2 |}).
Proof.
  intros result log after. subst log after result.
  split; [|split; [|split]].
  - rewrite loadData_log, maybeDownload_log.
    set (downloaded := maybeDownload DATA_ZIP_URL zipDownloadDest fs).
    unfold downloads. rewrite List.filter_app.
    assert (List.filter (fun e => match e with Download _ _ => true | _ => false end)
              match downloaded.2 with
              | Resolved _ => (maybeExtract zipDownloadDest zipExtractDir downloaded.1.1).1.2
              | _ => []
              end = []) as ->.
    { destruct (downloaded.2); rewrite ?maybeExtract_log;
        try destruct (existsSync downloaded.1.1 zipExtractDir); reflexivity. }
    rewrite app_nil_r.
    destruct (mustDownload fs zipDownloadDest) eqn:Hmust.
    + left. split; [reflexivity|]. now apply mustDownload_true.
    + right. split; [reflexivity|]. now apply mustDownload_false.
  - rewrite loadData_log, maybeDownload_log.
    set (downloaded := maybeDownload DATA_ZIP_URL zipDownloadDest fs).
    assert (existsSync downloaded.1.1 zipExtractDir = existsSync fs zipExtractDir) as Hdir.
    { unfold existsSync, downloaded.
      now rewrite maybeDownload_other by apply zipExtractDir_neq. }
    unfold extractions. rewrite List.filter_app.
    destruct (downloaded.2); rewrite ?maybeExtract_log, ?Hdir;
      destruct (mustDownload fs zipDownloadDest);
      try (unfold existsSync; destruct (fs !! zipExtractDir) eqn:Hfs);
      simpl; auto.
  - intros data Hdata.
    apply loadData_resolved_after in Hdata as [_ Hload].
    destruct (loadFrom_inr _ _ _ _ _ Hload)
      as (f1 & f2 & t1 & t2 & Hf1 & Hf2 & Ht1 & Ht2 & Hx1 & Hx2 & Hy1 & Hy2).
    destruct (loadFrom_rows _ _ _ _ _ Hload) as [Htrain Htest].
    exists f1, f2, t1, t2. repeat split; assumption.
  - intros f1 f2 t1 t2 x1 y1 x2 y2 Hprep Hf1 Hf2 Ht1 Ht2 Hx1 Hx2 Hy1 Hy2.
    destruct (loadData_loadFrom numWords len fs _ Hprep) as [_ ->].
    rewrite (loadFrom_asserts _ _ _ _ f1 f2 t1 t2 x1 y1 x2 y2) by assumption.
    destruct ((shape x1).1 =? (shape y1).1)%nat; cbn [negb]; [|reflexivity].
    destruct ((shape x2).1 =? (shape y2).1)%nat; reflexivity.
Qed.

End Loader.

Example loadFeatures_example :
  loadFeatures exampleFeatures 100 3 =
  inr {| shape := (2%nat, 3%nat); values := [[0; 5; 2]; [0; 0; 3]] |}.
Proof. reflexivity. Qed.

(** A 1 that opens the file starts the first sequence; two 1s in a row
    give an empty sequence; a 1 that ends the file gives none. *)
Example sequencesOf_delimiters :
  sequencesOf 100 [1; 5; 6; 1; 1; 7; 1] = [[5; 6]; []; [7]] /\
  sequencesOf 100 [5; 6; 1; 200] = [[5; 6]; [2]] /\
  sequencesOf 100 [1] = [] /\
  rawSequences [1; 0; 0; 0;  1; 0; 0; 0;  255; 255; 255; 255] 100 = inr [[]; [-1]].
Proof. repeat split. Qed.

Example loadFeatures_truncates :
  loadFeatures exampleFeatures 100000 1 =
  inr {| shape := (2%nat, 1%nat); values := [[70000]; [3]] |}.
Proof. reflexivity. Qed.

Lemma loadFeatures_entries_witness :
  exists sequences t,
    rawSequences exampleFeatures 100 = inr sequences /\
    sequences = sequencesOf 100 (words exampleFeatures 5) /\
    concat sequences =
      map (recorded 100) (List.filter notDelimiter (words exampleFeatures 5)) /\
    loadFeatures exampleFeatures 100 3 = inr t /\
    shape t = (length sequences, 3%nat) /\
    values t = padSequences sequences 3 PAD_CHAR /\
    Forall (fun row => length row = 3%nat /\ Forall (entryOk 100) row) (values t).
Proof. apply (loadFeatures_entries exampleFeatures 100 3 5). reflexivity. Defined.

(** On an empty file system the example host downloads and extracts, and
    the four tensors have two rows each. *)
Section Example.
#[local] Existing Instance exampleHost.

Example loadData_example :
  exists fs data,
    loadData 100 3 emptyDisk =
      (fs, [Download DATA_ZIP_URL "/tmp/imdb_tfjs_data.zip";
            Extract "/tmp/imdb_tfjs_data.zip" "/tmp/imdb_tfjs_data"], Resolved data) /\
    shape (xTrain data) = (2%nat, 3%nat) /\ shape (yTrain data) = (2%nat, 1%nat) /\
    shape (xTest data) = (2%nat, 3%nat) /\ shape (yTest data) = (2%nat, 1%nat).
Proof. do 2 eexists. split; [vm_compute; reflexivity|]. repeat split. Qed.

End Example.

(** On an empty file system the example host downloads, extracts and
    returns tensors with two rows each; with three targets for two reviews
    of the training set, loadData is rejected by the first assertion. *)
Lemma loadData_download_extract_rows_witness :
  (exists data,
     (loadData (H := exampleHost) 100 3 emptyDisk).2 = Resolved data /\
     (loadData (H := exampleHost) 100 3 emptyDisk).1.2 =
       [Download DATA_ZIP_URL "/tmp/imdb_tfjs_data.zip";
        Extract "/tmp/imdb_tfjs_data.zip" "/tmp/imdb_tfjs_data"] /\
     (shape (xTrain data)).1 = (shape (yTrain data)).1 /\
     (shape (xTest data)).1 = (shape (yTest data)).1 /\
     shape (xTrain data) = (2%nat, 3%nat) /\ shape (yTrain data) = (2%nat, 1%nat)) /\
  (loadData (H := mismatchHost) 100 3 emptyDisk).2 =
    Rejected (mkError [Text "Mismatch in number of examples between xTrain and yTrain"]).
Proof.
  split.
  - destruct (loadData_download_extract_rows (H := exampleHost) 100 3 emptyDisk)
      as (_ & _ & Hdata & _).
    destruct (loadData (H := exampleHost) 100 3 emptyDisk)
      as [[after log] [data|err|]] eqn:Hrun;
      [|vm_compute in Hrun; discriminate|vm_compute in Hrun; discriminate].
    exists data.
    destruct (Hdata data eq_refl)
      as (f1 & f2 & t1 & t2 & _ & _ & _ & _ & _ & _ & _ & _ & Htrain & Htest).
    split; [reflexivity|].
    vm_compute in Hrun. injection Hrun as _ <- <-.
    split; [reflexivity|]. split; [exact Htrain|]. split; [exact Htest|].
    split; reflexivity.
  - destruct (loadData_download_extract_rows (H := mismatchHost) 100 3 emptyDisk)
      as (_ & _ & _ & Hasserts).
    rewrite (Hasserts exampleFeatures exampleFeatures [1; 0; 1] [0; 1]
               {| shape := (2%nat, 3%nat); values := [[0; 5; 2]; [0; 0; 3]] |}
               {| shape := (3%nat, 1%nat); values := [[1]; [0]; [1]] |}
               {| shape := (2%nat, 3%nat); values := [[0; 5; 2]; [0; 0; 3]] |}
               {| shape := (2%nat, 1%nat); values := [[0]; [1]] |});
      vm_compute; reflexivity.
Defined.

End ImdbDataFacts.

Module JenaWeatherFacts.
Import Js JenaWeather.

(** On integers, [Math.floor(a / b)] is the quotient rounded down. *)
Lemma Math_floor_divide (a b : Z) :
  b <> 0 -> Math_floor (divide a b) = Fin (Qc_of_Z (a / b)).
Proof.
  intros Hb. unfold divide, Math_floor.
  destruct (Z.eqb_spec b 0) as [|_]; [contradiction|].
  f_equal. f_equal.
  unfold Qcdiv, Qcmult, Qcinv, Q2Qc. cbn [this].
  rewrite (Qfloor_comp _ _ (Qred_correct _)).
  rewrite (Qfloor_comp _ (inject_Z a * / inject_Z b)%Q)
    by (apply Qmult_comp; [reflexivity | apply Qred_correct]).
  unfold inject_Z, Qinv, Qmult, Qfloor. cbn [Qnum Qden].
  destruct b as [|b|b]; [contradiction| |].
  - cbn [Qnum Qden]. now rewrite Z.mul_1_r, Pos.mul_1_l.
  - cbn [Qnum Qden]. rewrite Pos.mul_1_l.
    replace (a * -1) with (- a) by lia.
    rewrite <- (Z.div_opp_opp a (Z.neg b)) by lia. reflexivity.
Qed.

Example defaults_timeSteps :
  Math_floor (divide (lookBack defaults) (step defaults)) = Fin (Qc_of_Z 240).
Proof. now rewrite Math_floor_divide. Qed.

Example parseArguments_lookBack :
  parseArguments ["--lookBack"; "720"; "--gpu"; "--step"; "3"] =
  inr {| modelType := "gru"; gpu := true; lookBack := 720; step := 3; delay := 144;
         normalize := Bool true; includeDateTime := false; batchSize := 128;
         epochs := 20; displayEvery := 10 |}.
Proof. reflexivity. Qed.

Section Main.
Context `{Host}.

(** C10. Without arguments on the command line, main parses to the
    defaults lookBack = 1440, step = 6, delay = 144, batchSize = 128 and
    epochs = 20.  Whatever the command line, once it is parsed and the
    data are loaded, main calls buildModel once, with the model type, a
    number of time steps that is Math.floor(lookBack / step), and a number
    of features that is the number of column names of the loaded data. *)
Theorem main_buildModel (argv : list string) (args : Args) (w w' : World) :
  parseArguments argv = inr args ->
  load w = (w', inr tt) ->
  (exists d,
      parseArguments [] = inr d /\
      lookBack d = 1440 /\ step d = 6 /\ delay d = 144 /\
      batchSize d = 128 /\ epochs d = 20) /\
  buildModelCalls (main argv w).1.2 =
    [BuildModel (modelType args)
                (Math_floor (divide (lookBack args) (step args)))
                (length (getDataColumnNames w'))].
Proof.
  intros Hparse Hload. split.
  - exists defaults. repeat split.
  - unfold main. rewrite Hparse, Hload.
    destruct (buildModel _ _ _) as [err|model].
    + destruct (gpu args); reflexivity.
    + destruct (trainModel model args w') as [w'' r]. destruct (gpu args); reflexivity.
Qed.

End Main.

Lemma main_buildModel_witness :
  (exists d,
      parseArguments [] = inr d /\
      lookBack d = 1440 /\ step d = 6 /\ delay d = 144 /\
      batchSize d = 128 /\ epochs d = 20) /\
  buildModelCalls (main (H := exampleHost) ["--lookBack"; "720"; "--step"; "7"] []).1.2 =
    [BuildModel "gru" (Math_floor (divide 720 7)) 3].
Proof.
  apply (main_buildModel (H := exampleHost) ["--lookBack"; "720"; "--step"; "7"]
           {| modelType := "gru"; gpu := false; lookBack := 720; step := 7; delay := 144;
              normalize := Bool true; includeDateTime := false; batchSize := 128;
              epochs := 20; displayEvery := 10 |}
           [] ["p (mbar)"; "T (degC)"; "rho (g/m**3)"]); reflexivity.
Defined.

Example main_default_buildModel :
  buildModelCalls (main (H := exampleHost) [] []).1.2 =
    [BuildModel "gru" (Fin (Qc_of_Z 240)) 3].
Proof. reflexivity. Qed.

End JenaWeatherFacts.

(** * Further properties *)

Module QuantizationMoreFacts.
Import Quantization QuantizationMore.



(** X1. When no model name is given, or the JSON file of the model is not
    there, or pip is not found, the script exits with status 1 having only
    printed messages: nothing is installed, converted, evaluated or removed. *)
Theorem quantize_evaluate_refuses (env : Env) :
  isEmpty (arg1 env) = true \/
  isFile env (original (arg1 env)) = false \/
  isEmpty (stdout env ["which"; "pip"]) = true ->
  (quantize_evaluate env).2 = 1 /\
  forallb isEcho (quantize_evaluate env).1 = true.
Proof.
  intros Hcase. unfold quantize_evaluate.
  change ((("models/" +:+ arg1 env) +:+ "/original") +:+ "/model.json")
    with (original (arg1 env)).
  destruct (isEmpty (arg1 env)); [now split|].
  destruct (isFile env (original (arg1 env))); simpl negb; cbv iota; [|now split].
  destruct (isEmpty (stdout env ["which"; "pip"])); [now split|].
  destruct Hcase as [H|[H|H]]; discriminate H.
Qed.

Lemma quantize_evaluate_refuses_witness :
  (quantize_evaluate (readyEnv "")).2 = 1 /\
  forallb isEcho (quantize_evaluate (readyEnv "")).1 = true.
Proof. apply (quantize_evaluate_refuses (readyEnv "")). left. reflexivity. Defined.

(** The steps after the checks. *)
Lemma quantize_evaluate_checked (env : Env) :
  checksPass env ->
  exists steps,
    quantize_evaluate env = runAll env steps /\
    List.filter quantizeOrEvaluate steps = expected (arg1 env) /\
    removedBefore None steps.
Proof.
  intros (Hname & Hfile & Hpip). unfold quantize_evaluate.
  change ((("models/" +:+ arg1 env) +:+ "/original") +:+ "/model.json")
    with (original (arg1 env)).
  rewrite Hname, Hfile, Hpip. simpl negb. cbv iota.
  eexists. split; [reflexivity|].
  split.
  - rewrite List.filter_app.
    destruct (isEmpty (stdout env ["which"; "virtualenv"])); reflexivity.
  - destruct (isEmpty (stdout env ["which"; "virtualenv"])); simpl;
      repeat split; intros bytes jsonPath outPath Heq; try discriminate Heq;
      unfold converter in Heq; injection Heq as <- <- <-; reflexivity.
Qed.





(** Without virtualenv on the machine, the look-up fails, virtualenv is
    installed and the script goes on to the end. *)
Example quantize_evaluate_installs :
  quantize_evaluate (bareEnv "mobilenet") =
  ([Echo "Installing virtualenv..."; Run ["pip"; "install"; "virtualenv"];
    Run ["mktemp"; "-d"];
    Echo "Creating virtualenv at /tmp/tmp.x_venv ...";
    Run ["virtualenv"; "/tmp/tmp.x_venv"];
    Source "/tmp/tmp.x_venv/bin/activate";
    Run ["pip"; "install"; "tensorflowjs"];
    Run ["rm"; "-rf"; "models/mobilenet/quantized-16bit"];
    Run ["tensorflowjs_converter";
         "--input_format"; "tfjs_layers_model"; "--output_format"; "tfjs_layers_model";
         "--quantization_bytes"; "2";
         "models/mobilenet/original/model.json"; "models/mobilenet/quantized-16bit"];
    Run ["rm"; "-rf"; "models/mobilenet/quantized-8bit"];
    Run ["tensorflowjs_converter";
         "--input_format"; "tfjs_layers_model"; "--output_format"; "tfjs_layers_model";
         "--quantization_bytes"; "1";
         "models/mobilenet/original/model.json"; "models/mobilenet/quantized-8bit"];
    Run ["yarn"];
    Run ["yarn"; "eval-mobilenet"; "models/mobilenet/original/model.json"];
    Run ["yarn"; "eval-mobilenet"; "models/mobilenet/quantized-16bit/model.json"];
    Run ["yarn"; "eval-mobilenet"; "models/mobilenet/quantized-8bit/model.json"];
    Run ["rm"; "-rf"; "/tmp/tmp.x_venv"]], 0).
Proof. reflexivity. Qed.

Example quantize_evaluate_failing :
  (quantize_evaluate (failingEnv "mobilenet")).2 = 3 /\
  List.filter quantizeOrEvaluate (quantize_evaluate (failingEnv "mobilenet")).1 =
    [converter "2" (original "mobilenet") (quantized16 "mobilenet");
     converter "1" (original "mobilenet") (quantized8 "mobilenet")].
Proof. split; reflexivity. Qed.

(** Either the checks pass, or the script only prints. *)
Lemma quantize_evaluate_cases (env : Env) :
  checksPass env \/ forallb isEcho (quantize_evaluate env).1 = true.
Proof.
  unfold checksPass, quantize_evaluate.
  change ((("models/" +:+ arg1 env) +:+ "/original") +:+ "/model.json")
    with (original (arg1 env)).
  destruct (isEmpty (arg1 env)); [now right|].
  destruct (isFile env (original (arg1 env))); simpl negb; cbv iota; [|now right].
  destruct (isEmpty (stdout env ["which"; "pip"])); [now right|].
  left. repeat split.
Qed.

Lemma removedBefore_app (previous : option Step) (l1 l2 : list Step) :
  removedBefore previous (l1 ++ l2) -> removedBefore previous l1.
Proof.
  revert previous. induction l1 as [|s l1 IH]; intros previous; simpl; [trivial|].
  intros [Hs Hrest]. split; [exact Hs|]. now apply IH.
Qed.

(** X4. Whatever happens, the converter is only ever run right after the
    removal (rm -rf) of the directory it writes to: a conversion never adds
    to the output of an earlier one. *)
Theorem quantize_evaluate_removes_first (env : Env) :
  removedBefore None (quantize_evaluate env).1.
Proof.
  destruct (quantize_evaluate_cases env) as [Hchecks|Hecho].
  - destruct (quantize_evaluate_checked env Hchecks) as (steps & -> & _ & Hsteps).
    destruct (QuantizationFacts.runAll_prefix env steps) as [rest Hrest].
    rewrite Hrest in Hsteps. exact (removedBefore_app _ _ _ Hsteps).
  - revert Hecho. generalize (quantize_evaluate env).1 (@None Step).
    intros l. induction l as [|s l IH]; intros previous; simpl; [trivial|].
    intros [Hs Hl]%andb_true_iff. split; [|now apply IH].
    intros bytes jsonPath outPath ->. discriminate Hs.
Qed.

End QuantizationMoreFacts.

Module DqnMoreFacts.
Import Js Dqn DqnMore JsFacts DqnFacts.



(** X6. When h and w are positive integers and stateFrames is not, the
    error names stateFrames but the value its message reports is that of w,
    not that of stateFrames. *)
Theorem createDeepQNetwork_stateFrames_message (h w stateFrames numActions : Value) :
  PositiveInteger h -> PositiveInteger w -> ~ PositiveInteger stateFrames ->
  createDeepQNetwork h w stateFrames numActions =
  inl (mkError [Text "Expected stateFrames to be a positive integer, but got "; Subst w]).
Proof.
  intros Hh Hw Hs.
  apply integerAbove_positive in Hh as [h' Hh]. apply integerAbove_positive in Hw as [w' Hw].
  unfold createDeepQNetwork. rewrite Hh, Hw.
  destruct (integerAbove 0 stateFrames) as [s'|] eqn:Es; [|reflexivity].
  exfalso. apply Hs. apply integerAbove_positive. now exists s'.
Qed.

Lemma createDeepQNetwork_stateFrames_message_witness :
  createDeepQNetwork (int 10) (int 12) (int 0) (int 4) =
  inl (mkError [Text "Expected stateFrames to be a positive integer, but got "; Subst (int 12)]).
Proof.
  apply (createDeepQNetwork_stateFrames_message (int 10) (int 12) (int 0) (int 4)).
  - apply PositiveInteger_int. lia.
  - apply PositiveInteger_int. lia.
  - rewrite PositiveInteger_int. lia.
Defined.

(** X8. copyWeights assigns to the weights of the destination only: every
    other variable of the store holds after the call what it held before. *)
Theorem copyWeights_frame store store' dest src (v : positive) :
  copyWeights store dest src = inr store' ->
  v ∉ weights dest ->
  store' !! v = store !! v.
Proof.
  intros Hcopy Hv.
  apply copyWeights_inr in Hcopy as (ws & tuples & _ & Hfst & _ & Hset).
  apply (batchSetValue_other _ _ _ _ Hset). now rewrite Hfst.
Qed.

Lemma copyWeights_frame_witness :
  exists store',
    copyWeights twoNetworks targetNetwork onlineNetwork = inr store' /\
    store' !! 1%positive = twoNetworks !! 1%positive.
Proof.
  eexists. split; [reflexivity|].
  apply (copyWeights_frame twoNetworks _ targetNetwork onlineNetwork 1%positive).
  - reflexivity.
  - unfold targetNetwork. simpl. rewrite !elem_of_cons, elem_of_nil.
    intros [Heq|[Heq|[]]]; discriminate Heq.
Defined.

Lemma batchSetValue_same store tuples :
  Forall (fun u => store !! u.1 = Some u.2) tuples ->
  batchSetValue store tuples = inr store.
Proof.
  induction 1 as [|[v t] rest Hv _ IH]; simpl; [reflexivity|].
  simpl in Hv. unfold write. rewrite Hv.
  rewrite !bool_decide_eq_true_2 by reflexivity. simpl.
  now rewrite (insert_id _ _ _ Hv).
Qed.

Lemma weightValueTuples_copied store params ws tuples :
  map fst tuples = params -> map snd tuples = ws ->
  Forall (fun u => store !! u.1 = Some u.2) tuples ->
  weightValueTuples store params ws = inr tuples.
Proof.
  revert params ws. induction tuples as [|[v t] rest IH]; intros params ws <- <- Hall;
    simpl; [reflexivity|].
  inversion Hall as [|? ? Hv Hrest]; subst. simpl in Hv. rewrite Hv.
  rewrite decide_True by reflexivity.
  rewrite (IH (map fst rest) (map snd rest) eq_refl eq_refl Hrest). reflexivity.
Qed.

(** X9. Copying again changes nothing: after copyWeights(dest, src) on two
    separate networks, a second copyWeights(dest, src) returns the very same
    store. *)
Theorem copyWeights_idempotent store store' dest src :
  NoDup (weights dest) ->
  separate dest src ->
  copyWeights store dest src = inr store' ->
  copyWeights store' dest src = inr store'.
Proof.
  intros Hnd Hsep Hcopy.
  apply copyWeights_inr in Hcopy as (ws & tuples & Hsrc & Hfst & Hsnd & Hset).
  assert (Forall (fun u => store' !! u.1 = Some u.2) tuples) as Hheld
    by (apply (batchSetValue_lookup store _ _ Hset); now rewrite Hfst).
  unfold copyWeights, setWeights.
  assert (getWeights store' src = inr ws) as ->.
  { rewrite <- Hsrc. unfold getWeights. apply batchGetValue_ext.
    intros v Hv. apply (batchSetValue_other _ _ _ _ Hset). rewrite Hfst.
    intros Hd. exact (Hsep v Hd Hv). }
  simpl.
  assert (length (weights dest) = length ws) as Hlen
    by (rewrite <- Hfst, <- Hsnd; now rewrite !length_map).
  rewrite (proj2 (Nat.eqb_eq _ _) Hlen). simpl.
  rewrite (weightValueTuples_copied _ _ _ tuples Hfst Hsnd Hheld). simpl.
  now apply batchSetValue_same.
Qed.

Lemma copyWeights_idempotent_witness :
  exists store',
    copyWeights twoNetworks targetNetwork onlineNetwork = inr store' /\
    copyWeights store' targetNetwork onlineNetwork = inr store'.
Proof.
  eexists. split; [reflexivity|].
  apply (copyWeights_idempotent twoNetworks _ targetNetwork onlineNetwork).
  - apply (bool_decide_unpack (NoDup [3; 4]%positive)). vm_compute. exact I.
  - intros v Hv Hv'.
    revert Hv Hv'. unfold targetNetwork, onlineNetwork. simpl.
    rewrite !elem_of_cons, !elem_of_nil. intros [->|[->|[]]] [Heq|[Heq|[]]]; discriminate Heq.
  - reflexivity.
Defined.

End DqnMoreFacts.

Module CartPoleUiMoreFacts.
Import Js CartPoleUi CartPoleUiMore.

Lemma trainings_app (l1 l2 : list Event) :
  trainings (l1 ++ l2) = (trainings l1 + trainings l2)%nat.
Proof. unfold trainings. now rewrite List.filter_app, length_app. Qed.

Lemma saves_app (l1 l2 : list Event) : saves (l1 ++ l2) = (saves l1 + saves l2)%nat.
Proof. unfold saves. now rewrite List.filter_app, length_app. Qed.

Section Train.
Context `{Host}.

(** The training loop logs one training for each iteration it starts, and
    no save. *)
Lemma trainLoop_log (count : nat) :
  forall (i t0 : Z) (total : option Z) (lr dr g m : Number) (s : State),
    exists new,
      events (trainLoop count i t0 total lr dr g m s).1 = events s ++ new /\
      (trainings new <= count)%nat /\
      saves new = 0%nat /\
      ((trainLoop count i t0 total lr dr g m s).2 = inr tt -> trainings new = count).
Proof.
  induction count as [|count IH]; intros i t0 total lr dr g m s.
  - exists []. simpl. rewrite app_nil_r. unfold trainings, saves. simpl. repeat split; lia.
  - cbn [trainLoop].
    unfold bind, onUi, setMeanStepValues, logNumTensors, plotSteps, emit, call.
    cbn [world ui events meanStepValues fst snd].
    destruct (train lr dr g m (world s)) as [w1 [err|gameSteps]].
    + exists [Train]. unfold trainings, saves. simpl. repeat split; try lia. discriminate.
    + cbn [world ui events meanStepValues fst snd].
      destruct (getTime w1) as [t1 w2].
      cbn [world ui events meanStepValues fst snd].
      match goal with |- context [trainLoop count ?i' ?t' total lr dr g m ?s'] =>
        destruct (IH i' t' total lr dr g m s') as (new & Hev & Hle & Hsave & Hall)
      end.
      cbn [events] in Hev.
      eexists. split; [rewrite Hev; rewrite <- !app_assoc; reflexivity|].
      rewrite !trainings_app, !saves_app. unfold trainings at 1, saves at 1. simpl.
      repeat split; try lia. intros Hret. specialize (Hall Hret). lia.
Qed.

(** X10. Whatever the inputs and whatever fails, a click on the train button
    starts at most as many trainings as the number of iterations asked for;
    it saves the model at most once, and only after all of them have been
    made; and it ends with the status "Training completed." only when the
    model has been saved, with a status that starts with "ERROR: "
    otherwise. *)
Theorem trainButton_click_saves_last (inputs : Inputs) (s : State) :
  let final := (trainButton_click inputs s).1 in
  let asked := countBelow (parseInt (numIterationsInput inputs)) in
  exists new,
    events final = events s ++ new /\
    (trainings new <= asked)%nat /\
    (saves new <= 1)%nat /\
    (saves new = 1%nat -> trainings new = asked) /\
    (appStatus (ui final) = [Text "Training completed."] /\ saves new = 1%nat \/
     exists report, appStatus (ui final) = Text "ERROR: " :: report).
Proof.
  intros final asked. subst final asked.
  unfold trainButton_click, tryCatch, trainBody.
  set (total := parseInt (numIterationsInput inputs)).
  unfold bind, onUi, setMeanStepValues, call, throw.
  cbn [world ui events meanStepValues fst snd].
  repeat match goal with
         | |- context [if negb ?b then _ else _] => destruct b; cbn [negb]
         end;
    cbn [world ui events meanStepValues fst snd];
    try (exists []; rewrite app_nil_r; unfold trainings, saves; simpl;
         repeat split; try lia; right; eexists; reflexivity).
  destruct (getTime (world s)) as [t0 w0].
  cbn [world ui events meanStepValues fst snd].
  match goal with |- context [trainLoop ?c ?i ?t ?tot ?lr ?dr ?g ?m ?s0] =>
    destruct (trainLoop_log c i t tot lr dr g m s0) as (new & Hev & Hle & Hsave & Hall);
    destruct (trainLoop c i t tot lr dr g m s0) as [s1 [err|[]]]
  end; cbn [fst snd events] in *.
  - exists ([GetTime] ++ new). rewrite Hev, <- app_assoc.
    rewrite trainings_app, saves_app. unfold trainings, saves in *. simpl.
    repeat split; try lia. right. eexists. reflexivity.
  - specialize (Hall eq_refl).
    destruct (saveModel (world s1)) as [w2 [err|[]]];
      cbn [world ui events meanStepValues fst snd].
    + exists ([GetTime] ++ new ++ [SaveModel]). rewrite Hev, <- !app_assoc.
      rewrite !trainings_app, !saves_app. unfold trainings, saves in *. simpl.
      repeat split; try lia. right. eexists. reflexivity.
    + unfold updateLocallyStoredModelStatus, bind, call, onUi.
      cbn [world ui events meanStepValues fst snd].
      destruct (checkStoredModelStatus w2) as [w3 [err|modelInfo]];
        cbn [world ui events meanStepValues fst snd];
        exists ([GetTime] ++ new ++ [SaveModel; CheckStoredModelStatus]);
        rewrite Hev, <- !app_assoc;
        rewrite !trainings_app, !saves_app; unfold trainings, saves in *; simpl;
        (repeat split; try lia).
      * right. eexists. reflexivity.
      * left. split; [reflexivity | lia].
Qed.

End Train.

Section Buttons.
Context `{Page}.

Lemma splitFrom_nonempty (sep : ascii) (s current : string) : splitFrom sep s current <> [].
Proof.
  revert current. induction s as [|c rest IH]; intros current; simpl; [discriminate|].
  destruct (Ascii.eqb c sep); [discriminate | apply IH].
Qed.

Lemma parseSizes_inr (value : string) (pieces : list string) (sizes : list Z) :
  parseSizes value pieces = inr sizes <-> Forall2 readsAs pieces sizes.
Proof.
  revert sizes. induction pieces as [|v rest IH]; intros sizes; simpl.
  - split.
    + intros [= <-]. constructor.
    + intros Hall. inversion Hall. reflexivity.
  - split.
    + destruct (parseInt (DateConversionUi.trim v)) as [num|] eqn:Hnum; [|discriminate].
      destruct (0 <? num) eqn:Hpos; [|discriminate].
      destruct (parseSizes value rest) as [err|nums]; simpl; [discriminate|].
      intros [= <-]. constructor.
      * split; [exact Hnum | lia].
      * now apply IH.
    + intros Hall. inversion Hall as [|? num ? nums [Hnum Hpos] Hrest]; subst.
      rewrite Hnum. replace (0 <? num) with true by lia.
      apply IH in Hrest. rewrite Hrest. reflexivity.
Qed.

Lemma parseSizes_inl (value : string) (pieces : list string) (err : Error) :
  parseSizes value pieces = inl err ->
  err = mkError [Text "Invalid hidden layer sizes string: "; Subst (Str value)] /\
  Exists (fun piece => forall num, ~ readsAs piece num) pieces.
Proof.
  induction pieces as [|v rest IH]; simpl; [discriminate|].
  destruct (parseInt (DateConversionUi.trim v)) as [num|] eqn:Hnum.
  - destruct (0 <? num) eqn:Hpos.
    + destruct (parseSizes value rest) as [err'|nums]; simpl; [|discriminate].
      intros [= <-]. destruct (IH eq_refl) as [-> Hbad]. split; [reflexivity|].
      now apply Exists_cons_tl.
    + intros [= <-]. split; [reflexivity|]. apply Exists_cons_hd.
      intros n [Hn Hlt]. rewrite Hnum in Hn. injection Hn as <-. lia.
  - intros [= <-]. split; [reflexivity|]. apply Exists_cons_hd.
    intros n [Hn _]. rewrite Hnum in Hn. discriminate.
Qed.

(** X11. A click on the create-model button either reads a number greater
    than 0 from every comma-separated piece of the trimmed input and calls
    the constructor once, with these numbers (at least one); or some piece
    is not such a number, and then nothing is constructed and the only
    effect is the status "ERROR: Invalid hidden layer sizes string: "
    followed by the input as it was typed. *)
Theorem createModelButton_click_sizes (value : string) (ps : PageState) :
  let pieces := split "," (DateConversionUi.trim value) in
  (exists sizes,
     Forall2 readsAs pieces sizes /\ sizes <> [] /\
     made (createModelButton_click value ps) = made ps ++ [NewPolicyNetwork sizes]) \/
  (Exists (fun piece => forall num, ~ readsAs piece num) pieces /\
   createModelButton_click value ps =
     withCore (setUi (logStatus [Text "ERROR: ";
                                 Text "Invalid hidden layer sizes string: ";
                                 Subst (Str value)])) ps).
Proof.
  intros pieces. unfold createModelButton_click. fold pieces.
  destruct (parseSizes value pieces) as [err|sizes] eqn:Hparse.
  - right. apply parseSizes_inl in Hparse as [-> Hbad]. split; [exact Hbad | reflexivity].
  - left. exists sizes. apply parseSizes_inr in Hparse. split; [exact Hparse|]. split.
    + intros ->. inversion Hparse as [Hnil|]. now apply (splitFrom_nonempty "," (DateConversionUi.trim value) EmptyString).
    + unfold emit, call. cbn [world ui events meanStepValues].
      destruct (newPolicyNetwork sizes (world (core ps))) as [w [err|[]]]; [reflexivity|].
      cbn [world ui events meanStepValues].
      destruct (updateLocallyStoredModelStatus _) as [s [err|[]]]; reflexivity.
Qed.

(** X12. A click on the delete button removes the stored model only after
    the dialog has been confirmed, and drops the policy network only after
    the removal has returned.  When the dialog is declined, or the removal
    throws, the controls and the log are left as they were, and the status
    of the stored model is not checked.  It is checked again only after the
    network has been dropped: the handler ends as
    updateLocallyStoredModelStatus does in the state that the assignment
    policyNet = null has left. *)
Theorem deleteStoredModelButton_click_confirmed (ps : PageState) :
  let after := (deleteStoredModelButton_click ps).1 in
  let result := (deleteStoredModelButton_click ps).2 in
  (made after = made ps ++ [Confirm false] /\ result = inr tt /\
   ui (core after) = ui (core ps) /\ events (core after) = events (core ps)) \/
  (made after = made ps ++ [Confirm true; RemoveModel] /\
   (exists err, result = inl err) /\
   ui (core after) = ui (core ps) /\ events (core after) = events (core ps)) \/
  (exists w1 w2,
     confirm (world (core ps)) = (true, w1) /\
     removeModel w1 = (w2, inr tt) /\
     made after = made ps ++ [Confirm true; RemoveModel; ForgetPolicyNet] /\
     (core after, result) =
       updateLocallyStoredModelStatus
         {| ui := ui (core ps); world := forgetPolicyNet w2;
            events := events (core ps); meanStepValues := meanStepValues (core ps) |} /\
     events (core after) = events (core ps) ++ [CheckStoredModelStatus]).
Proof.
  unfold deleteStoredModelButton_click.
  destruct (confirm (world (core ps))) as [[|] w1]; cbn [world ui events meanStepValues].
  - destruct (removeModel w1) as [w2 [err|[]]] eqn:Hremove;
      cbn [world ui events meanStepValues fst snd].
    + right. left. rewrite <- app_assoc. repeat split. now exists err.
    + right. right. exists w1, w2. split; [reflexivity|]. split; [exact Hremove|].
      destruct (updateLocallyStoredModelStatus _) as [s r] eqn:Hstatus.
      cbn [fst snd made core]. rewrite <- !app_assoc.
      split; [reflexivity|]. split; [reflexivity|].
      revert Hstatus. unfold updateLocallyStoredModelStatus, bind, call, onUi.
      cbn [world ui events meanStepValues].
      destruct (checkStoredModelStatus _) as [w3 [err|modelInfo]];
        intros [= <- _]; reflexivity.
  - left. repeat split.
Qed.

End Buttons.

Section Test.
Context `{Host}.

Lemma testLoop_None (fuel : nat) :
  forall s : TestState,
    isDone s = false ->
    (testLoop fuel s = None <-> staysUp (cartPole s) (t_world s) fuel).
Proof.
  induction fuel as [|fuel IH]; intros s Hdone.
  - simpl. rewrite Hdone. split; [intros _; apply staysUp_0 | reflexivity].
  - cbn [testLoop]. rewrite Hdone.
    unfold testStep.
    destruct (chooseAction (cartPole s) (t_world s)) as [action w] eqn:Hact.
    destruct (update (cartPole s) action) as [cart [|]] eqn:Hupd.
    + split.
      * destruct fuel; simpl; discriminate.
      * intros Hup. inversion Hup as [|? ? action' w' cart' ? Hact' Hupd' Hrest]; subst.
        rewrite Hact in Hact'. injection Hact' as <- <-.
        rewrite Hupd in Hupd'. discriminate.
    + match goal with |- testLoop fuel ?s' = None <-> _ =>
        specialize (IH s' eq_refl); cbn [cartPole t_world] in IH
      end.
      rewrite IH. split.
      * intros Hrest. eapply staysUp_step; eassumption.
      * intros Hup. inversion Hup as [|? ? action' w' cart' ? Hact' Hupd' Hrest]; subst.
        rewrite Hact in Hact'. injection Hact' as <- <-.
        rewrite Hupd in Hupd'. injection Hupd' as <-. exact Hrest.
Qed.

(** X13. The test has no limit on the number of steps: the handler of the
    test button is still in its loop after [fuel] iterations exactly when
    the pole, from the random state, stays up for [fuel] steps of the
    policy's action. *)
Theorem testButton_click_unbounded (fuel : nat) (u : Ui) (w : World) :
  testButton_click fuel u w = None <->
  staysUp (setRandomState newCartPole w).1 (setRandomState newCartPole w).2 fuel.
Proof.
  unfold testButton_click.
  destruct (setRandomState newCartPole w) as [cart w1]. cbn [fst snd].
  match goal with |- context [testLoop fuel ?s] =>
    pose proof (testLoop_None fuel s eq_refl) as Hloop; cbn [cartPole t_world] in Hloop;
    destruct (testLoop fuel s) as [s'|]
  end.
  - split; [discriminate|]. intros Hup. apply Hloop in Hup. discriminate.
  - split; [|reflexivity]. intros _. now apply Hloop.
Qed.

End Test.

(** On the example page: sizes are read from the pieces, a piece that is
    empty is refused. *)
Example createModelButton_click_reads :
  made (createModelButton_click (H0 := examplePage) " 4, 8 " startPage)
  = [NewPolicyNetwork [4; 8]].
Proof. vm_compute. reflexivity. Qed.

Example createModelButton_click_empty :
  appStatus (ui (core (createModelButton_click (H0 := examplePage) "" startPage)))
  = [Text "ERROR: "; Text "Invalid hidden layer sizes string: "; Subst (Str "")].
Proof. vm_compute. reflexivity. Qed.

(** With the steady policy the test is still running after 1000 steps. *)
Example testButton_click_steady :
  testButton_click (H := steadyHost) 1000 blankUi (0%nat : @World steadyHost) = None.
Proof. vm_compute. reflexivity. Qed.

End CartPoleUiMoreFacts.

Module DateConversionUiMoreFacts.
Import Js DateConversionUi DateConversionUiMore.

(** *** Trimming and uppercasing *)

Lemma isWhiteSpace_upper (c : ascii) : isWhiteSpace (upper c) = isWhiteSpace c.
Proof. destruct c as [[] [] [] [] [] [] [] []]; reflexivity. Qed.

Lemma upper_upper (c : ascii) : upper (upper c) = upper c.
Proof. destruct c as [[] [] [] [] [] [] [] []]; reflexivity. Qed.

Lemma toUpperCase_idempotent (s : string) : toUpperCase (toUpperCase s) = toUpperCase s.
Proof. induction s as [|c s IH]; simpl; [reflexivity|]. now rewrite upper_upper, IH. Qed.

Lemma trimStart_toUpperCase (s : string) :
  trimStart (toUpperCase s) = toUpperCase (trimStart s).
Proof.
  induction s as [|c s IH]; simpl; [reflexivity|].
  rewrite isWhiteSpace_upper. destruct (isWhiteSpace c); [exact IH | reflexivity].
Qed.

Lemma trimEnd_toUpperCase (s : string) :
  trimEnd (toUpperCase s) = toUpperCase (trimEnd s).
Proof.
  induction s as [|c s IH]; simpl; [reflexivity|].
  rewrite IH, isWhiteSpace_upper.
  destruct (trimEnd s) as [|d rest]; simpl; [|reflexivity].
  destruct (isWhiteSpace c); reflexivity.
Qed.

Lemma trimEnd_idempotent (s : string) : trimEnd (trimEnd s) = trimEnd s.
Proof.
  induction s as [|c s IH]; simpl; [reflexivity|].
  destruct (trimEnd s) as [|d rest] eqn:Hrest.
  - destruct (isWhiteSpace c) eqn:Hc; simpl; [reflexivity|]. now rewrite Hc.
  - change (trimEnd (String c (String d rest))) with
      (match trimEnd (String d rest) with
       | EmptyString => if isWhiteSpace c then EmptyString else String c EmptyString
       | rest' => String c rest'
       end).
    rewrite IH. reflexivity.
Qed.

Lemma trimStart_trimmedStart (s : string) : trimmedStart (trimStart s).
Proof.
  induction s as [|c s IH]; simpl; [exact I|].
  destruct (isWhiteSpace c) eqn:Hc; [exact IH | exact Hc].
Qed.

Lemma trimStart_id (s : string) : trimmedStart s -> trimStart s = s.
Proof. destruct s as [|c s]; simpl; [reflexivity|]. now intros ->. Qed.

Lemma trimEnd_trimmedStart (s : string) : trimmedStart s -> trimmedStart (trimEnd s).
Proof.
  destruct s as [|c s]; simpl; [exact id|]. intros Hc.
  destruct (trimEnd s); [rewrite Hc|]; exact Hc.
Qed.

Lemma trim_idempotent (s : string) : trim (trim s) = trim s.
Proof.
  unfold trim.
  rewrite (trimStart_id (trimEnd (trimStart s)))
    by apply trimEnd_trimmedStart, trimStart_trimmedStart.
  apply trimEnd_idempotent.
Qed.

Lemma trim_toUpperCase (s : string) : trim (toUpperCase s) = toUpperCase (trim s).
Proof. unfold trim. now rewrite trimStart_toUpperCase, trimEnd_toUpperCase. Qed.

(** *** The labels *)

Lemma length_chars (s : string) : length (chars s) = String.length s.
Proof. induction s as [|c s IH]; simpl; [reflexivity | now rewrite IH]. Qed.

Lemma lookup_chars (s : string) :
  forall i : nat, chars s !! i = (fun c => String c EmptyString) <$> get i s.
Proof.
  induction s as [|c s IH]; intros [|i]; simpl; try reflexivity. apply IH.
Qed.

Lemma get_None (s : string) :
  forall i : nat, (String.length s <= i)%nat -> get i s = None.
Proof.
  induction s as [|c s IH]; intros [|i] Hi; simpl in *; try reflexivity; try lia.
  apply IH. lia.
Qed.

Lemma get_Some (s : string) :
  forall i : nat, (i < String.length s)%nat -> exists c, get i s = Some c.
Proof.
  induction s as [|c s IH]; intros [|i] Hi; simpl in *; try lia.
  - now exists c.
  - apply IH. lia.
Qed.

Section Labels.
Context `{Host}.

Lemma length_yLabelsFrom (inputStr : string) (count : nat) :
  forall i : nat, length (yLabelsFrom count i inputStr) = count.
Proof. induction count as [|count IH]; intros i; simpl; [reflexivity | now rewrite IH]. Qed.

Lemma lookup_yLabelsFrom (inputStr : string) (count : nat) :
  forall i k : nat,
    (k < count)%nat ->
    yLabelsFrom count i inputStr !! k = Some (labelAt (i + k) inputStr).
Proof.
  induction count as [|count IH]; intros i k Hk; [lia|].
  destruct k as [|k]; cbn [yLabelsFrom].
  - rewrite Nat.add_0_r. unfold labelAt. cbn [lookup list_lookup].
    destruct (Nat.ltb_spec i (String.length inputStr)) as [Hlt|Hge].
    + destruct (get_Some inputStr i Hlt) as [c ->]. reflexivity.
    + rewrite (get_None inputStr i Hge). reflexivity.
  - cbn [lookup list_lookup].
    replace (i + S k)%nat with (S i + k)%nat by lia. apply IH. lia.
Qed.

(** X14. The handler is blind to the case of the input and to the white
    space around it: on a value and on the value trimmed and uppercased, it
    does the same. *)
Theorem inputDateString_change_normalizes (value : string) (ui : Ui) (w : World) :
  inputDateString_change (toUpperCase (trim value)) ui w = inputDateString_change value ui w.
Proof.
  unfold inputDateString_change.
  now rewrite trim_toUpperCase, trim_idempotent, toUpperCase_idempotent.
Qed.

(** X15. Whenever the handler draws the heat map, it has run one inference
    before, which returned; the heat map gets the returned attention; one
    column label for each character of the output, which reads (i+1) "c"
    for the character c at index i, the numbers starting at 1; and
    INPUT_LENGTH row labels, which read (i+1) "c" for the character c of
    the input at index i and (i+1) "" beyond the end of the input. *)
Theorem inputDateString_change_heatmap (value : string) (ui : Ui) (w : World)
  (attention : Attention) (xs ys : list template) :
  In (Heatmap attention xs ys) (inputDateString_change value ui w).2 ->
  exists inputStr outputStr w1,
    head (inputDateString_change value ui w).2 = Some (Inference inputStr) /\
    runSeq2SeqInference inputStr w = (w1, inr (outputStr, attention)) /\
    length xs = String.length outputStr /\
    (forall i c,
        get i outputStr = Some c ->
        xs !! i = Some [Text "("; Subst (int (Z.of_nat i + 1)); Text ") ";
                        Text dquote; Subst (Str (String c EmptyString)); Text dquote]) /\
    length ys = INPUT_LENGTH /\
    (forall i,
        (i < INPUT_LENGTH)%nat ->
        ys !! i =
          Some match get i inputStr with
               | Some c =>
                   [Text "("; Subst (int (Z.of_nat i + 1)); Text ") ";
                    Text dquote; Subst (Str (String c EmptyString)); Text dquote]
               | None =>
                   [Text "("; Subst (int (Z.of_nat i + 1)); Text ") ";
                    Text dquote; Text dquote]
               end).
Proof.
  unfold inputDateString_change.
  destruct (String.length (toUpperCase (trim value)) <? 6)%nat; [intros []|].
  set (inputStr := if (INPUT_LENGTH <? _)%nat then _ else _).
  destruct (runSeq2SeqInference inputStr w) as [w1 [err|[outputStr att]]] eqn:Hrun.
  - cbn [snd]. intros [Hin|[Hin|[]]]; discriminate.
  - assert (Hlabels : forall log : list (Event Attention),
              In (Heatmap attention xs ys)
                 (Inference inputStr :: Heatmap att (xLabels outputStr) (yLabels inputStr) :: log) ->
              Forall (fun e => match e with Heatmap _ _ _ => False | _ => True end) log ->
              attention = att /\ xs = xLabels outputStr /\ ys = yLabels inputStr).
    { intros log [Hin|[Hin|Hin]] Hlog; [discriminate | now injection Hin as <- <- <- |].
      rewrite Forall_forall in Hlog. destruct (Hlog _ Hin). }
    assert (Hgoal : attention = att /\ xs = xLabels outputStr /\ ys = yLabels inputStr ->
              exists inputStr0 outputStr0 w2,
                Some (Inference (Att := Attention) inputStr) = Some (Inference inputStr0) /\
                runSeq2SeqInference inputStr0 w = (w2, inr (outputStr0, attention)) /\
                length xs = String.length outputStr0 /\
                (forall i c,
                    get i outputStr0 = Some c ->
                    xs !! i = Some [Text "("; Subst (int (Z.of_nat i + 1)); Text ") ";
                                    Text dquote; Subst (Str (String c EmptyString));
                                    Text dquote]) /\
                length ys = INPUT_LENGTH /\
                (forall i,
                    (i < INPUT_LENGTH)%nat ->
                    ys !! i =
                      Some match get i inputStr0 with
                           | Some c =>
                               [Text "("; Subst (int (Z.of_nat i + 1)); Text ") ";
                                Text dquote; Subst (Str (String c EmptyString)); Text dquote]
                           | None =>
                               [Text "("; Subst (int (Z.of_nat i + 1)); Text ") ";
                                Text dquote; Text dquote]
                           end)).
    { intros (-> & -> & ->). exists inputStr, outputStr, w1.
      split; [reflexivity|]. split; [exact Hrun|].
      unfold xLabels, yLabels. rewrite length_imap, length_chars, length_yLabelsFrom.
      split; [reflexivity|]. split.
      - intros i c Hc. rewrite list_lookup_imap, lookup_chars, Hc. reflexivity.
      - split; [reflexivity|]. intros i Hi.
        etransitivity; [exact (lookup_yLabelsFrom inputStr INPUT_LENGTH 0 i Hi)|].
        unfold labelAt. cbn [Nat.add]. destruct (get i inputStr); reflexivity. }
    destruct (heatmap att (xLabels outputStr) (yLabels inputStr) w1) as [w2 [err|[]]];
      cbn [snd fst head]; intros Hin; apply Hgoal; apply (Hlabels _ Hin);
      repeat constructor.
Qed.

(** X16. The handler throws nothing: an error of the inference or of the
    heat map is written to the console, once and as the last thing the
    handler does, and its message is what the output field shows.  Without
    an error the output field shows the output of the inference, or is
    empty when none was run. *)
Theorem inputDateString_change_catches (value : string) (ui : Ui) (w : World) :
  let result := inputDateString_change value ui w in
  (exists err before,
     result.2 = before ++ [ConsoleError err] /\ consoleErrors before = [] /\
     outputDateString result.1.1 = message err) \/
  (consoleErrors result.2 = [] /\
   (result.2 = [] /\ outputDateString result.1.1 = [] \/
    exists inputStr outputStr attention w1,
      runSeq2SeqInference inputStr w = (w1, inr (outputStr, attention)) /\
      head result.2 = Some (Inference inputStr) /\
      outputDateString result.1.1 = [Subst (Str outputStr)])).
Proof.
  unfold inputDateString_change.
  destruct (String.length (toUpperCase (trim value)) <? 6)%nat.
  { right. split; [reflexivity|]. left. split; reflexivity. }
  set (inputStr := if (INPUT_LENGTH <? _)%nat then _ else _).
  destruct (runSeq2SeqInference inputStr w) as [w1 [err|[outputStr att]]] eqn:Hrun.
  - left. exists err, [Inference inputStr]. repeat split.
  - destruct (heatmap att (xLabels outputStr) (yLabels inputStr) w1) as [w2 [err|[]]].
    + left. exists err, [Inference inputStr; Heatmap att (xLabels outputStr) (yLabels inputStr)].
      repeat split.
    + right. split; [reflexivity|]. right. exists inputStr, outputStr, att, w1.
      repeat split. exact Hrun.
Qed.

End Labels.

(** The heat map of a date of 11 characters, with inputs of 12. *)
Lemma inputDateString_change_heatmap_witness :
  exists xs ys,
    (inputDateString_change (H := exampleHost) " may 7, 2019 " blankUi tt).2 =
      [Inference "MAY 7, 2019"; Heatmap tt xs ys] /\
    length xs = 11%nat /\ length ys = 12%nat /\
    xs !! 0%nat = Some [Text "("; Subst (int 1); Text ") ";
                        Text dquote; Subst (Str "M"); Text dquote] /\
    ys !! 10%nat = Some [Text "("; Subst (int 11); Text ") ";
                         Text dquote; Subst (Str "9"); Text dquote] /\
    ys !! 11%nat = Some [Text "("; Subst (int 12); Text ") "; Text dquote; Text dquote].
Proof.
  exists (xLabels "MAY 7, 2019"), (yLabels (H := exampleHost) "MAY 7, 2019").
  split; [reflexivity|].
  destruct (inputDateString_change_heatmap (H := exampleHost) " may 7, 2019 " blankUi tt tt
              (xLabels "MAY 7, 2019") (yLabels (H := exampleHost) "MAY 7, 2019"))
    as (inputStr & outputStr & w1 & Hhead & Hrun & Hxs & Hx & Hys & Hy).
  { vm_compute. right. left. reflexivity. }
  injection Hhead as <-. injection Hrun as _ <-.
  split; [exact Hxs|]. split; [exact Hys|].
  split; [exact (Hx 0%nat "M"%char eq_refl)|].
  split.
  - exact (Hy 10%nat ltac:(vm_compute; lia)).
  - exact (Hy 11%nat ltac:(vm_compute; lia)).
Defined.

(** The output field after an inference that throws, and after a heat map
    that throws: the time of the inference is shown only in the second
    case. *)
Example inputDateString_change_noModel :
  inputDateString_change (H := noModelHost) "may 7, 2019" blankUi tt =
  ({| outputDateString := [Text "model is undefined"]; inferenceTime := [] |}, tt,
   [Inference "MAY 7, 2019"; ConsoleError (mkError [Text "model is undefined"])]).
Proof. reflexivity. Qed.

Example inputDateString_change_noCanvas :
  (inputDateString_change (H := noCanvasHost) "may 7, 2019" blankUi tt).1.1 =
  {| outputDateString := [Text "no canvas"];
     inferenceTime := [Text "seq2seq onversion took "; Subst (Num (Fin (Qc_of_Z 3)));
                       Text " ms"] |}.
Proof. reflexivity. Qed.

End DateConversionUiMoreFacts.

Module ImdbDataMoreFacts.
Import Js ImdbData ImdbDataMore ImdbDataFacts.

(** *** A file that is not made of 32-bit integers *)

Lemma parseFrom_ragged (numWords : Z) (n : nat) :
  forall (fuel : nat) (pre suf : Buffer) (sequences : list (list Z)) (seq : list Z),
    (4 * n < length suf < 4 * n + 4)%nat ->
    (n < fuel)%nat ->
    parseFrom fuel (pre ++ suf) numWords sequences seq (length pre) =
    if (length (pre ++ suf) <? 4)%nat
    then inl (mkError [Text "ERR_BUFFER_OUT_OF_BOUNDS"])
    else inl (mkError [Text "ERR_OUT_OF_RANGE"]).
Proof.
  induction n as [|n IH]; intros fuel pre suf sequences seq Hlen Hfuel.
  - destruct fuel as [|fuel]; [lia|]. cbn [parseFrom].
    assert ((length pre <? length (pre ++ suf))%nat = true) as ->.
    { apply Nat.ltb_lt. rewrite length_app. lia. }
    unfold readInt32LE. rewrite drop_app_length.
    destruct suf as [|first [|b1 [|b2 [|last suf]]]]; simpl in Hlen; try lia;
      destruct (length (pre ++ _) <? 4)%nat; reflexivity.
  - destruct suf as [|first [|b1 [|b2 [|last suf]]]]; simpl in Hlen; try lia.
    destruct fuel as [|fuel]; [lia|].
    cbn [parseFrom].
    assert ((length pre <? length (pre ++ first :: b1 :: b2 :: last :: suf))%nat = true) as ->.
    { apply Nat.ltb_lt. rewrite length_app. simpl. lia. }
    unfold readInt32LE. rewrite drop_app_length. cbn [andThen].
    replace (pre ++ first :: b1 :: b2 :: last :: suf)
      with ((pre ++ [first; b1; b2; last]) ++ suf) by now rewrite <- app_assoc.
    replace (length pre + 4)%nat with (length (pre ++ [first; b1; b2; last]))
      by (rewrite length_app; reflexivity).
    destruct (first + b1 * 2 ^ 8 + b2 * 2 ^ 16 + shl24 last =? 1); apply IH; lia.
Qed.

(** X17. On a file whose size is not a multiple of 4, loadFeatures throws,
    whatever the file holds, the error of readInt32LE reading past the end
    of the buffer: ERR_BUFFER_OUT_OF_BOUNDS on a file of fewer than 4
    bytes, and ERR_OUT_OF_RANGE on a longer one. *)
Theorem loadFeatures_ragged (buffer : Buffer) (numWords : Z) (maxLen : nat) :
  (length buffer mod 4 <> 0)%nat ->
  loadFeatures buffer numWords maxLen =
  if (length buffer <? 4)%nat
  then inl (mkError [Text "ERR_BUFFER_OUT_OF_BOUNDS"])
  else inl (mkError [Text "ERR_OUT_OF_RANGE"]).
Proof.
  intros Hmod. unfold loadFeatures.
  pose proof (Nat.div_mod_eq (length buffer) 4) as Hdiv.
  pose proof (Nat.mod_upper_bound (length buffer) 4 ltac:(lia)) as Hlt.
  pose proof (parseFrom_ragged numWords (length buffer / 4) (length buffer) [] buffer [] [])
    as Hparse.
  cbn [app length] in Hparse. rewrite Hparse by lia.
  destruct (length buffer <? 4)%nat; reflexivity.
Qed.

Lemma loadFeatures_ragged_witness :
  loadFeatures [1; 0; 0; 0; 5] 100 3 = inl (mkError [Text "ERR_OUT_OF_RANGE"]) /\
  loadFeatures [1; 0; 0] 100 3 = inl (mkError [Text "ERR_BUFFER_OUT_OF_BOUNDS"]).
Proof.
  split.
  - apply (loadFeatures_ragged [1; 0; 0; 0; 5] 100 3). vm_compute. discriminate.
  - apply (loadFeatures_ragged [1; 0; 0] 100 3). vm_compute. discriminate.
Defined.

(** On a file of [n] integers, the tensor of [loadFeatures]. *)
Lemma loadFeatures_featuresOf (buffer : Buffer) (numWords : Z) (maxLen n : nat) :
  length buffer = (4 * n)%nat ->
  loadFeatures buffer numWords maxLen = inr (featuresOf buffer n numWords maxLen).
Proof.
  intros Hlen.
  pose proof (parseFrom_parseWords numWords n (length buffer) [] buffer [] [] Hlen) as Hparse.
  simpl in Hparse. specialize (Hparse ltac:(lia)).
  pose proof (parseWords_concat numWords (words buffer n) [] [] true (fun _ => eq_refl))
    as Hconcat.
  pose proof (parseWords_runs numWords (words buffer n) [] [] true) as Hruns.
  destruct (parseWords numWords (words buffer n) [] [] true) as [sequences seq].
  simpl in Hconcat, Hruns.
  set (final := if (0 <? length seq)%nat then sequences ++ [seq] else sequences).
  assert (final = sequencesOf numWords (words buffer n)) as Hfinal.
  { subst final. rewrite <- dropLastIfEmpty_snoc, Hruns. unfold sequencesOf.
    destruct (runs numWords (words buffer n)) as [|run others] eqn:Eruns;
      [now apply runs_nonempty in Eruns|].
    destruct (startsWithDelimiter (words buffer n)); reflexivity. }
  assert (Forall (Forall (fun v => v = 2 \/ v < numWords)) final) as Hall.
  { apply Forall_concat_iff.
    assert (concat final = concat sequences ++ seq) as ->.
    { subst final. destruct seq; simpl.
      - now rewrite app_nil_r.
      - rewrite concat_app. simpl. now rewrite app_nil_r. }
    rewrite Hconcat.
    apply Forall_forall. intros v Hv. apply in_map_iff in Hv as (value & <- & _).
    apply recorded_ok. }
  pose proof (padSequences_rows numWords final maxLen Hall) as Hrows.
  unfold loadFeatures. rewrite Hparse. cbn [andThen]. fold final.
  rewrite tensor2d_rows.
  - unfold featuresOf. rewrite <- Hfinal. unfold padSequences at 1. now rewrite length_map.
  - eapply Forall_impl; [|exact Hrows]. now intros row [Hrow _].
Qed.

(** *** The targets *)

Lemma readBytes_take (buffer : Buffer) (count : nat) :
  forall i : nat,
    (i + count <= length buffer)%nat ->
    readBytes buffer count i = inr (take count (drop i buffer)).
Proof.
  induction count as [|count IH]; intros i Hi; [reflexivity|].
  cbn [readBytes]. unfold readUInt8.
  destruct (buffer !! i) as [b|] eqn:Hb.
  - cbn [andThen]. rewrite IH by lia. cbn [andThen].
    rewrite (drop_S buffer b i Hb). reflexivity.
  - apply lookup_ge_None in Hb. lia.
Qed.

Lemma loadTargets_targetsOf (buffer : Buffer) : loadTargets buffer = inr (targetsOf buffer).
Proof.
  unfold loadTargets. rewrite readBytes_take by lia.
  rewrite drop_0, firstn_all. cbn [andThen].
  unfold tensor2d, targetsOf. cbn [fst snd].
  rewrite length_map, Nat.eqb_refl.
  replace (forallb _ _) with true; [reflexivity|].
  induction buffer as [|b buffer IH]; [reflexivity | exact IH].
Qed.

(** X18. loadTargets never throws, whatever the file holds: it returns a
    tensor of shape [number of bytes, 1], with one row for each byte of the
    file, in order, holding the byte. *)
Theorem loadTargets_rows (buffer : Buffer) :
  exists t,
    loadTargets buffer = inr t /\
    shape t = (length buffer, 1%nat) /\
    length (values t) = length buffer /\
    forall i : nat, values t !! i = (fun y => [y]) <$> buffer !! i.
Proof.
  exists (targetsOf buffer). split; [apply loadTargets_targetsOf|].
  unfold targetsOf. cbn [shape values]. split; [reflexivity|].
  split; [apply length_map|]. intros i. apply list_lookup_fmap.
Qed.

Section Loader.
Context `{Host}.

(** X19. When the four files of a directory can be read and the two files
    of features are made of 32-bit integers, what loadData does after the
    extraction depends on the numbers of examples only: it throws the
    mismatch error of the training set when the training features have
    another number of sequences than the training targets have bytes, else
    that of the test set when these numbers differ there, and else returns
    the four tensors, the features of shape [sequences, len] and the
    targets of shape [bytes, 1]. *)
Theorem loadFrom_counts (fs : gmap string Node) (dataDir : string) (numWords : Z) (len : nat)
  (trainFeatures testFeatures trainTargets testTargets : Buffer) (nTrain nTest : nat) :
  readFileSync fs (join dataDir "imdb_train_data.bin") = inr trainFeatures ->
  readFileSync fs (join dataDir "imdb_test_data.bin") = inr testFeatures ->
  readFileSync fs (join dataDir "imdb_train_targets.bin") = inr trainTargets ->
  readFileSync fs (join dataDir "imdb_test_targets.bin") = inr testTargets ->
  length trainFeatures = (4 * nTrain)%nat ->
  length testFeatures = (4 * nTest)%nat ->
  let trainRows := length (sequencesOf numWords (words trainFeatures nTrain)) in
  let testRows := length (sequencesOf numWords (words testFeatures nTest)) in
  loadFrom fs dataDir numWords len =
    if negb (trainRows =? length trainTargets)%nat then
      inl (mkError [Text "Mismatch in number of examples between xTrain and yTrain"])
    else if negb (testRows =? length testTargets)%nat then
      inl (mkError [Text "Mismatch in number of examples between xTest and yTest"])
    else
      inr {| xTrain := featuresOf trainFeatures nTrain numWords len;
             yTrain := targetsOf trainTargets;
             xTest := featuresOf testFeatures nTest numWords len;
             yTest := targetsOf testTargets |}.
Proof.
  intros Hf1 Hf2 Ht1 Ht2 Hn1 Hn2 trainRows testRows. unfold loadFrom.
  rewrite Hf1, Hf2, Ht1, Ht2. cbn [andThen].
  rewrite (loadFeatures_featuresOf trainFeatures numWords len nTrain Hn1). cbn [andThen].
  rewrite (loadFeatures_featuresOf testFeatures numWords len nTest Hn2). cbn [andThen].
  rewrite !loadTargets_targetsOf. cbn [andThen].
  unfold util_assert. cbn [shape featuresOf targetsOf fst snd].
  fold trainRows testRows.
  destruct (trainRows =? length trainTargets)%nat; cbn [negb andThen]; [|reflexivity].
  destruct (testRows =? length testTargets)%nat; reflexivity.
Qed.

(** *** A second call *)

Lemma existsSync_insert (fs : gmap string Node) (path path' : string) (node : Node) :
  existsSync fs path = true -> existsSync (<[path' := node]> fs) path = true.
Proof.
  unfold existsSync. destruct (decide (path' = path)) as [->|Hne].
  - now rewrite lookup_insert_eq.
  - now rewrite lookup_insert_ne.
Qed.

Lemma existsSync_writeFiles (destDir path : string) (files : list (string * Buffer)) :
  forall fs : gmap string Node,
    existsSync fs path = true -> existsSync (writeFiles destDir files fs) path = true.
Proof.
  induction files as [|[name content] files IH]; intros fs Hfs; [exact Hfs|].
  simpl. apply IH. now apply existsSync_insert.
Qed.

Lemma maybeExtract_exists (sourcePath destDir : string) (fs fs' : gmap string Node)
    (log : list Event) :
  maybeExtract sourcePath destDir fs = (fs', log, Resolved tt) ->
  existsSync fs' destDir = true.
Proof.
  unfold maybeExtract. destruct (existsSync fs destDir) eqn:Hdir.
  - now intros [= <- _].
  - destruct (readFileSync _ sourcePath) as [err|archive]; [discriminate|].
    destruct (extract archive) as [err|files]; [discriminate|].
    intros [= <- _]. apply existsSync_writeFiles.
    unfold existsSync. now rewrite lookup_insert_eq.
Qed.

(** X20. The data are kept between calls: after a call of loadData that
    has resolved and left an archive that is not empty, a second call on the
    file system it left downloads nothing, extracts nothing, changes no
    file and resolves with the same tensors. *)
Theorem loadData_cached (numWords : Z) (len : nat) (fs fs' : gmap string Node)
  (log : list Event) (data : Data) :
  loadData numWords len fs = (fs', log, Resolved data) ->
  mustDownload fs' zipDownloadDest = false ->
  loadData numWords len fs' = (fs', [], Resolved data).
Proof.
  unfold loadData, maybeDownloadAndExtract. intros Hfirst Hkept.
  destruct (maybeDownload DATA_ZIP_URL zipDownloadDest fs) as [[fs1 log1] [[]|err|]];
    try discriminate.
  destruct (maybeExtract zipDownloadDest zipExtractDir fs1) as [[fs2 log2] [[]|err|]] eqn:Hextract;
    try discriminate.
  apply maybeExtract_exists in Hextract.
  destruct (loadFrom fs2 zipExtractDir numWords len) as [err|data'] eqn:Hload;
    [discriminate|].
  injection Hfirst as <- _ <-.
  unfold maybeDownload. rewrite Hkept.
  unfold maybeExtract. rewrite Hextract. now rewrite Hload.
Qed.

End Loader.

Section Example.
#[local] Existing Instance exampleHost.

Lemma loadFrom_counts_witness :
  loadFrom loadedDisk "/tmp/imdb_tfjs_data" 100 3 =
    if negb (length (sequencesOf 100 (words exampleFeatures 5)) =? length [1; 0])%nat then
      inl (mkError [Text "Mismatch in number of examples between xTrain and yTrain"])
    else if negb (length (sequencesOf 100 (words exampleFeatures 5)) =? length [0; 1])%nat then
      inl (mkError [Text "Mismatch in number of examples between xTest and yTest"])
    else
      inr {| xTrain := featuresOf exampleFeatures 5 100 3;
             yTrain := targetsOf [1; 0];
             xTest := featuresOf exampleFeatures 5 100 3;
             yTest := targetsOf [0; 1] |}.
Proof.
  apply (loadFrom_counts loadedDisk "/tmp/imdb_tfjs_data" 100 3
           exampleFeatures exampleFeatures [1; 0] [0; 1] 5 5);
    vm_compute; reflexivity.
Defined.

Lemma loadData_cached_witness :
  exists data,
    loadData 100 3 loadedDisk = (loadedDisk, [], Resolved data) /\
    shape (xTrain data) = (2%nat, 3%nat).
Proof.
  destruct (loadData 100 3 emptyDisk) as [[fs' log] [data|err|]] eqn:Hfirst;
    [|vm_compute in Hfirst; discriminate|vm_compute in Hfirst; discriminate].
  exists data.
  assert (fs' = loadedDisk) as Hfs by (unfold loadedDisk; now rewrite Hfirst).
  split.
  - rewrite <- Hfs.
    apply (loadData_cached 100 3 emptyDisk fs' log data Hfirst).
    rewrite Hfs. vm_compute. reflexivity.
  - vm_compute in Hfirst. now injection Hfirst as _ _ <-.
Defined.

End Example.

(** With three targets for two reviews, loadData is rejected. *)
Example loadData_mismatch :
  (loadData (H := mismatchHost) 100 3 emptyDisk).2 =
  Rejected (mkError [Text "Mismatch in number of examples between xTrain and yTrain"]).
Proof. vm_compute. reflexivity. Qed.

End ImdbDataMoreFacts.

Module JenaWeatherMoreFacts.
Import Js JenaWeather JenaWeatherMore JenaWeatherFacts.

Section Main.
Context `{Host}.

(** X22. main trains at most once, as the last thing it does, after a
    load and a buildModel that have returned, on the model that was built
    and the values of the parsed arguments; when the parser, the load or
    buildModel throws, main throws and nothing is trained. *)
Theorem main_trains_last (argv : list string) (w : World) :
  let result := main argv w in
  (trainModelCalls result.1.2 = [] /\ exists err, result.2 = inl err) \/
  (exists args w1 model before,
     parseArguments argv = inr args /\
     load w = (w1, inr tt) /\
     buildModel (modelType args) (Math_floor (divide (lookBack args) (step args)))
                (length (getDataColumnNames w1)) = inr model /\
     result.1.2 = before ++ [TrainModel (normalize args) (includeDateTime args)
                                        (lookBack args) (step args) (delay args)
                                        (batchSize args) (epochs args) (displayEvery args)] /\
     trainModelCalls before = [] /\
     (result.1.1, result.2) = trainModel model args w1).
Proof.
  unfold main.
  destruct (parseArguments argv) as [err|args]; [left; split; [reflexivity | now exists err]|].
  destruct (load w) as [w1 [err|[]]].
  { left. split; [destruct (gpu args); reflexivity | now exists err]. }
  destruct (buildModel _ _ _) as [err|model] eqn:Hbuild.
  { left. split; [destruct (gpu args); reflexivity | now exists err]. }
  right. exists args, w1, model.
  destruct (trainModel model args w1) as [w2 r].
  eexists. split; [reflexivity|]. split; [reflexivity|]. split; [exact Hbuild|].
  split; [reflexivity|]. split; [destruct (gpu args); reflexivity | reflexivity].
Qed.


End Main.


(** With a step of 0 the model is built for infinitely many time steps;
    when the data cannot be loaded nothing is built. *)
Example main_step_zero :
  buildModelCalls (main (H := exampleHost) ["--step"; "0"] []).1.2 =
    [BuildModel "gru" PosInf 3].
Proof. reflexivity. Qed.

Example main_offline :
  main (H := offlineHost) ["--gpu"] [] =
  ([], [ConsoleLog "Using GPU for training."; Require "@tensorflow/tfjs-node-gpu";
        ConsoleLog "Loading Jena weather data..."; Load],
   inl (mkError [Text "request failed"])).
Proof. reflexivity. Qed.

(** The forms of a command line that the parser accepts, and words it
    refuses: a prefix of an option string when it is of one only, a value
    after [=], a negative number as a value; not an option as a value, nor
    a word that is no option. *)
Example parseArguments_forms :
  parsed lookBack ["--lookBack=720"] = Some 720 /\
  parsed lookBack ["--look"; "720"] = Some 720 /\
  parsed delay ["--delay"; "-5"] = Some (-5) /\
  parsed normalize ["--normalize=false"] = Some (Str "false") /\
  parseArguments ["--d"; "5"] = inl (mkError [Text "Ambiguous option: "; Subst (Str "--d")]) /\
  parseArguments ["--normalize"; "--gpu"] = inl (mkError [Text "Expected one argument."]) /\
  parseArguments ["--gpu=1"] =
    inl (mkError [Text "ignored explicit argument "; Subst (Str "1")]) /\
  parseArguments ["train"; "--gpu"; "--fast"] =
    inl (mkError [Text "Unrecognized arguments: "; Subst (Str "train --fast"); Text "."]) /\
  parseArguments ["--gpu"; "-h"] = inl (mkError [Text "usage"]).
Proof. repeat split. Qed.

End JenaWeatherMoreFacts.
